(** * LaTeX converter plugin (src/main.ts): a shallow embedding and its properties

    The plugin reads the editor's selection, posts a prompt built from it to a
    local Ollama server, accumulates the streamed newline-delimited JSON answer
    and replaces the selection with it.

    Conventions of the embedding.
    - A JavaScript string is the list of its UTF-16 code units ([jsstring]).
    - Stateful code runs in a state-and-exception monad [M] over a [World]
      (editor, notices, issued requests, stream reads, console).
    - What the host decides (how the network answers, whether the editor
      refuses a replacement, how a Number prints) is a parameter ([Host]). *)

From Stdlib Require Import String Ascii NArith ZArith Bool Lia List Permutation.
Import ListNotations.

Set Warnings "-register-all".

(** ** JavaScript strings *)

Module JSString.

Definition jsstring := list N.

(** The code units of an ASCII literal. *)
Definition lit (s : string) : jsstring :=
  map N_of_ascii (list_ascii_of_string s).

Definition ch_lf : N := 10.
Definition ch_quote : N := 34.
Definition ch_dollar : N := 36.
Definition ch_amp : N := 38.
Definition ch_apos : N := 39.
Definition ch_backslash : N := 92.
Definition ch_backtick : N := 96.

(** An ASCII literal in which every apostrophe stands for a double quote. *)
Definition jq (s : string) : jsstring :=
  map (fun c => if N.eqb c ch_apos then ch_quote else c) (lit s).

Fixpoint eqb (s t : jsstring) : bool :=
  match s, t with
  | [], [] => true
  | c :: s', d :: t' => N.eqb c d && eqb s' t'
  | _, _ => false
  end.

(** [strip_prefix p s]: what follows [p] when [s] starts with [p]. *)
Fixpoint strip_prefix (p s : jsstring) : option jsstring :=
  match p with
  | [] => Some s
  | c :: p' =>
      match s with
      | [] => None
      | d :: s' => if N.eqb c d then strip_prefix p' s' else None
      end
  end.

(** [find_first p s]: the text before and after the first occurrence of [p]
    in [s] (String.prototype.indexOf from position 0). *)
Fixpoint find_first (p s : jsstring) : option (jsstring * jsstring) :=
  match strip_prefix p s with
  | Some rest => Some ([], rest)
  | None =>
      match s with
      | [] => None
      | c :: s' =>
          match find_first p s' with
          | Some (before, rest) => Some (c :: before, rest)
          | None => None
          end
      end
  end.

(** String.prototype.includes. *)
Definition includes (s p : jsstring) : bool :=
  match find_first p s with Some _ => true | None => false end.

(** GetSubstitution of ECMA-262 for a match without capture groups: in the
    replacement text, [$$] is a dollar sign, [$&] the matched text, [$`] the
    text before the match and [$'] the text after it; a dollar sign followed
    by anything else (digits included, as there is no group to refer to)
    stands for itself. *)
Fixpoint GetSubstitution (matched before rest template : jsstring) : jsstring :=
  match template with
  | [] => []
  | c :: t =>
      if N.eqb c ch_dollar then
        match t with
        | [] => [c]
        | d :: t' =>
            if N.eqb d ch_dollar then ch_dollar :: GetSubstitution matched before rest t'
            else if N.eqb d ch_amp then matched ++ GetSubstitution matched before rest t'
            else if N.eqb d ch_backtick then before ++ GetSubstitution matched before rest t'
            else if N.eqb d ch_apos then rest ++ GetSubstitution matched before rest t'
            else c :: GetSubstitution matched before rest t
        end
      else c :: GetSubstitution matched before rest t
  end.

(** String.prototype.replace with a string pattern: the first occurrence only,
    the replacement text expanded by [GetSubstitution]. *)
Definition replace (s pattern replacement : jsstring) : jsstring :=
  match find_first pattern s with
  | None => s
  | Some (before, rest) =>
      before ++ GetSubstitution pattern before rest replacement ++ rest
  end.

(** String.prototype.replace with the global regular expression that matches
    the single character [c], and a replacement text free of dollar signs. *)
Definition replace_all_char (c : N) (replacement s : jsstring) : jsstring :=
  flat_map (fun x => if N.eqb x c then replacement else [x]) s.

(** String.prototype.split with the line feed as separator. *)
Fixpoint split_lf (s : jsstring) : list jsstring :=
  match s with
  | [] => [[]]
  | c :: s' =>
      if N.eqb c ch_lf then [] :: split_lf s'
      else
        match split_lf s' with
        | [] => [[c]]
        | l :: ls => (c :: l) :: ls
        end
  end.

(** WhiteSpace and LineTerminator of ECMA-262, which String.prototype.trim
    strips: TAB, LF, VT, FF, CR, SPACE, NBSP, the Unicode space separators,
    LS, PS and the byte order mark. *)
Definition is_white_space (c : N) : bool :=
  ((9 <=? c) && (c <=? 13) || (c =? 32) || (c =? 160) || (c =? 5760)
   || (8192 <=? c) && (c <=? 8202) || (c =? 8232) || (c =? 8233)
   || (c =? 8239) || (c =? 8287) || (c =? 12288) || (c =? 65279))%N.

Fixpoint trim_start (s : jsstring) : jsstring :=
  match s with
  | [] => []
  | c :: s' => if is_white_space c then trim_start s' else s
  end.

Definition trim_end (s : jsstring) : jsstring := rev (trim_start (rev s)).

(** String.prototype.trim. *)
Definition trim (s : jsstring) : jsstring := trim_end (trim_start s).

Definition is_empty (s : jsstring) : bool :=
  match s with [] => true | _ => false end.

(** Decimal digits of a [Decimal.uint]. *)
Fixpoint digits_of_uint (d : Decimal.uint) : jsstring :=
  match d with
  | Decimal.Nil => []
  | Decimal.D0 d' => 48%N :: digits_of_uint d'
  | Decimal.D1 d' => 49%N :: digits_of_uint d'
  | Decimal.D2 d' => 50%N :: digits_of_uint d'
  | Decimal.D3 d' => 51%N :: digits_of_uint d'
  | Decimal.D4 d' => 52%N :: digits_of_uint d'
  | Decimal.D5 d' => 53%N :: digits_of_uint d'
  | Decimal.D6 d' => 54%N :: digits_of_uint d'
  | Decimal.D7 d' => 55%N :: digits_of_uint d'
  | Decimal.D8 d' => 56%N :: digits_of_uint d'
  | Decimal.D9 d' => 57%N :: digits_of_uint d'
  end.

(** How a template literal prints a non-negative integer. *)
Definition decimal (n : N) : jsstring := digits_of_uint (N.to_uint n).

End JSString.
Import JSString.

(** ** JavaScript values and JSON.parse *)

Module JSON.

(** The mathematical value of a JSON number literal:
    [(-1)^negative * mantissa * 10^exponent10]. *)
Record Number := {
  negative : bool;
  mantissa : N;
  exponent10 : Z;
}.

(** The values JSON.parse produces, and [undefined], which a property read
    may produce. An object keeps its members as written, duplicates included. *)
Inductive JSValue :=
| JUndefined
| JNull
| JBool (b : bool)
| JNumber (n : Number)
| JString (s : jsstring)
| JArray (elements : list JSValue)
| JObject (members : list (jsstring * JSValue)).

(** *** The JSON grammar (ECMA-404), by recursive descent *)

Inductive Parsed (A : Type) :=
| POk (a : A) (rest : jsstring)
| PSyntaxError
| POutOfFuel.
Arguments POk {A}.
Arguments PSyntaxError {A}.
Arguments POutOfFuel {A}.

Definition is_json_ws (c : N) : bool :=
  ((c =? 9) || (c =? 10) || (c =? 13) || (c =? 32))%N.

Fixpoint skip_ws (s : jsstring) : jsstring :=
  match s with
  | [] => []
  | c :: s' => if is_json_ws c then skip_ws s' else s
  end.

Definition is_digit (c : N) : bool := ((48 <=? c) && (c <=? 57))%N.

Definition hex_value (c : N) : option N :=
  if ((48 <=? c) && (c <=? 57))%N then Some (c - 48)%N
  else if ((65 <=? c) && (c <=? 70))%N then Some (c - 55)%N
  else if ((97 <=? c) && (c <=? 102))%N then Some (c - 87)%N
  else None.

Definition hex4 (a b c d : N) : option N :=
  match hex_value a, hex_value b, hex_value c, hex_value d with
  | Some x, Some y, Some z, Some w => Some (((x * 16 + y) * 16 + z) * 16 + w)%N
  | _, _, _, _ => None
  end.

(** The character a two-character escape stands for. *)
Definition simple_escape (c : N) : option N :=
  if (c =? 34)%N then Some 34%N            (* quotation mark *)
  else if (c =? 92)%N then Some 92%N       (* reverse solidus *)
  else if (c =? 47)%N then Some 47%N       (* solidus *)
  else if (c =? 98)%N then Some 8%N        (* b: backspace *)
  else if (c =? 102)%N then Some 12%N      (* f: form feed *)
  else if (c =? 110)%N then Some 10%N      (* n: line feed *)
  else if (c =? 114)%N then Some 13%N      (* r: carriage return *)
  else if (c =? 116)%N then Some 9%N       (* t: tab *)
  else None.

Definition cons_char (c : N) (r : option (jsstring * jsstring)) :
  option (jsstring * jsstring) :=
  match r with
  | Some (s, rest) => Some (c :: s, rest)
  | None => None
  end.

(** The characters of a string literal after its opening quote, up to and
    including the closing quote. *)
Fixpoint parse_chars (s : jsstring) : option (jsstring * jsstring) :=
  match s with
  | [] => None
  | c :: r =>
      if (c =? ch_quote)%N then Some ([], r)
      else if (c =? ch_backslash)%N then
        match r with
        | [] => None
        | e :: r1 =>
            if (e =? 117)%N then
              match r1 with
              | h1 :: h2 :: h3 :: h4 :: r2 =>
                  match hex4 h1 h2 h3 h4 with
                  | Some u => cons_char u (parse_chars r2)
                  | None => None
                  end
              | _ => None
              end
            else
              match simple_escape e with
              | Some x => cons_char x (parse_chars r1)
              | None => None
              end
        end
      else if (c <? 32)%N then None
      else cons_char c (parse_chars r)
  end.

(** The longest run of digits at the head of [s], as (value, count, rest). *)
Fixpoint take_digits (acc : N) (count : nat) (s : jsstring) : N * nat * jsstring :=
  match s with
  | c :: s' =>
      if is_digit c then take_digits (acc * 10 + (c - 48))%N (S count) s'
      else (acc, count, s)
  | [] => (acc, count, s)
  end.

(** int: a single zero, or a non-zero digit followed by digits. *)
Definition parse_int (s : jsstring) : option (N * jsstring) :=
  match s with
  | c :: s' =>
      if (c =? 48)%N then Some (0%N, s')
      else if is_digit c then
        let '(v, _, rest) := take_digits 0%N 0 s in Some (v, rest)
      else None
  | [] => None
  end.

(** frac: a dot followed by at least one digit; the mantissa is extended and
    the number of fraction digits returned. *)
Definition parse_frac (m : N) (s : jsstring) : option (N * nat * jsstring) :=
  match s with
  | c :: s' =>
      if (c =? 46)%N then
        match take_digits m 0 s' with
        | (_, O, _) => None
        | r => Some r
        end
      else Some (m, O, s)
  | [] => Some (m, O, s)
  end.

(** exp: e or E, an optional sign, at least one digit. *)
Definition parse_exp (s : jsstring) : option (Z * jsstring) :=
  match s with
  | c :: s' =>
      if ((c =? 101) || (c =? 69))%N then
        let '(neg, s1) :=
          match s' with
          | d :: s2 =>
              if (d =? 45)%N then (true, s2)
              else if (d =? 43)%N then (false, s2)
              else (false, s')
          | [] => (false, s')
          end in
        match take_digits 0%N 0 s1 with
        | (_, O, _) => None
        | (v, _, rest) => Some (if neg then (- Z.of_N v)%Z else Z.of_N v, rest)
        end
      else Some (0%Z, s)
  | [] => Some (0%Z, s)
  end.

Definition parse_number (s : jsstring) : option (Number * jsstring) :=
  let '(neg, s0) :=
    match s with
    | c :: s' => if (c =? 45)%N then (true, s') else (false, s)
    | [] => (false, s)
    end in
  match parse_int s0 with
  | None => None
  | Some (i, s1) =>
      match parse_frac i s1 with
      | None => None
      | Some (m, fdigits, s2) =>
          match parse_exp s2 with
          | None => None
          | Some (e, s3) =>
              Some ({| negative := neg; mantissa := m;
                       exponent10 := (e - Z.of_nat fdigits)%Z |}, s3)
          end
      end
  end.

Definition parse_literal (s : jsstring) : option (JSValue * jsstring) :=
  match strip_prefix (lit "true") s with
  | Some rest => Some (JBool true, rest)
  | None =>
  match strip_prefix (lit "false") s with
  | Some rest => Some (JBool false, rest)
  | None =>
  match strip_prefix (lit "null") s with
  | Some rest => Some (JNull, rest)
  | None =>
  match parse_number s with
  | Some (n, rest) => Some (JNumber n, rest)
  | None => None
  end end end end.

(** value, and the element and member lists of arrays and objects after their
    first item is known to exist. Every nested call spends one unit of fuel. *)
Fixpoint parse_value (fuel : nat) (s : jsstring) {struct fuel} : Parsed JSValue :=
  match fuel with
  | O => POutOfFuel
  | S fuel' =>
      match skip_ws s with
      | [] => PSyntaxError
      | c :: r =>
          if (c =? 123)%N then
            match skip_ws r with
            | d :: r' =>
                if (d =? 125)%N then POk (JObject []) r'
                else parse_members fuel' (d :: r') []
            | [] => PSyntaxError
            end
          else if (c =? 91)%N then
            match skip_ws r with
            | d :: r' =>
                if (d =? 93)%N then POk (JArray []) r'
                else parse_elements fuel' (d :: r') []
            | [] => PSyntaxError
            end
          else if (c =? ch_quote)%N then
            match parse_chars r with
            | Some (str, rest) => POk (JString str) rest
            | None => PSyntaxError
            end
          else
            match parse_literal (c :: r) with
            | Some (v, rest) => POk v rest
            | None => PSyntaxError
            end
      end
  end
with parse_elements (fuel : nat) (s : jsstring) (acc : list JSValue)
  {struct fuel} : Parsed JSValue :=
  match fuel with
  | O => POutOfFuel
  | S fuel' =>
      match parse_value fuel' s with
      | POk v rest =>
          match skip_ws rest with
          | c :: r =>
              if (c =? 44)%N then parse_elements fuel' r (v :: acc)
              else if (c =? 93)%N then POk (JArray (rev (v :: acc))) r
              else PSyntaxError
          | [] => PSyntaxError
          end
      | PSyntaxError => PSyntaxError
      | POutOfFuel => POutOfFuel
      end
  end
with parse_members (fuel : nat) (s : jsstring) (acc : list (jsstring * JSValue))
  {struct fuel} : Parsed JSValue :=
  match fuel with
  | O => POutOfFuel
  | S fuel' =>
      match skip_ws s with
      | q :: r0 =>
          if (q =? ch_quote)%N then
            match parse_chars r0 with
            | Some (key, r1) =>
                match skip_ws r1 with
                | colon :: r2 =>
                    if (colon =? 58)%N then
                      match parse_value fuel' r2 with
                      | POk v rest =>
                          match skip_ws rest with
                          | c :: r =>
                              if (c =? 44)%N then
                                parse_members fuel' r ((key, v) :: acc)
                              else if (c =? 125)%N then
                                POk (JObject (rev ((key, v) :: acc))) r
                              else PSyntaxError
                          | [] => PSyntaxError
                          end
                      | PSyntaxError => PSyntaxError
                      | POutOfFuel => POutOfFuel
                      end
                    else PSyntaxError
                | [] => PSyntaxError
                end
            | None => PSyntaxError
            end
          else PSyntaxError
      | [] => PSyntaxError
      end
  end.

Definition parse_fuel (s : jsstring) : nat := S (2 * List.length s).

(** JSON.parse on a string, without reviver: [None] is the SyntaxError. *)
Definition JSON_parse (text : jsstring) : option JSValue :=
  match parse_value (parse_fuel text) text with
  | POk v rest =>
      match skip_ws rest with
      | [] => Some v
      | _ :: _ => None
      end
  | _ => None
  end.

(** *** Conversions the plugin applies to parsed values *)

(** The Number a literal denotes is zero when its mathematical value rounds
    to zero in binary64 (nearest, ties to even): the mantissa is zero, or the
    value is at most 2^-1075, half the least positive Number. *)
Definition number_is_zero (n : Number) : bool :=
  ((mantissa n =? 0)%N
   || ((exponent10 n <? 0)
       && (Z.of_N (mantissa n) * 2 ^ 1075 <=? 10 ^ (- exponent10 n)))%Z).

Definition ToBoolean (v : JSValue) : bool :=
  match v with
  | JUndefined | JNull => false
  | JBool b => b
  | JNumber n => negb (number_is_zero n)
  | JString s => negb (is_empty s)
  | JArray _ | JObject _ => true
  end.

(** The value of the last member named [key], when there is one. *)
Fixpoint lookup (key : jsstring) (members : list (jsstring * JSValue)) :
  option JSValue :=
  match members with
  | [] => None
  | (k, v) :: rest =>
      match lookup key rest with
      | Some v' => Some v'
      | None => if JSString.eqb k key then Some v else None
      end
  end.

(** The property read [data.response]: [None] is the TypeError that reading a
    property of [null] or [undefined] raises. Only an object made by
    JSON.parse can own a member of that name; on every other value the read
    goes to the prototype, which has none. *)
Definition get_response (data : JSValue) : option JSValue :=
  match data with
  | JUndefined | JNull => None
  | JObject members =>
      match lookup (lit "response") members with
      | Some v => Some v
      | None => Some JUndefined
      end
  | _ => Some JUndefined
  end.

Section ToString.

(** Number::toString, which ECMA-262 leaves partly to the implementation. *)
Variable Number_toString : Number -> jsstring.

(** The string a value becomes when appended to a string: [None] is the
    TypeError of an object whose own [toString] member hides the inherited
    method (a JSON value is never callable). An array prints its elements
    joined by commas, [null] elements as the empty string. *)
Fixpoint ToString (v : JSValue) : option jsstring :=
  match v with
  | JUndefined => Some (lit "undefined")
  | JNull => Some (lit "null")
  | JBool true => Some (lit "true")
  | JBool false => Some (lit "false")
  | JNumber n => Some (Number_toString n)
  | JString s => Some s
  | JArray elements =>
      (fix join (l : list JSValue) : option jsstring :=
         match l with
         | [] => Some []
         | x :: rest =>
             let first :=
               match x with
               | JUndefined | JNull => Some []
               | _ => ToString x
               end in
             match rest with
             | [] => first
             | _ :: _ =>
                 match first, join rest with
                 | Some a, Some b => Some (a ++ lit "," ++ b)
                 | _, _ => None
                 end
             end
         end) elements
  | JObject members =>
      match lookup (lit "toString") members with
      | Some _ => None
      | None => Some (lit "[object Object]")
      end
  end.

End ToString.

End JSON.
Import JSON.

(** ** The world the plugin runs in *)

(** What a [throw] carries: an Error instance with its message, or any other
    value. *)
Inductive Thrown :=
| JSError (message : jsstring)
| NonError (v : JSValue).

(** An Obsidian Notice: a timeout of 0 keeps it until hidden. *)
Record Notice := {
  notice_message : jsstring;
  notice_timeout : N;
  notice_hidden : bool;
}.

(** The document around the selection. *)
Record Editor := {
  doc_before : jsstring;
  doc_selection : jsstring;
  doc_after : jsstring;
}.

(** The object handed to JSON.stringify for the request body. *)
Record RequestBody := {
  model : jsstring;
  prompt : jsstring;
  stream : bool;
  keep_alive : jsstring;
}.

Record Request := {
  url : jsstring;
  method : jsstring;
  headers : list (jsstring * jsstring);
  body : RequestBody;
}.

(** A response body as its reader delivers it: for each read, the text that
    a fresh TextDecoder decodes its bytes to (line 95); then the end of the
    stream, or a read that fails. *)
Record ResponseBody := {
  chunks : list jsstring;
  failure : option Thrown;
}.

Record Response := {
  status : N;
  response_body : option ResponseBody;
}.

(** Response.ok: a status from 200 to 299. *)
Definition ok (r : Response) : bool :=
  ((200 <=? status r) && (status r <=? 299))%N.

Inductive FetchOutcome :=
| FetchRejects (e : Thrown)
| FetchResolves (r : Response).

(** What the host decides. *)
Record Host := {
  Number_toString : Number -> jsstring;
  fetch_outcome : Request -> FetchOutcome;
  replaceSelection_throws : option Thrown;
}.

(** An argument of console.error: a text, a caught value, or an error object
    the engine made (its message is the engine's own). *)
Inductive ConsoleArg :=
| Text (s : jsstring)
| Caught (e : Thrown)
| CaughtEngineError.

Record World := {
  editor : Editor;
  notices : list Notice;
  requests : list Request;
  reads : nat;
  replacements : list jsstring;
  console : list (list ConsoleArg);
}.

(** *** State and exceptions *)

Inductive Outcome (A : Type) :=
| Returned (a : A)
| Threw (e : Thrown).
Arguments Returned {A}.
Arguments Threw {A}.

Definition M (A : Type) : Type := World -> Outcome A * World.

Definition ret {A} (a : A) : M A := fun w => (Returned a, w).

Definition throw {A} (e : Thrown) : M A := fun w => (Threw e, w).

Definition bind {A B} (m : M A) (k : A -> M B) : M B :=
  fun w =>
    match m w with
    | (Returned a, w') => k a w'
    | (Threw e, w') => (Threw e, w')
    end.

(** try { m } catch (e) { handler e } *)
Definition try_catch {A} (m : M A) (handler : Thrown -> M A) : M A :=
  fun w =>
    match m w with
    | (Returned a, w') => (Returned a, w')
    | (Threw e, w') => handler e w'
    end.

(** try { m } finally { cleanup }: the cleanup runs on both ways out, and the
    outcome of [m] stands unless the cleanup itself throws. *)
Definition try_finally {A} (m : M A) (cleanup : M unit) : M A :=
  fun w =>
    match m w with
    | (r, w') =>
        match cleanup w' with
        | (Returned _, w'') => (r, w'')
        | (Threw e, w'') => (Threw e, w'')
        end
    end.

Declare Scope js_scope.
Delimit Scope js_scope with js.
Notation "x <- m ;; k" := (bind m (fun x => k))
  (at level 61, m at next level, right associativity) : js_scope.
Notation "m ;; k" := (bind m (fun _ => k))
  (at level 61, right associativity) : js_scope.
Open Scope js_scope.

(** *** Host operations *)

Definition set_editor (e : Editor) (w : World) : World :=
  {| editor := e; notices := notices w; requests := requests w;
     reads := reads w; replacements := replacements w; console := console w |}.

Definition set_notices (n : list Notice) (w : World) : World :=
  {| editor := editor w; notices := n; requests := requests w;
     reads := reads w; replacements := replacements w; console := console w |}.

Definition set_requests (r : list Request) (w : World) : World :=
  {| editor := editor w; notices := notices w; requests := r;
     reads := reads w; replacements := replacements w; console := console w |}.

Definition set_reads (n : nat) (w : World) : World :=
  {| editor := editor w; notices := notices w; requests := requests w;
     reads := n; replacements := replacements w; console := console w |}.

Definition set_replacements (r : list jsstring) (w : World) : World :=
  {| editor := editor w; notices := notices w; requests := requests w;
     reads := reads w; replacements := r; console := console w |}.

Definition set_console (c : list (list ConsoleArg)) (w : World) : World :=
  {| editor := editor w; notices := notices w; requests := requests w;
     reads := reads w; replacements := replacements w; console := c |}.

(** editor.getSelection() *)
Definition getSelection : M jsstring :=
  fun w => (Returned (doc_selection (editor w)), w).

(** editor.replaceSelection(text): the call is recorded; unless the host
    refuses it, the text takes the place of the selection and the cursor
    stands after it. *)
Definition replaceSelection (host : Host) (text : jsstring) : M unit :=
  fun w =>
    let w' := set_replacements (replacements w ++ [text]) w in
    match replaceSelection_throws host with
    | Some e => (Threw e, w')
    | None =>
        (Returned tt,
         set_editor {| doc_before := doc_before (editor w) ++ text;
                       doc_selection := [];
                       doc_after := doc_after (editor w) |} w')
    end.

(** new Notice(message, timeout): shown at once; the result is its handle, the
    position among the notices made so far. *)
Definition new_Notice (message : jsstring) (timeout : N) : M nat :=
  fun w =>
    (Returned (List.length (notices w)),
     set_notices (notices w ++ [{| notice_message := message;
                                   notice_timeout := timeout;
                                   notice_hidden := false |}]) w).

Definition hide_notice (n : Notice) : Notice :=
  {| notice_message := notice_message n; notice_timeout := notice_timeout n;
     notice_hidden := true |}.

Fixpoint hide_at (handle : nat) (l : list Notice) : list Notice :=
  match l, handle with
  | [], _ => []
  | n :: rest, O => hide_notice n :: rest
  | n :: rest, S h => n :: hide_at h rest
  end.

(** notice.hide() *)
Definition hide (handle : nat) : M unit :=
  fun w => (Returned tt, set_notices (hide_at handle (notices w)) w).

(** console.error(...args) *)
Definition console_error (args : list ConsoleArg) : M unit :=
  fun w => (Returned tt, set_console (console w ++ [args]) w).

(** await fetch(url, init): the request is recorded as issued. *)
Definition fetch (host : Host) (req : Request) : M Response :=
  fun w =>
    let w' := set_requests (requests w ++ [req]) w in
    match fetch_outcome host req with
    | FetchRejects e => (Threw e, w')
    | FetchResolves r => (Returned r, w')
    end.

(** One await reader.read() is counted in [reads]. *)
Definition count_read : M unit :=
  fun w => (Returned tt, set_reads (S (reads w)) w).

(** ** The plugin (src/main.ts) *)

Record LatexConverterSettings := {
  ollamaModel : jsstring;
  llmPrompt : jsstring;
  keepAlive : jsstring;
}.

Definition DEFAULT_SETTINGS : LatexConverterSettings :=
  {| ollamaModel := lit "llama2";
     llmPrompt :=
       lit "Convert the following natural language to a LaTeX equation, output ONLY THE EQUATION AND NOTHING ELSE: "
       ++ [ch_quote] ++ lit "{input}" ++ [ch_quote]
       ++ lit ". Output should be in this format: ${output}$";
     keepAlive := lit "5m" |}.

Definition ollamaEndpoint : jsstring := lit "http://localhost:11434/api/generate".

(** Line 64: every backslash doubled, then every double quote preceded by a
    backslash. *)
Definition sanitizedInput (input : jsstring) : jsstring :=
  replace_all_char ch_quote [ch_backslash; ch_quote]
    (replace_all_char ch_backslash [ch_backslash; ch_backslash] input).

(** Line 65. *)
Definition build_prompt (settings : LatexConverterSettings) (input : jsstring) :
  jsstring :=
  replace (llmPrompt settings) (lit "{input}") (sanitizedInput input).

(** Lines 67-78: the request of one conversion. *)
Definition build_request (settings : LatexConverterSettings) (input : jsstring) :
  Request :=
  {| url := ollamaEndpoint;
     method := lit "POST";
     headers := [(lit "Content-Type", lit "application/json")];
     body := {| model := ollamaModel settings;
                prompt := build_prompt settings input;
                stream := true;
                keep_alive := keepAlive settings |} |}.

(** Line 96: the lines of one decoded chunk that are not blank. *)
Definition lines_of (chunk : jsstring) : list jsstring :=
  filter (fun line => negb (is_empty (trim line))) (split_lf chunk).

Definition parse_failure : Thrown :=
  JSError (lit "Failed to parse response from Ollama").

(** Lines 100-103, the body of the inner try: the accumulator after the line,
    or [None] when JSON.parse, the property read or the append throws. *)
Definition try_line (host : Host) (latexEquation line : jsstring) :
  option jsstring :=
  match JSON_parse line with
  | None => None
  | Some data =>
      match get_response data with
      | None => None
      | Some response =>
          if ToBoolean response then
            match ToString (Number_toString host) response with
            | Some text => Some (latexEquation ++ text)
            | None => None
            end
          else Some latexEquation
      end
  end.

(** Lines 99-107: one line under its try/catch. *)
Definition process_line (host : Host) (latexEquation line : jsstring) :
  M jsstring :=
  match try_line host latexEquation line with
  | Some latexEquation' => ret latexEquation'
  | None =>
      console_error [Text (lit "Error parsing JSON:"); CaughtEngineError] ;;
      throw parse_failure
  end.

(** Lines 98-108: the for loop over the lines of a chunk. *)
Fixpoint process_lines (host : Host) (lines : list jsstring)
  (latexEquation : jsstring) : M jsstring :=
  match lines with
  | [] => ret latexEquation
  | line :: rest =>
      latexEquation' <- process_line host latexEquation line ;;
      process_lines host rest latexEquation'
  end.

(** Lines 91-109: the while loop over the reads of the body. *)
Fixpoint read_loop (host : Host) (pending : list jsstring)
  (failure : option Thrown) (latexEquation : jsstring) : M jsstring :=
  match pending with
  | [] =>
      count_read ;;
      match failure with
      | Some e => throw e
      | None => ret latexEquation
      end
  | chunk :: rest =>
      count_read ;;
      latexEquation' <- process_lines host (lines_of chunk) latexEquation ;;
      read_loop host rest failure latexEquation'
  end.

(** Lines 59-116. *)
Definition callLocalLLM (settings : LatexConverterSettings) (host : Host)
  (input : jsstring) : M jsstring :=
  try_catch
    (response <- fetch host (build_request settings input) ;;
     if negb (ok response) then
       throw (JSError (lit "HTTP error! status: " ++ decimal (status response)))
     else
       match response_body response with
       | None => throw (JSError (lit "Unable to read response from Ollama"))
       | Some reader =>
           latexEquation <- read_loop host (chunks reader) (failure reader) [] ;;
           ret (trim latexEquation)
       end)
    (fun error =>
       console_error [Text (lit "Error in callLocalLLM:"); Caught error] ;;
       throw error).

(** Lines 119-131: the message for a caught value. *)
Definition errorMessage (error : Thrown) : jsstring :=
  match error with
  | JSError message =>
      if includes message (lit "HTTP error") then
        lit "Failed to connect to Ollama. Please ensure Ollama is running and accessible at http://localhost:11434. Error: "
        ++ message
      else if includes message (lit "Failed to parse response") then
        lit "Received an invalid response from Ollama. The model might be having issues. Error: "
        ++ message
      else if includes message (lit "Unable to read response") then
        lit "Failed to read the response from Ollama. The connection might have been interrupted. Error: "
        ++ message
      else lit "Error converting to LaTeX: " ++ message
  | NonError _ => lit "An unexpected error occurred while converting to LaTeX."
  end.

(** Lines 118-135. *)
Definition handleError (error : Thrown) : M unit :=
  new_Notice (errorMessage error) 10000 ;;
  console_error [Text (errorMessage error)].

(** Lines 39-57. *)
Definition convertToLatex (settings : LatexConverterSettings) (host : Host) :
  M unit :=
  selection <- getSelection ;;
  if is_empty selection then
    new_Notice (lit "No text selected. Please select the text you want to convert to LaTeX.") 5000 ;;
    ret tt
  else
    loadingNotice <- new_Notice (lit "Converting to LaTeX...") 0 ;;
    try_finally
      (try_catch
         (latexEquation <- callLocalLLM settings host selection ;;
          replaceSelection host latexEquation ;;
          new_Notice (lit "Successfully converted to LaTeX!") 3000 ;;
          ret tt)
         handleError)
      (hide loadingNotice).

(** Lines 48-53, the try and catch blocks, with the callees left open:
    [client] stands for callLocalLLM, [replace_op] for editor.replaceSelection
    and [report] for handleError. *)
Definition try_convert (client : jsstring -> M jsstring)
  (replace_op : jsstring -> M unit) (report : Thrown -> M unit)
  (selection : jsstring) : M unit :=
  try_catch
    (latexEquation <- client selection ;;
     replace_op latexEquation ;;
     new_Notice (lit "Successfully converted to LaTeX!") 3000 ;;
     ret tt)
    report.

(** Lines 39-57 over these callees. *)
Definition convertToLatex_with (client : jsstring -> M jsstring)
  (replace_op : jsstring -> M unit) (report : Thrown -> M unit) : M unit :=
  selection <- getSelection ;;
  if is_empty selection then
    new_Notice (lit "No text selected. Please select the text you want to convert to LaTeX.") 5000 ;;
    ret tt
  else
    loadingNotice <- new_Notice (lit "Converting to LaTeX...") 0 ;;
    try_finally (try_convert client replace_op report selection)
                (hide loadingNotice).

(** ** Hosts and streams for running the model *)

(** Prints an integer literal (no fraction, no negative exponent) of magnitude
    at most 2^53 as Number::toString does; the streams below carry no other
    number where it would be printed. *)
Definition print_integer (n : Number) : jsstring :=
  (if negative n && negb (number_is_zero n) then lit "-" else [])
  ++ decimal (mantissa n * 10 ^ Z.to_N (exponent10 n)).

(** A host whose server answers every request with [r]. *)
Definition answering (r : Response) : Host :=
  {| Number_toString := print_integer;
     fetch_outcome := fun _ => FetchResolves r;
     replaceSelection_throws := None |}.

(** A response with status 200 whose body arrives in the given reads. *)
Definition streamed (reads : list jsstring) : Response :=
  {| status := 200;
     response_body := Some {| chunks := reads; failure := None |} |}.

(** A host whose network fails: fetch rejects. *)
Definition unreachable : Host :=
  {| Number_toString := print_integer;
     fetch_outcome := fun _ => FetchRejects (JSError (lit "Failed to fetch"));
     replaceSelection_throws := None |}.

(** Two reads with the boundary inside a line: the stream is the one line
    made of two JSON texts, which is not a JSON text. *)
Definition split_line_reads : list jsstring :=
  [jq "{'response':'a'}"; jq "{'response':'b'}" ++ [ch_lf]].

Definition selecting (selection : jsstring) : World :=
  {| editor := {| doc_before := lit "Let "; doc_selection := selection;
                  doc_after := lit " be given." |};
     notices := []; requests := []; reads := 0; replacements := [];
     console := [] |}.

(** ** Definitions the statements use *)

(** What the two replacements of line 64 do to one character. *)
Definition escape_char (c : N) : jsstring :=
  if N.eqb c ch_backslash then [ch_backslash; ch_backslash]
  else if N.eqb c ch_quote then [ch_backslash; ch_quote]
  else [c].

(** The [response] string member of the value a line parses to; the empty
    string when there is none. *)
Definition response_field (line : jsstring) : jsstring :=
  match JSON_parse line with
  | Some (JObject members) =>
      match lookup (lit "response") members with
      | Some (JString s) => s
      | _ => []
      end
  | _ => []
  end.

(** A line that parses to a value other than [null] whose [response] member is
    absent, a string, or falsy. *)
Definition plain_line (line : jsstring) : bool :=
  match JSON_parse line with
  | Some data =>
      match get_response data with
      | Some (JString _) => true
      | Some response => negb (ToBoolean response)
      | None => false
      end
  | None => false
  end.

(** The non-blank lines of a stream, read by read. *)
Definition stream_lines (reads : list jsstring) : list jsstring :=
  flat_map lines_of reads.

(** A chunk that stops where a line stops: it is empty or its last character
    is a line feed. *)
Definition ends_line (chunk : jsstring) : bool :=
  match rev chunk with
  | [] => true
  | c :: _ => N.eqb c ch_lf
  end.

(** No read stops inside a line: every read but the last stops where a line
    stops. *)
Definition whole_line_reads (reads : list jsstring) : bool :=
  forallb ends_line (removelast reads).

(** A computation that leaves the notices made before it in place and as
    they are: it can only add notices. *)
Definition keeps_notices {A} (m : M A) : Prop :=
  forall w, exists more, notices (snd (m w)) = notices w ++ more.

(** The parts of the world the LLM client leaves alone. *)
Definition same_document (w w' : World) : Prop :=
  editor w' = editor w /\ notices w' = notices w
  /\ replacements w' = replacements w.

Definition logged_parse_error (w : World) : World :=
  set_console (console w ++ [[Text (lit "Error parsing JSON:"); CaughtEngineError]]) w.

Definition http_error (r : Response) : Thrown :=
  JSError (lit "HTTP error! status: " ++ decimal (status r)).

Definition logged_call_error (e : Thrown) (w : World) : World :=
  set_console (console w ++ [[Text (lit "Error in callLocalLLM:"); Caught e]]) w.

Definition issued (req : Request) (w : World) : World :=
  set_requests (requests w ++ [req]) w.

Definition loading_notice (hidden : bool) : Notice :=
  {| notice_message := lit "Converting to LaTeX..."; notice_timeout := 0;
     notice_hidden := hidden |}.

Definition no_selection_notice : Notice :=
  {| notice_message :=
       lit "No text selected. Please select the text you want to convert to LaTeX.";
     notice_timeout := 5000; notice_hidden := false |}.

Definition error_notice (e : Thrown) : Notice :=
  {| notice_message := errorMessage e; notice_timeout := 10000;
     notice_hidden := false |}.

Definition success_notice : Notice :=
  {| notice_message := lit "Successfully converted to LaTeX!";
     notice_timeout := 3000; notice_hidden := false |}.

(** The world when the client is called: the progress notice is up. *)
Definition loading (w : World) : World :=
  set_notices (notices w ++ [loading_notice false]) w.

(** The classes of the specification, in its order: the marker looked for in
    the message, and the text put before the message. *)
Definition error_classes : list (jsstring * jsstring) :=
  [(lit "HTTP error",
    lit "Failed to connect to Ollama. Please ensure Ollama is running and accessible at http://localhost:11434. Error: ");
   (lit "Failed to parse response",
    lit "Received an invalid response from Ollama. The model might be having issues. Error: ");
   (lit "Unable to read response",
    lit "Failed to read the response from Ollama. The connection might have been interrupted. Error: ")].

(** First matching marker wins; an Error that matches none is wrapped in the
    generic text; anything that is not an Error gets the fixed text. *)
Definition first_matching_class (error : Thrown) : jsstring :=
  match error with
  | JSError message =>
      match find (fun class => includes message (fst class)) error_classes with
      | Some class => snd class ++ message
      | None => lit "Error converting to LaTeX: " ++ message
      end
  | NonError _ => lit "An unexpected error occurred while converting to LaTeX."
  end.

(** The accumulator after a list of lines, [None] when one of them throws. *)
Fixpoint accumulate (host : Host) (lines : list jsstring) (latexEquation : jsstring) :
  option jsstring :=
  match lines with
  | [] => Some latexEquation
  | line :: rest =>
      match try_line host latexEquation line with
      | Some latexEquation' => accumulate host rest latexEquation'
      | None => None
      end
  end.

Definition outcome_of (r : option jsstring) : Outcome jsstring :=
  match r with
  | Some latexEquation => Returned latexEquation
  | None => Threw parse_failure
  end.

(** ** Definitions the further properties use *)

(** The error of line 87. *)
Definition unreadable : Thrown :=
  JSError (lit "Unable to read response from Ollama").

(** The editor after [text] has taken the place of the selection. *)
Definition replaced_by (text : jsstring) (e : Editor) : Editor :=
  {| doc_before := doc_before e ++ text; doc_selection := [];
     doc_after := doc_after e |}.

(** Reads a backslash as the mark that the next character stands for
    itself. *)
Fixpoint unescape (s : jsstring) : jsstring :=
  match s with
  | [] => []
  | c :: r =>
      if N.eqb c ch_backslash then
        match r with
        | [] => [c]
        | d :: r' => d :: unescape r'
        end
      else c :: unescape r
  end.

(** No dollar sign of the text is followed by a dollar sign, an ampersand, a
    backtick or an apostrophe. *)
Fixpoint dollar_safe (s : jsstring) : bool :=
  match s with
  | [] => true
  | c :: r =>
      if N.eqb c ch_dollar then
        match r with
        | [] => true
        | d :: _ =>
            negb (N.eqb d ch_dollar || N.eqb d ch_amp || N.eqb d ch_backtick
                  || N.eqb d ch_apos)
            && dollar_safe r
        end
      else dollar_safe r
  end.

(** What the loop comes to: the accumulated text when every line went
    through and the stream ended, the read's failure when it did not end, the
    parse failure when a line threw. *)
Definition loop_outcome (failure : option Thrown) (r : option jsstring) :
  Outcome jsstring :=
  match r with
  | None => Threw parse_failure
  | Some latexEquation =>
      match failure with
      | Some e => Threw e
      | None => Returned latexEquation
      end
  end.

(** *** JSON.stringify on the request body (line 72) *)

Definition hex_digit (d : N) : N :=
  if (d <? 10)%N then (48 + d)%N else (87 + d)%N.

(** UnicodeEscape of ECMA-262: backslash, u, four lowercase hexadecimal
    digits. *)
Definition UnicodeEscape (c : N) : jsstring :=
  [ch_backslash; 117; hex_digit (c / 4096); hex_digit ((c / 256) mod 16);
   hex_digit ((c / 16) mod 16); hex_digit (c mod 16)]%N.

Definition is_leading_surrogate (c : N) : bool :=
  ((55296 <=? c) && (c <=? 56319))%N.

Definition is_trailing_surrogate (c : N) : bool :=
  ((56320 <=? c) && (c <=? 57343))%N.

(** QuoteJSONString of ECMA-262 between the quotes: the seven characters
    with a two-character escape, the other control characters and the
    surrogates without a partner as unicode escapes, every other character
    (a surrogate pair included) as it is. *)
Fixpoint QuoteJSONString_body (s : jsstring) : jsstring :=
  match s with
  | [] => []
  | c :: r =>
      if (c =? 8)%N then ch_backslash :: 98%N :: QuoteJSONString_body r
      else if (c =? 9)%N then ch_backslash :: 116%N :: QuoteJSONString_body r
      else if (c =? 10)%N then ch_backslash :: 110%N :: QuoteJSONString_body r
      else if (c =? 12)%N then ch_backslash :: 102%N :: QuoteJSONString_body r
      else if (c =? 13)%N then ch_backslash :: 114%N :: QuoteJSONString_body r
      else if (c =? ch_quote)%N then ch_backslash :: ch_quote :: QuoteJSONString_body r
      else if (c =? ch_backslash)%N then
        ch_backslash :: ch_backslash :: QuoteJSONString_body r
      else if (c <? 32)%N then UnicodeEscape c ++ QuoteJSONString_body r
      else if is_leading_surrogate c then
        match r with
        | d :: r' =>
            if is_trailing_surrogate d then c :: d :: QuoteJSONString_body r'
            else UnicodeEscape c ++ QuoteJSONString_body r
        | [] => UnicodeEscape c
        end
      else if is_trailing_surrogate c then
        UnicodeEscape c ++ QuoteJSONString_body r
      else c :: QuoteJSONString_body r
  end.

Definition QuoteJSONString (s : jsstring) : jsstring :=
  [ch_quote] ++ QuoteJSONString_body s ++ [ch_quote].

(** JSON.stringify of the object literal of lines 72-77: the four members in
    the order written, no white space. *)
Definition JSON_stringify_body (b : RequestBody) : jsstring :=
  lit "{" ++ QuoteJSONString (lit "model") ++ lit ":" ++ QuoteJSONString (model b)
  ++ lit "," ++ QuoteJSONString (lit "prompt") ++ lit ":"
  ++ QuoteJSONString (prompt b)
  ++ lit "," ++ QuoteJSONString (lit "stream") ++ lit ":"
  ++ (if stream b then lit "true" else lit "false")
  ++ lit "," ++ QuoteJSONString (lit "keep_alive") ++ lit ":"
  ++ QuoteJSONString (keep_alive b) ++ lit "}".

(** The object a server decodes the request body to. *)
Definition parsed_body (b : RequestBody) : JSValue :=
  JObject [(lit "model", JString (model b)); (lit "prompt", JString (prompt b));
           (lit "stream", JBool (stream b));
           (lit "keep_alive", JString (keep_alive b))].

(** *** The settings: loading, changing and saving (lines 31-37, 156-194) *)

(** The own properties of a plain object as the list of the writes to them,
    oldest first: a read of an own property finds the last write to its key
    ([lookup]). *)
Definition JSObject : Type := list (jsstring * JSValue).

(** What an object inherits from: Object.prototype as every object literal
    does, nothing, or a value that JSON.parse made (an object or an
    array). *)
Inductive Prototype :=
| ObjectPrototype
| NullPrototype
| ValuePrototype (v : JSValue).

(** An object that Object.assign writes to. *)
Record Target := {
  own_properties : JSObject;
  prototype_of : Prototype;
}.

(** DEFAULT_SETTINGS and its like as objects. *)
Definition settings_object (s : LatexConverterSettings) : JSObject :=
  [(lit "ollamaModel", JString (ollamaModel s));
   (lit "llmPrompt", JString (llmPrompt s));
   (lit "keepAlive", JString (keepAlive s))].

(** The elements of an array, or the characters of a string, under their
    indices from [i] on. *)
Fixpoint indexed (i : N) (l : list JSValue) : JSObject :=
  match l with
  | [] => []
  | v :: r => (decimal i, v) :: indexed (i + 1) r
  end.

(** CreateDataProperty on a member list: the first member of that key takes
    the value, or a new member is added at the end. *)
Fixpoint define_property (key : jsstring) (v : JSValue) (l : JSObject) : JSObject :=
  match l with
  | [] => [(key, v)]
  | (k, x) :: r =>
      if JSString.eqb k key then (k, v) :: r
      else (k, x) :: define_property key v r
  end.

(** The value of a string of decimal digits. *)
Fixpoint numeral_value (acc : N) (s : jsstring) : option N :=
  match s with
  | [] => Some acc
  | c :: r =>
      if ((48 <=? c) && (c <=? 57))%N then numeral_value (10 * acc + (c - 48)) r
      else None
  end.

(** An array index: the canonical numeral of an integer below 2^32 - 1. *)
Definition array_index (key : jsstring) : option N :=
  match numeral_value 0 key with
  | Some n =>
      if (n <? 4294967295)%N && JSString.eqb (decimal n) key then Some n else None
  | None => None
  end.

Fixpoint insert_by_index (n : N) (member : jsstring * JSValue)
  (l : list (N * (jsstring * JSValue))) : list (N * (jsstring * JSValue)) :=
  match l with
  | [] => [(n, member)]
  | (m, x) :: r =>
      if (n <? m)%N then (n, member) :: l else (m, x) :: insert_by_index n member r
  end.

(** The properties whose keys are array indices, by ascending index. *)
Definition index_properties (l : JSObject) : list (N * (jsstring * JSValue)) :=
  fold_right (fun member acc =>
                match array_index (fst member) with
                | Some n => insert_by_index n member acc
                | None => acc
                end) [] l.

Definition named_property (member : jsstring * JSValue) : bool :=
  match array_index (fst member) with
  | Some _ => false
  | None => true
  end.

(** OrdinaryOwnPropertyKeys on properties listed as created: the array
    indices first, ascending, then the other keys as created. *)
Definition in_key_order (l : JSObject) : JSObject :=
  map snd (index_properties l) ++ filter named_property l.

(** The properties of the object JSON.parse builds from members as written:
    each key once, with the value written last, as the object enumerates
    them. *)
Definition own_members (members : JSObject) : JSObject :=
  in_key_order
    (fold_left (fun acc member => define_property (fst member) (snd member) acc)
               members []).

(** The own enumerable properties Object.assign copies from a source: the
    properties of an object, the elements of an array and the characters of a
    string under their indices, nothing from [null], [undefined], a number or
    a boolean. *)
Definition own_enumerable (source : JSValue) : JSObject :=
  match source with
  | JObject members => own_members members
  | JArray elements => indexed 0 elements
  | JString s => indexed 0 (map (fun c => JString [c]) s)
  | _ => []
  end.

Definition writes_own_property (write : jsstring * JSValue) : bool :=
  negb (JSString.eqb (fst write) (lit "__proto__")).

(** A write to [__proto__] reaches the setter of Object.prototype when the
    target has no own property of that name and none stands in the way on
    its prototype chain. *)
Definition setter_reachable (t : Target) : bool :=
  match lookup (lit "__proto__") (own_properties t) with
  | Some _ => false
  | None =>
      match prototype_of t with
      | ObjectPrototype => true
      | NullPrototype => false
      | ValuePrototype (JObject members) =>
          match lookup (lit "__proto__") members with
          | Some _ => false
          | None => true
          end
      | ValuePrototype _ => true
      end
  end.

(** The setter of [__proto__]: an object, an array or [null] becomes the
    prototype; any other value is ignored. *)
Definition set_prototype (v : JSValue) (t : Target) : Target :=
  match v with
  | JObject _ | JArray _ =>
      {| own_properties := own_properties t; prototype_of := ValuePrototype v |}
  | JNull => {| own_properties := own_properties t; prototype_of := NullPrototype |}
  | _ => t
  end.

(** Set(target, key, value): a write to [__proto__] that reaches the setter
    changes the prototype and makes no own property; every other write makes
    or updates an own property. *)
Definition Set_property (t : Target) (write : jsstring * JSValue) : Target :=
  if JSString.eqb (fst write) (lit "__proto__") && setter_reachable t
  then set_prototype (snd write) t
  else {| own_properties := own_properties t ++ [write];
          prototype_of := prototype_of t |}.

(** Object.assign(target, ...sources). *)
Definition Object_assign (target : Target) (sources : list JSValue) : Target :=
  fold_left (fun t source => fold_left Set_property (own_enumerable source) t)
            sources target.

(** The Number a literal denotes is finite when its magnitude is below
    2^1024 - 2^970, half-way from the greatest Number to 2^1024. *)
Definition number_is_finite (n : Number) : bool :=
  (if exponent10 n <? 0
   then Z.of_N (mantissa n) <? (2 ^ 1024 - 2 ^ 970) * 10 ^ (- exponent10 n)
   else Z.of_N (mantissa n) * 10 ^ exponent10 n <? 2 ^ 1024 - 2 ^ 970)%Z.

(** The values that JSON.parse reads back from their JSON.stringify text.
    The text has [null] for a Number that is not finite and [0] for negative
    zero, and leaves out what is [undefined]. *)
Fixpoint round_trips (v : JSValue) : bool :=
  match v with
  | JUndefined => false
  | JNull | JBool _ | JString _ => true
  | JNumber n => number_is_finite n && negb (negative n && number_is_zero n)
  | JArray elements => forallb round_trips elements
  | JObject members => forallb (fun member => round_trips (snd member)) members
  end.

(** The plugin instance: the own properties and the prototype of its settings
    object, and what loadData resolves to ([null] while nothing has been
    saved). *)
Record Plugin := {
  plugin_settings : JSObject;
  plugin_prototype : Prototype;
  plugin_data : JSValue;
}.

(** Line 32: the target is a fresh object literal. *)
Definition loadSettings (p : Plugin) : Plugin :=
  let settings :=
    Object_assign {| own_properties := []; prototype_of := ObjectPrototype |}
      [JObject (settings_object DEFAULT_SETTINGS); plugin_data p] in
  {| plugin_settings := own_properties settings;
     plugin_prototype := prototype_of settings;
     plugin_data := plugin_data p |}.

(** Line 36: the settings object is handed to saveData, which keeps the JSON
    text of its own properties for the next loadData; [plugin_data] is that
    object. Its prototype is not part of the text, and the values that
    [round_trips] refuses come back changed. *)
Definition saveSettings (p : Plugin) : Plugin :=
  {| plugin_settings := plugin_settings p;
     plugin_prototype := plugin_prototype p;
     plugin_data := JObject (plugin_settings p) |}.

(** The assignment [this.plugin.settings.field = value]. *)
Definition assign_setting (field value : jsstring) (p : Plugin) : Plugin :=
  {| plugin_settings := plugin_settings p ++ [(field, JString value)];
     plugin_prototype := plugin_prototype p;
     plugin_data := plugin_data p |}.

(** The three onChange handlers of the settings tab (lines 160-163, 175-178,
    190-193). *)
Definition onChange_ollamaModel (value : jsstring) (p : Plugin) : Plugin :=
  saveSettings (assign_setting (lit "ollamaModel") value p).

Definition onChange_llmPrompt (value : jsstring) (p : Plugin) : Plugin :=
  saveSettings (assign_setting (lit "llmPrompt") value p).

Definition onChange_keepAlive (value : jsstring) (p : Plugin) : Plugin :=
  saveSettings (assign_setting (lit "keepAlive") value p).

(** What the user does in the settings tab. *)
Inductive Change :=
| ChangeModel (value : jsstring)
| ChangePrompt (value : jsstring)
| ChangeKeepAlive (value : jsstring).

Definition apply_change (p : Plugin) (c : Change) : Plugin :=
  match c with
  | ChangeModel value => onChange_ollamaModel value p
  | ChangePrompt value => onChange_llmPrompt value p
  | ChangeKeepAlive value => onChange_keepAlive value p
  end.

(** The settings as the client reads them, when the three are strings. *)
Definition current_settings (p : Plugin) : option LatexConverterSettings :=
  match lookup (lit "ollamaModel") (plugin_settings p),
        lookup (lit "llmPrompt") (plugin_settings p),
        lookup (lit "keepAlive") (plugin_settings p) with
  | Some (JString m), Some (JString t), Some (JString k) =>
      Some {| ollamaModel := m; llmPrompt := t; keepAlive := k |}
  | _, _, _ => None
  end.

(** The prototype a stored [__proto__] member gives the settings object. *)
Definition loaded_prototype (member : option JSValue) : Prototype :=
  match member with
  | Some (JObject members) => ValuePrototype (JObject members)
  | Some (JArray elements) => ValuePrototype (JArray elements)
  | Some JNull => NullPrototype
  | _ => ObjectPrototype
  end.

(** The own properties of a value JSON.parse made: the enumerable ones and
    the [length] of an array. *)
Definition own_property (key : jsstring) (v : JSValue) : option JSValue :=
  match lookup key (own_enumerable v) with
  | Some x => Some x
  | None =>
      match v with
      | JArray elements =>
          if JSString.eqb key (lit "length")
          then Some (JNumber {| negative := false;
                                mantissa := N.of_nat (List.length elements);
                                exponent10 := 0 |})
          else None
      | _ => None
      end
  end.

(** The read [this.settings[key]] as far as the settings object and a
    prototype taken from the stored data answer it: the own property, else
    the own property of that prototype. [None] is where the search goes on to
    Object.prototype or Array.prototype, which give [undefined] for every key
    they do not define, or ends. *)
Definition Get (key : jsstring) (p : Plugin) : option JSValue :=
  match lookup key (plugin_settings p) with
  | Some v => Some v
  | None =>
      match plugin_prototype p with
      | ValuePrototype v => own_property key v
      | _ => None
      end
  end.

(** The plugin before onload, with what its data file holds. *)
Definition installed (data : JSValue) : Plugin :=
  {| plugin_settings := []; plugin_prototype := ObjectPrototype;
     plugin_data := data |}.

(** The plugin's settings agree, own property by own property, with what
    loading from the storage would give; they own the three default keys and
    no [__proto__]; the JSON text keeps their values and those of the stored
    data. *)
Definition in_sync (p : Plugin) : Prop :=
  (forall key, lookup key (plugin_settings (loadSettings p))
               = lookup key (plugin_settings p))
  /\ (forall key, lookup key (settings_object DEFAULT_SETTINGS) <> None ->
                  lookup key (plugin_settings p) <> None)
  /\ lookup (lit "__proto__") (plugin_settings p) = None
  /\ round_trips (JObject (plugin_settings p)) = true
  /\ round_trips (plugin_data p) = true.

(** ** Facts about the string operations *)

Section StringFacts.

Lemma strip_prefix_app (p rest : jsstring) : strip_prefix p (p ++ rest) = Some rest.
Proof.
  induction p as [|c p IH]; simpl; [reflexivity|].
  now rewrite N.eqb_refl.
Qed.

Lemma strip_prefix_Some (p s rest : jsstring) :
  strip_prefix p s = Some rest -> s = p ++ rest.
Proof.
  revert s; induction p as [|c p IH]; intros s H; simpl in *.
  - now inversion H.
  - destruct s as [|d s]; [discriminate|].
    destruct (N.eqb_spec c d) as [->|]; [|discriminate].
    now rewrite (IH _ H).
Qed.

Lemma find_first_Some (p s before rest : jsstring) :
  find_first p s = Some (before, rest) -> s = before ++ p ++ rest.
Proof.
  revert before; induction s as [|c s IH]; intros before H; simpl in H.
  - destruct (strip_prefix p []) eqn:E; [|discriminate].
    inversion H; subst. simpl. now apply strip_prefix_Some.
  - destruct (strip_prefix p (c :: s)) eqn:E.
    + inversion H; subst. simpl. now apply strip_prefix_Some.
    + destruct (find_first p s) as [[b r]|]; [|discriminate].
      inversion H; subst. simpl. now rewrite <- (IH b).
Qed.

(** The occurrence found is the first one: the pattern does not occur at any
    earlier position. *)
Lemma find_first_earliest (p s before rest : jsstring) :
  find_first p s = Some (before, rest) ->
  forall before' rest', s = before' ++ p ++ rest' ->
  List.length before <= List.length before'.
Proof.
  revert before; induction s as [|c s IH]; intros before H b' r' Hs; simpl in H.
  - destruct (strip_prefix p []); [|discriminate].
    inversion H; subst. simpl. lia.
  - destruct (strip_prefix p (c :: s)) eqn:E.
    + inversion H; subst. simpl. lia.
    + destruct (find_first p s) as [[b r]|] eqn:F; [|discriminate].
      inversion H; subst.
      destruct b' as [|c' b'].
      * simpl in Hs. rewrite Hs, strip_prefix_app in E. discriminate.
      * simpl in Hs. inversion Hs; subst.
        simpl. apply le_n_S. now apply (IH b eq_refl b' r').
Qed.

Lemma find_first_unfold (p s : jsstring) :
  find_first p s =
  match strip_prefix p s with
  | Some rest => Some ([], rest)
  | None =>
      match s with
      | [] => None
      | c :: s' =>
          match find_first p s' with
          | Some (before, rest) => Some (c :: before, rest)
          | None => None
          end
      end
  end.
Proof. destruct s; reflexivity. Qed.

Lemma find_first_occurs (p before rest : jsstring) :
  find_first p (before ++ p ++ rest) <> None.
Proof.
  induction before as [|c b IH]; rewrite find_first_unfold.
  - simpl. rewrite strip_prefix_app. discriminate.
  - destruct (strip_prefix p ((c :: b) ++ p ++ rest)); [discriminate|].
    simpl.
    destruct (find_first p (b ++ p ++ rest)) as [[? ?]|]; [discriminate|].
    now elim IH.
Qed.

Lemma includes_app (before p rest : jsstring) :
  includes (before ++ p ++ rest) p = true.
Proof.
  unfold includes.
  destruct (find_first p (before ++ p ++ rest)) eqn:E; [reflexivity|].
  now elim (find_first_occurs p before rest).
Qed.


(** A replacement text without a dollar sign is inserted as it is. *)
Lemma GetSubstitution_plain (matched before rest template : jsstring) :
  ~ In ch_dollar template ->
  GetSubstitution matched before rest template = template.
Proof.
  induction template as [|c t IH]; intros H; simpl; [reflexivity|].
  destruct (N.eqb_spec c ch_dollar) as [->|_].
  - elim H. now left.
  - rewrite IH; [reflexivity|]. intros Hin. apply H. now right.
Qed.

End StringFacts.

(** ** Sanitizing the input and building the prompt *)

Lemma replace_all_char_app (c : N) (r s t : jsstring) :
  replace_all_char c r (s ++ t) = replace_all_char c r s ++ replace_all_char c r t.
Proof. apply flat_map_app. Qed.

Lemma sanitizedInput_flat_map (input : jsstring) :
  sanitizedInput input = flat_map escape_char input.
Proof.
  unfold sanitizedInput.
  induction input as [|c s IH]; [reflexivity|].
  change (c :: s) with ([c] ++ s).
  rewrite !replace_all_char_app, flat_map_app, IH. f_equal.
  unfold escape_char. simpl.
  destruct (N.eqb_spec c ch_backslash) as [->|Hb]; [reflexivity|].
  simpl. destruct (N.eqb_spec c ch_quote) as [->|Hq]; reflexivity.
Qed.

(** The sanitized text has a dollar sign only where the input has one. *)
Lemma sanitizedInput_no_dollar (input : jsstring) :
  ~ In ch_dollar input -> ~ In ch_dollar (sanitizedInput input).
Proof.
  intros Hd Hin. rewrite sanitizedInput_flat_map in Hin.
  apply in_flat_map in Hin. destruct Hin as (c & Hc & Hin).
  unfold escape_char in Hin.
  destruct (N.eqb_spec c ch_backslash) as [->|_].
  - simpl in Hin. intuition discriminate.
  - destruct (N.eqb_spec c ch_quote) as [->|_]; simpl in Hin.
    + intuition discriminate.
    + destruct Hin as [->|[]]. contradiction.
Qed.

Lemma includes_false_no_occurrence (s p : jsstring) :
  includes s p = false -> forall before rest, s <> before ++ p ++ rest.
Proof.
  intros H before rest ->. rewrite includes_app in H. discriminate.
Qed.

(** C3. For every input, sanitization is the replacement of every double quote
    by backslash-quote applied to the result of replacing every backslash by
    two backslashes; character by character, a backslash becomes two
    backslashes, a double quote becomes backslash-quote and every other
    character is kept; the prompt is built from the sanitized text; and the
    five characters a, double quote, b, backslash, c become the seven
    characters a, backslash, double quote, b, backslash, backslash, c. *)
Theorem sanitizedInput_escapes :
  forall (settings : LatexConverterSettings) (input : jsstring),
    sanitizedInput input
    = replace_all_char ch_quote [ch_backslash; ch_quote]
        (replace_all_char ch_backslash [ch_backslash; ch_backslash] input)
    /\ sanitizedInput input = flat_map escape_char input
    /\ build_prompt settings input
       = replace (llmPrompt settings) (lit "{input}") (flat_map escape_char input)
    /\ sanitizedInput [97; ch_quote; 98; ch_backslash; 99]%N
       = [97; ch_backslash; ch_quote; 98; ch_backslash; ch_backslash; 99]%N.
Proof.
  intros settings input.
  repeat split; try reflexivity; try apply sanitizedInput_flat_map.
  unfold build_prompt. now rewrite sanitizedInput_flat_map.
Qed.

(** C4, at inputs the substitution mishandles. The selection [$$] needs no
    escaping, yet the prompt built from the default template carries a single
    dollar sign between the quotes; and the selection [$&] leaves the
    placeholder itself in the prompt. *)
Theorem build_prompt_expands_dollar_patterns :
  sanitizedInput (lit "$$") = lit "$$"
  /\ build_prompt DEFAULT_SETTINGS (lit "$$")
     = lit "Convert the following natural language to a LaTeX equation, output ONLY THE EQUATION AND NOTHING ELSE: "
       ++ [ch_quote] ++ lit "$" ++ [ch_quote]
       ++ lit ". Output should be in this format: ${output}$"
  /\ sanitizedInput (lit "$&") = lit "$&"
  /\ build_prompt DEFAULT_SETTINGS (lit "$&") = llmPrompt DEFAULT_SETTINGS.
Proof. repeat split; vm_compute; reflexivity. Qed.

(** Where the input has no dollar sign, its sanitized text takes the place of
    the first occurrence of the placeholder, and only of that one. *)
Theorem build_prompt_first_occurrence :
  forall (settings : LatexConverterSettings) (input before rest : jsstring),
    ~ In ch_dollar input ->
    find_first (lit "{input}") (llmPrompt settings) = Some (before, rest) ->
    llmPrompt settings = before ++ lit "{input}" ++ rest
    /\ (forall before' rest',
          llmPrompt settings = before' ++ lit "{input}" ++ rest' ->
          List.length before <= List.length before')
    /\ build_prompt settings input = before ++ sanitizedInput input ++ rest.
Proof.
  intros settings input before rest Hd Hf.
  split; [now apply find_first_Some|].
  split; [intros b' r' Hs; eapply find_first_earliest; eassumption|].
  unfold build_prompt, replace. rewrite Hf.
  rewrite GetSubstitution_plain; [reflexivity|].
  now apply sanitizedInput_no_dollar.
Qed.

Lemma build_prompt_first_occurrence_witness :
  build_prompt
    {| ollamaModel := lit "llama2";
       llmPrompt := lit "LaTeX for {input}; again: {input}";
       keepAlive := lit "5m" |}
    ([ch_quote] ++ lit "x\y")
  = lit "LaTeX for " ++ ([ch_backslash; ch_quote] ++ lit "x\\y")
    ++ lit "; again: {input}".
Proof.
  refine (proj2 (proj2 (build_prompt_first_occurrence
    {| ollamaModel := lit "llama2";
       llmPrompt := lit "LaTeX for {input}; again: {input}";
       keepAlive := lit "5m" |}
    ([ch_quote] ++ lit "x\y") (lit "LaTeX for ") (lit "; again: {input}") _ _))).
  - intros H. simpl in H.
    repeat (destruct H as [H|H]; [discriminate|]). exact H.
  - vm_compute. reflexivity.
Defined.

(** A template without the placeholder is the prompt, whatever the input. *)
Theorem build_prompt_without_placeholder :
  forall (settings : LatexConverterSettings) (input : jsstring),
    (forall before rest, llmPrompt settings <> before ++ lit "{input}" ++ rest) ->
    build_prompt settings input = llmPrompt settings.
Proof.
  intros settings input H.
  unfold build_prompt, replace.
  destruct (find_first (lit "{input}") (llmPrompt settings)) as [[b r]|] eqn:E;
    [|reflexivity].
  elim (H b r). now apply find_first_Some.
Qed.

Lemma build_prompt_without_placeholder_witness :
  build_prompt
    {| ollamaModel := lit "llama2"; llmPrompt := lit "Write an equation.";
       keepAlive := lit "5m" |}
    (lit "x squared")
  = lit "Write an equation.".
Proof.
  refine (build_prompt_without_placeholder
    {| ollamaModel := lit "llama2"; llmPrompt := lit "Write an equation.";
       keepAlive := lit "5m" |}
    (lit "x squared") _).
  apply includes_false_no_occurrence. vm_compute. reflexivity.
Defined.

(** ** The stream loop *)

Section StreamLoop.

Variable host : Host.

Lemma process_line_ok (acc line acc' : jsstring) (w : World) :
  try_line host acc line = Some acc' ->
  process_line host acc line w = (Returned acc', w).
Proof. unfold process_line. now intros ->. Qed.

Lemma process_line_throws (acc line : jsstring) (w : World) :
  try_line host acc line = None ->
  process_line host acc line w = (Threw parse_failure, logged_parse_error w).
Proof. unfold process_line. now intros ->. Qed.

Lemma try_line_plain (acc line : jsstring) :
  plain_line line = true ->
  try_line host acc line = Some (acc ++ response_field line).
Proof.
  unfold plain_line, try_line, response_field.
  destruct (JSON_parse line) as [data|]; [|discriminate].
  destruct data as [| |b|n|s|elements|members]; simpl; try discriminate;
    try (intros _; now rewrite app_nil_r).
  destruct (lookup (lit "response") members) as [r|]; simpl;
    [|intros _; now rewrite app_nil_r].
  destruct r as [| |b|n|s|elements|members']; simpl;
    try discriminate; try (intros _; now rewrite app_nil_r).
  - destruct b; [discriminate|]. intros _. now rewrite app_nil_r.
  - intros H. apply negb_true_iff in H. rewrite H. now rewrite app_nil_r.
  - intros _. destruct s; simpl; [now rewrite app_nil_r|reflexivity].
Qed.

Lemma try_line_unparsable (acc line : jsstring) :
  JSON_parse line = None -> try_line host acc line = None.
Proof. unfold try_line. now intros ->. Qed.

(** The for loop either runs through or stops at the first line that throws,
    with the parse failure; it touches only the console. *)
Lemma process_lines_outcome (lines : list jsstring) :
  forall (acc : jsstring) (w : World),
    (exists acc', process_lines host lines acc w = (Returned acc', w))
    \/ (process_lines host lines acc w = (Threw parse_failure, logged_parse_error w)).
Proof.
  induction lines as [|line rest IH]; intros acc w; simpl.
  - left. now exists acc.
  - unfold bind.
    destruct (try_line host acc line) as [acc'|] eqn:E.
    + rewrite (process_line_ok _ _ _ _ E). apply IH.
    + rewrite (process_line_throws _ _ _ E). now right.
Qed.

Lemma process_lines_plain (lines : list jsstring) :
  forall (acc : jsstring) (w : World),
    Forall (fun line => plain_line line = true) lines ->
    process_lines host lines acc w
    = (Returned (acc ++ concat (map response_field lines)), w).
Proof.
  induction lines as [|line rest IH]; intros acc w H; simpl.
  - now rewrite app_nil_r.
  - inversion H as [|? ? Hl Hr]; subst. unfold bind.
    rewrite (process_line_ok _ _ _ _ (try_line_plain acc _ Hl)).
    rewrite (IH _ _ Hr). now rewrite app_assoc.
Qed.

Lemma process_lines_unparsable (lines : list jsstring) :
  forall (acc : jsstring) (w : World),
    Exists (fun line => JSON_parse line = None) lines ->
    process_lines host lines acc w = (Threw parse_failure, logged_parse_error w).
Proof.
  induction lines as [|line rest IH]; intros acc w H; simpl.
  - inversion H.
  - unfold bind.
    destruct (try_line host acc line) as [acc'|] eqn:E.
    + rewrite (process_line_ok _ _ _ _ E).
      inversion H as [? ? Hbad|? ? Hrest]; subst.
      * rewrite (try_line_unparsable acc _ Hbad) in E. discriminate.
      * now apply IH.
    + now rewrite (process_line_throws _ _ _ E).
Qed.

(** One read: the count goes up, then the lines of the chunk are processed. *)
Lemma read_loop_chunk (chunk : jsstring) (rest : list jsstring)
  (failure : option Thrown) (acc : jsstring) (w : World) :
  read_loop host (chunk :: rest) failure acc w
  = match process_lines host (lines_of chunk) acc (set_reads (S (reads w)) w) with
    | (Returned acc', w') => read_loop host rest failure acc' w'
    | (Threw e, w') => (Threw e, w')
    end.
Proof. reflexivity. Qed.

Lemma read_loop_plain (reads_ : list jsstring) :
  forall (acc : jsstring) (w : World),
    Forall (fun line => plain_line line = true) (stream_lines reads_) ->
    read_loop host reads_ None acc w
    = (Returned (acc ++ concat (map response_field (stream_lines reads_))),
       set_reads (S (List.length reads_) + reads w) w).
Proof.
  induction reads_ as [|chunk rest IH]; intros acc w H.
  - simpl. now rewrite app_nil_r.
  - unfold stream_lines in H. simpl in H. apply Forall_app in H.
    destruct H as [Hc Hr].
    rewrite read_loop_chunk, (process_lines_plain _ _ _ Hc), (IH _ _ Hr).
    unfold stream_lines. simpl. rewrite map_app, concat_app, app_assoc.
    f_equal. unfold set_reads. simpl. f_equal. lia.
Qed.

Lemma read_loop_unparsable (reads_ : list jsstring) :
  forall (failure : option Thrown) (acc : jsstring) (w : World),
    Exists (fun line => JSON_parse line = None) (stream_lines reads_) ->
    exists n,
      read_loop host reads_ failure acc w
      = (Threw parse_failure, logged_parse_error (set_reads (S n + reads w) w)).
Proof.
  induction reads_ as [|chunk rest IH]; intros failure acc w H.
  - inversion H.
  - unfold stream_lines in H. simpl in H. apply Exists_app in H.
    rewrite read_loop_chunk.
    destruct (process_lines_outcome (lines_of chunk) acc (set_reads (S (reads w)) w))
      as [[acc' E]|E].
    + rewrite E. destruct H as [H|H].
      * rewrite (process_lines_unparsable _ _ _ H) in E. discriminate.
      * destruct (IH failure acc' (set_reads (S (reads w)) w) H) as [n ->].
        exists (S n). unfold logged_parse_error, set_console, set_reads. simpl.
        do 3 f_equal. lia.
    + rewrite E. now exists 0.
Qed.

(** The while loop leaves the document, the notices and the requests alone. *)
Lemma read_loop_frame (reads_ : list jsstring) :
  forall (failure : option Thrown) (acc : jsstring) (w : World),
    same_document w (snd (read_loop host reads_ failure acc w))
    /\ requests (snd (read_loop host reads_ failure acc w)) = requests w.
Proof.
  induction reads_ as [|chunk rest IH]; intros failure acc w.
  - simpl. unfold bind, count_read. destruct failure; simpl; now repeat split.
  - rewrite read_loop_chunk.
    destruct (process_lines_outcome (lines_of chunk) acc (set_reads (S (reads w)) w))
      as [[acc' E]|E]; rewrite E.
    + destruct (IH failure acc' (set_reads (S (reads w)) w)) as [(?&?&?) ?].
      now repeat split.
    + simpl. now repeat split.
Qed.

End StreamLoop.

(** ** The LLM client *)

Section Client.

Variable settings : LatexConverterSettings.
Variable host : Host.

(** A status outside 200-299: the error is thrown right after the request,
    before any read. *)
Lemma callLocalLLM_http_error (input : jsstring) (r : Response) (w : World) :
  fetch_outcome host (build_request settings input) = FetchResolves r ->
  ok r = false ->
  callLocalLLM settings host input w
  = (Threw (http_error r),
     logged_call_error (http_error r) (issued (build_request settings input) w)).
Proof.
  intros Hf Hok. unfold callLocalLLM, try_catch, bind, fetch.
  now rewrite Hf, Hok.
Qed.

Lemma callLocalLLM_plain (input : jsstring) (r : Response)
  (reads_ : list jsstring) (w : World) :
  fetch_outcome host (build_request settings input) = FetchResolves r ->
  ok r = true ->
  response_body r = Some {| chunks := reads_; failure := None |} ->
  Forall (fun line => plain_line line = true) (stream_lines reads_) ->
  callLocalLLM settings host input w
  = (Returned (trim (concat (map response_field (stream_lines reads_)))),
     set_reads (S (List.length reads_) + reads w)
       (issued (build_request settings input) w)).
Proof.
  intros Hf Hok Hb Hl. unfold callLocalLLM, try_catch, bind, fetch.
  rewrite Hf, Hok, Hb. simpl.
  now rewrite read_loop_plain by assumption.
Qed.

Lemma callLocalLLM_unparsable (input : jsstring) (r : Response)
  (reader : ResponseBody) (w : World) :
  fetch_outcome host (build_request settings input) = FetchResolves r ->
  ok r = true ->
  response_body r = Some reader ->
  Exists (fun line => JSON_parse line = None) (stream_lines (chunks reader)) ->
  fst (callLocalLLM settings host input w) = Threw parse_failure.
Proof.
  intros Hf Hok Hb Hl. unfold callLocalLLM, try_catch, bind, fetch.
  rewrite Hf, Hok, Hb. simpl.
  destruct (read_loop_unparsable host _ (failure reader) []
              (set_requests (requests w ++ [build_request settings input]) w) Hl)
    as [n ->].
  reflexivity.
Qed.

(** Whatever the network does, the client leaves the document and the
    notices alone. *)
Lemma callLocalLLM_frame (input : jsstring) (w : World) :
  same_document w (snd (callLocalLLM settings host input w)).
Proof.
  unfold callLocalLLM, try_catch, bind, fetch.
  destruct (fetch_outcome host (build_request settings input)) as [e|r];
    [simpl; now repeat split|].
  destruct (ok r); simpl; [|now repeat split].
  destruct (response_body r) as [reader|]; simpl; [|now repeat split].
  destruct (read_loop_frame host (chunks reader) (failure reader) []
              (set_requests (requests w ++ [build_request settings input]) w))
    as [(He & Hn & Hr) _].
  destruct (read_loop host (chunks reader) (failure reader) []
              (set_requests (requests w ++ [build_request settings input]) w))
    as [[acc|e] w'];
    simpl in *; now repeat split.
Qed.

End Client.

Section LineAligned.

Lemma split_lf_line_end (a b : jsstring) :
  split_lf (a ++ ch_lf :: b) = split_lf a ++ split_lf b.
Proof.
  induction a as [|c a IH]; [reflexivity|].
  simpl. destruct (N.eqb c ch_lf).
  - now rewrite IH.
  - rewrite IH. destruct (split_lf a) as [|l ls] eqn:E; [|reflexivity].
    destruct a as [|x a']; [discriminate|].
    simpl in E. destruct (N.eqb x ch_lf); [discriminate|].
    destruct (split_lf a'); discriminate.
Qed.

Lemma lines_of_line_end (a b : jsstring) :
  lines_of (a ++ ch_lf :: b) = lines_of a ++ lines_of b.
Proof. unfold lines_of. now rewrite split_lf_line_end, filter_app. Qed.

Lemma lines_of_trailing_lf (a : jsstring) : lines_of (a ++ [ch_lf]) = lines_of a.
Proof. rewrite lines_of_line_end. unfold lines_of at 2. simpl. apply app_nil_r. Qed.

Lemma stream_lines_app (l1 l2 : list jsstring) :
  stream_lines (l1 ++ l2) = stream_lines l1 ++ stream_lines l2.
Proof. apply flat_map_app. Qed.

Lemma ends_line_cases (chunk : jsstring) :
  ends_line chunk = true -> chunk = [] \/ exists a, chunk = a ++ [ch_lf].
Proof.
  unfold ends_line. intros H.
  destruct (rev chunk) as [|c l] eqn:E.
  - left. now rewrite <- (rev_involutive chunk), E.
  - right. exists (rev l). apply N.eqb_eq in H. subst c.
    now rewrite <- (rev_involutive chunk), E.
Qed.

(** Where no read stops inside a line, the pieces of the reads are the lines
    of the whole text. *)
Lemma stream_lines_whole (reads_ : list jsstring) :
  whole_line_reads reads_ = true ->
  stream_lines reads_ = lines_of (concat reads_).
Proof.
  unfold whole_line_reads.
  induction reads_ as [|chunk rest IH]; [reflexivity|].
  destruct rest as [|next rest'].
  - intros _. unfold stream_lines. simpl. now rewrite !app_nil_r.
  - change (removelast (chunk :: next :: rest'))
      with (chunk :: removelast (next :: rest')).
    cbn [forallb]. intros H. apply andb_true_iff in H. destruct H as [Hc Hr].
    change (stream_lines (chunk :: next :: rest'))
      with (lines_of chunk ++ stream_lines (next :: rest')).
    change (concat (chunk :: next :: rest'))
      with (chunk ++ concat (next :: rest')).
    rewrite (IH Hr).
    destruct (ends_line_cases chunk Hc) as [->|[a ->]]; [reflexivity|].
    rewrite <- app_assoc. cbn [app].
    now rewrite lines_of_trailing_lf, lines_of_line_end.
Qed.

End LineAligned.

(** C1, as the code has it. For every input and every response with a status
    from 200 to 299 whose body is read to its end, where no read stops inside
    a line (every read but the last decodes to a text that is empty or ends
    with a line feed) and every non-blank line of the text of the stream (the
    texts of the reads joined in the order of arrival) parses to a JSON value
    other than null whose [response] member is absent, a string or falsy:
    callLocalLLM returns the concatenation of the [response] strings of these
    lines in their order, blank lines left out, trimmed at both ends. *)
Theorem callLocalLLM_accumulates :
  forall (settings : LatexConverterSettings) (host : Host) (input : jsstring)
         (r : Response) (reads_ : list jsstring) (w : World),
    fetch_outcome host (build_request settings input) = FetchResolves r ->
    ok r = true ->
    response_body r = Some {| chunks := reads_; failure := None |} ->
    whole_line_reads reads_ = true ->
    Forall (fun line => plain_line line = true) (lines_of (concat reads_)) ->
    fst (callLocalLLM settings host input w)
    = Returned (trim (concat (map response_field (lines_of (concat reads_)))))
    /\ lines_of (concat reads_)
       = filter (fun line => negb (is_empty (trim line)))
                (split_lf (concat reads_)).
Proof.
  intros settings host input r reads_ w Hf Hok Hb Hw Hl.
  split; [|reflexivity].
  rewrite <- (stream_lines_whole reads_ Hw) in *.
  now rewrite (callLocalLLM_plain _ _ _ _ _ w Hf Hok Hb Hl).
Qed.

(** The end-to-end example of the specification: two lines in two reads. *)
Lemma callLocalLLM_accumulates_witness :
  fst (callLocalLLM DEFAULT_SETTINGS
         (answering (streamed [jq "{'response':'\\int'}" ++ [ch_lf];
                               [ch_lf] ++ jq "{'response':' x^2 \\,dx'}" ++ [ch_lf]]))
         (lit "the integral of x squared")
         (selecting (lit "the integral of x squared")))
  = Returned (lit "\int x^2 \,dx").
Proof.
  refine (eq_trans
    (proj1 (callLocalLLM_accumulates DEFAULT_SETTINGS
       (answering (streamed [jq "{'response':'\\int'}" ++ [ch_lf];
                             [ch_lf] ++ jq "{'response':' x^2 \\,dx'}" ++ [ch_lf]]))
       (lit "the integral of x squared") _ _
       (selecting (lit "the integral of x squared")) eq_refl eq_refl eq_refl
       eq_refl _)) _).
  - vm_compute. repeat constructor.
  - vm_compute. reflexivity.
Defined.

(** C1, as stated, fails: the line [null] is valid JSON, and the client throws
    instead of returning. Nor is a non-null value enough: a line whose
    [response] member is [true] is valid JSON with no [response] string, and
    the client returns the text true for it. *)
Lemma callLocalLLM_null_line_throws :
  JSON_parse (lit "null") = Some JNull
  /\ stream_lines [lit "null" ++ [ch_lf]] = [lit "null"]
  /\ fst (callLocalLLM DEFAULT_SETTINGS
            (answering (streamed [lit "null" ++ [ch_lf]]))
            (lit "x") (selecting (lit "x")))
     = Threw parse_failure
  /\ JSON_parse (jq "{'response':true}")
     = Some (JObject [(lit "response", JBool true)])
  /\ response_field (jq "{'response':true}") = []
  /\ fst (callLocalLLM DEFAULT_SETTINGS
            (answering (streamed [jq "{'response':true}" ++ [ch_lf]]))
            (lit "x") (selecting (lit "x")))
     = Returned (lit "true").
Proof. repeat split; vm_compute; reflexivity. Qed.

(** ** The conversion command *)

Lemma hide_at_app (l more : list Notice) (n : Notice) :
  hide_at (List.length l) (l ++ n :: more) = l ++ hide_notice n :: more.
Proof. induction l as [|x l IH]; simpl; [reflexivity|]. now rewrite IH. Qed.

Lemma nth_error_middle (l more : list Notice) (n : Notice) :
  nth_error (l ++ n :: more) (List.length l) = Some n.
Proof. induction l as [|x l IH]; simpl; [reflexivity|]. exact IH. Qed.

Section Command.

Variable settings : LatexConverterSettings.
Variable host : Host.

Lemma convertToLatex_empty (w : World) :
  doc_selection (editor w) = [] ->
  convertToLatex settings host w
  = (Returned tt, set_notices (notices w ++ [no_selection_notice]) w).
Proof.
  intros H. unfold convertToLatex, bind, getSelection. now rewrite H.
Qed.

(** The catch and finally blocks after a failed call. *)
Lemma convertToLatex_failure (w w' : World) (e : Thrown) :
  doc_selection (editor w) <> [] ->
  callLocalLLM settings host (doc_selection (editor w)) (loading w) = (Threw e, w') ->
  convertToLatex settings host w
  = (Returned tt,
     set_notices (notices w ++ [loading_notice true; error_notice e])
       (set_console (console w' ++ [[Text (errorMessage e)]]) w')).
Proof.
  intros Hsel Hcall.
  pose proof (callLocalLLM_frame settings host (doc_selection (editor w)) (loading w))
    as (_ & Hn & _).
  rewrite Hcall in Hn. simpl in Hn.
  unfold convertToLatex, bind, getSelection.
  destruct (doc_selection (editor w)) as [|c sel] eqn:E; [now elim Hsel|].
  simpl. unfold try_finally, try_catch, bind.
  change (set_notices (notices w ++ [{| notice_message := lit "Converting to LaTeX...";
                                        notice_timeout := 0;
                                        notice_hidden := false |}]) w)
    with (loading w).
  rewrite Hcall. simpl. rewrite Hn.
  unfold set_notices, set_console. simpl. do 2 f_equal.
  rewrite <- app_assoc. simpl.
  apply (hide_at_app (notices w) [error_notice e] (loading_notice false)).
Qed.

(** Every way out of a conversion with a non-empty selection: the command
    returns, and the progress notice, made before the call, is hidden. *)
Lemma convertToLatex_hides (w : World) :
  doc_selection (editor w) <> [] ->
  fst (convertToLatex settings host w) = Returned tt
  /\ exists more,
       notices (snd (convertToLatex settings host w))
       = notices w ++ loading_notice true :: more.
Proof.
  intros Hsel.
  destruct (callLocalLLM settings host (doc_selection (editor w)) (loading w))
    as [[latexEquation|e] w'] eqn:Hcall.
  - pose proof (callLocalLLM_frame settings host (doc_selection (editor w)) (loading w))
      as (_ & Hn & _).
    rewrite Hcall in Hn. simpl in Hn.
    unfold convertToLatex, bind, getSelection.
    destruct (doc_selection (editor w)) as [|c sel] eqn:E; [now elim Hsel|].
    simpl. unfold try_finally, try_catch, bind.
    change (set_notices (notices w ++ [{| notice_message := lit "Converting to LaTeX...";
                                          notice_timeout := 0;
                                          notice_hidden := false |}]) w)
      with (loading w).
    rewrite Hcall. unfold replaceSelection.
    destruct (replaceSelection_throws host) as [e|]; simpl; rewrite Hn;
      (split; [reflexivity|]); rewrite <- app_assoc; simpl.
    + exists [error_notice e].
      apply (hide_at_app (notices w) [error_notice e] (loading_notice false)).
    + exists [success_notice].
      apply (hide_at_app (notices w) [success_notice] (loading_notice false)).
  - rewrite (convertToLatex_failure _ _ _ Hsel Hcall). simpl.
    split; [reflexivity|]. now exists [error_notice e].
Qed.

End Command.

(** What a conversion comes to when the client throws. *)
Lemma convertToLatex_aborted (settings : LatexConverterSettings) (host : Host)
  (e : Thrown) (w : World) :
  (forall w0,
      fst (callLocalLLM settings host (doc_selection (editor w)) w0) = Threw e) ->
  fst (convertToLatex settings host w) = Returned tt
  /\ replacements (snd (convertToLatex settings host w)) = replacements w
  /\ editor (snd (convertToLatex settings host w)) = editor w
  /\ (doc_selection (editor w) <> [] ->
      notices (snd (convertToLatex settings host w))
      = notices w ++ [loading_notice true; error_notice e]).
Proof.
  intros Hcall.
  destruct (doc_selection (editor w)) as [|c sel] eqn:Hsel.
  - rewrite (convertToLatex_empty settings host w Hsel). simpl.
    repeat split. intros H. now elim H.
  - assert (Hne : doc_selection (editor w) <> []) by (rewrite Hsel; discriminate).
    specialize (Hcall (loading w)).
    pose proof (callLocalLLM_frame settings host (c :: sel) (loading w))
      as (He & _ & Hr).
    destruct (callLocalLLM settings host (c :: sel) (loading w)) as [o w'] eqn:E.
    simpl in Hcall, He, Hr. subst o.
    rewrite <- Hsel in E.
    rewrite (convertToLatex_failure settings host _ _ _ Hne E). simpl.
    now repeat split.
Qed.

(** C2 fails for the code where a read stops inside a line. The two reads
    below make a stream of one non-blank line, and JSON.parse refuses that
    line. The loop never sees it: it splits each read by itself, parses the
    two pieces, and the client returns the text ab, which the command puts in
    the place of the selection. The specification asks for the line to be
    put together across the reads, and then for the abort. *)
Lemma split_unparsable_line_is_accepted :
  lines_of (concat split_line_reads) = [jq "{'response':'a'}{'response':'b'}"]
  /\ JSON_parse (jq "{'response':'a'}{'response':'b'}") = None
  /\ stream_lines split_line_reads = [jq "{'response':'a'}"; jq "{'response':'b'}"]
  /\ fst (callLocalLLM DEFAULT_SETTINGS (answering (streamed split_line_reads))
            (lit "x") (selecting (lit "x")))
     = Returned (lit "ab")
  /\ replacements
       (snd (convertToLatex DEFAULT_SETTINGS (answering (streamed split_line_reads))
               (selecting (lit "x"))))
     = [lit "ab"]
  /\ editor
       (snd (convertToLatex DEFAULT_SETTINGS (answering (streamed split_line_reads))
               (selecting (lit "x"))))
     = {| doc_before := lit "Let ab"; doc_selection := [];
          doc_after := lit " be given." |}.
Proof. repeat split; vm_compute; reflexivity. Qed.



(** Where no read stops inside a line, the pieces are the lines of the
    stream: a stream with a non-blank line that fails to parse as JSON makes
    callLocalLLM throw the parse failure, and the command commits nothing. *)
Theorem unparsable_stream_line_aborts :
  forall (settings : LatexConverterSettings) (host : Host) (r : Response)
         (reader : ResponseBody) (w : World),
    fetch_outcome host (build_request settings (doc_selection (editor w)))
    = FetchResolves r ->
    ok r = true ->
    response_body r = Some reader ->
    whole_line_reads (chunks reader) = true ->
    Exists (fun line => JSON_parse line = None)
           (lines_of (concat (chunks reader))) ->
    (forall w0,
        fst (callLocalLLM settings host (doc_selection (editor w)) w0)
        = Threw (JSError (lit "Failed to parse response from Ollama")))
    /\ fst (convertToLatex settings host w) = Returned tt
    /\ replacements (snd (convertToLatex settings host w)) = replacements w
    /\ editor (snd (convertToLatex settings host w)) = editor w
    /\ (doc_selection (editor w) <> [] ->
        notices (snd (convertToLatex settings host w))
        = notices w ++ [loading_notice true; error_notice parse_failure]).
Proof.
  intros settings host r reader w Hf Hok Hb Hw Hbad.
  rewrite <- (stream_lines_whole _ Hw) in Hbad.
  assert (Hcall : forall w0,
             fst (callLocalLLM settings host (doc_selection (editor w)) w0)
             = Threw parse_failure)
    by (intros w0; eapply callLocalLLM_unparsable; eassumption).
  split; [exact Hcall|]. now apply convertToLatex_aborted.
Qed.

Lemma unparsable_stream_line_aborts_witness :
  fst (callLocalLLM DEFAULT_SETTINGS
         (answering (streamed [jq "{'response':'\\int'}" ++ [ch_lf];
                               lit "not-json" ++ [ch_lf];
                               jq "{'response':'x'}"]))
         (lit "x") (selecting (lit "x")))
  = Threw (JSError (lit "Failed to parse response from Ollama"))
  /\ replacements
       (snd (convertToLatex DEFAULT_SETTINGS
               (answering (streamed [jq "{'response':'\\int'}" ++ [ch_lf];
                                     lit "not-json" ++ [ch_lf];
                                     jq "{'response':'x'}"]))
               (selecting (lit "x"))))
     = [].
Proof.
  destruct (unparsable_stream_line_aborts DEFAULT_SETTINGS
              (answering (streamed [jq "{'response':'\\int'}" ++ [ch_lf];
                                    lit "not-json" ++ [ch_lf];
                                    jq "{'response':'x'}"]))
              _ _ (selecting (lit "x")) eq_refl eq_refl eq_refl eq_refl)
    as (Hcall & _ & Hrep & _).
  - apply Exists_cons_tl, Exists_cons_hd. vm_compute. reflexivity.
  - split; [apply Hcall|exact Hrep].
Defined.

(** Read by read: when every non-blank piece that the reads split into at
    their line feeds, each read by itself, parses to a value other than null
    whose [response] member is absent, a string or falsy, callLocalLLM
    returns the [response] strings of the pieces joined in their order and
    trimmed. A line that two reads share counts as two pieces here. *)
Theorem read_by_read_accumulation :
  forall (settings : LatexConverterSettings) (host : Host) (input : jsstring)
         (r : Response) (reads_ : list jsstring) (w : World),
    fetch_outcome host (build_request settings input) = FetchResolves r ->
    ok r = true ->
    response_body r = Some {| chunks := reads_; failure := None |} ->
    Forall (fun line => plain_line line = true) (stream_lines reads_) ->
    fst (callLocalLLM settings host input w)
    = Returned (trim (concat (map response_field (stream_lines reads_))))
    /\ stream_lines reads_
       = flat_map (fun chunk =>
                     filter (fun line => negb (is_empty (trim line)))
                            (split_lf chunk)) reads_.
Proof.
  intros settings host input r reads_ w Hf Hok Hb Hl.
  split; [|reflexivity].
  now rewrite (callLocalLLM_plain _ _ _ _ _ w Hf Hok Hb Hl).
Qed.

Lemma read_by_read_accumulation_witness :
  fst (callLocalLLM DEFAULT_SETTINGS (answering (streamed split_line_reads))
         (lit "x") (selecting (lit "x")))
  = Returned (lit "ab").
Proof.
  refine (eq_trans
    (proj1 (read_by_read_accumulation DEFAULT_SETTINGS
       (answering (streamed split_line_reads)) (lit "x") _ _
       (selecting (lit "x")) eq_refl eq_refl eq_refl _)) _).
  - vm_compute. repeat constructor.
  - vm_compute. reflexivity.
Defined.



(** C7. With an empty selection the conversion command returns without
    throwing, having shown one notice for 5 seconds; no request is issued,
    replaceSelection is not called and the document is as it was. *)
Theorem empty_selection_only_notifies :
  forall (settings : LatexConverterSettings) (host : Host) (w : World),
    doc_selection (editor w) = [] ->
    fst (convertToLatex settings host w) = Returned tt
    /\ notices (snd (convertToLatex settings host w))
       = notices w
         ++ [{| notice_message :=
                  lit "No text selected. Please select the text you want to convert to LaTeX.";
                notice_timeout := 5000; notice_hidden := false |}]
    /\ requests (snd (convertToLatex settings host w)) = requests w
    /\ reads (snd (convertToLatex settings host w)) = reads w
    /\ replacements (snd (convertToLatex settings host w)) = replacements w
    /\ editor (snd (convertToLatex settings host w)) = editor w.
Proof.
  intros settings host w H.
  rewrite (convertToLatex_empty settings host w H). simpl. now repeat split.
Qed.

Lemma empty_selection_only_notifies_witness :
  requests (snd (convertToLatex DEFAULT_SETTINGS
                   (answering (streamed [jq "{'response':'x'}"]))
                   (selecting [])))
  = []
  /\ editor (snd (convertToLatex DEFAULT_SETTINGS
                    (answering (streamed [jq "{'response':'x'}"]))
                    (selecting [])))
     = editor (selecting []).
Proof.
  destruct (empty_selection_only_notifies DEFAULT_SETTINGS
              (answering (streamed [jq "{'response':'x'}"]))
              (selecting []) eq_refl)
    as (_ & _ & Hreq & _ & _ & Hed).
  split; assumption.
Defined.

(** *** The finally block *)

Section Finally.

Lemma keeps_notices_ret {A} (a : A) : keeps_notices (ret a).
Proof. intros w. exists []. simpl. now rewrite app_nil_r. Qed.

Lemma keeps_notices_throw {A} (e : Thrown) : keeps_notices (@throw A e).
Proof. intros w. exists []. simpl. now rewrite app_nil_r. Qed.

Lemma keeps_notices_bind {A B} (m : M A) (k : A -> M B) :
  keeps_notices m -> (forall a, keeps_notices (k a)) -> keeps_notices (bind m k).
Proof.
  intros Hm Hk w. unfold bind.
  destruct (Hm w) as [more Em].
  destruct (m w) as [[a|e] w1]; simpl in Em.
  - destruct (Hk a w1) as [more' Ek]. exists (more ++ more').
    now rewrite Ek, Em, app_assoc.
  - now exists more.
Qed.

Lemma keeps_notices_try_catch {A} (m : M A) (handler : Thrown -> M A) :
  keeps_notices m -> (forall e, keeps_notices (handler e)) ->
  keeps_notices (try_catch m handler).
Proof.
  intros Hm Hh w. unfold try_catch.
  destruct (Hm w) as [more Em].
  destruct (m w) as [[a|e] w1]; simpl in Em.
  - now exists more.
  - destruct (Hh e w1) as [more' Eh]. exists (more ++ more').
    now rewrite Eh, Em, app_assoc.
Qed.

Lemma keeps_notices_new_Notice (message : jsstring) (timeout : N) :
  keeps_notices (new_Notice message timeout).
Proof. intros w. now eexists. Qed.

Lemma keeps_notices_try_convert (client : jsstring -> M jsstring)
  (replace_op : jsstring -> M unit) (report : Thrown -> M unit)
  (selection : jsstring) :
  (forall s, keeps_notices (client s)) ->
  (forall s, keeps_notices (replace_op s)) ->
  (forall e, keeps_notices (report e)) ->
  keeps_notices (try_convert client replace_op report selection).
Proof.
  intros Hc Hr He. unfold try_convert.
  apply keeps_notices_try_catch; [|exact He].
  apply keeps_notices_bind; [apply Hc|]. intros latexEquation.
  apply keeps_notices_bind; [apply Hr|]. intros _.
  apply keeps_notices_bind; [apply keeps_notices_new_Notice|]. intros _.
  apply keeps_notices_ret.
Qed.

(** The command with a non-empty selection: the try statement runs with the
    progress notice up, and the finally block hides that notice whichever way
    the try statement ends. *)
Lemma convertToLatex_with_finally (client : jsstring -> M jsstring)
  (replace_op : jsstring -> M unit) (report : Thrown -> M unit) (w : World) :
  doc_selection (editor w) <> [] ->
  convertToLatex_with client replace_op report w
  = (fst (try_convert client replace_op report (doc_selection (editor w))
            (loading w)),
     set_notices
       (hide_at (List.length (notices w))
          (notices (snd (try_convert client replace_op report
                           (doc_selection (editor w)) (loading w)))))
       (snd (try_convert client replace_op report (doc_selection (editor w))
               (loading w)))).
Proof.
  intros Hsel. unfold convertToLatex_with, bind, getSelection.
  destruct (doc_selection (editor w)) as [|c sel] eqn:E; [now elim Hsel|].
  simpl. unfold try_finally, hide.
  change (set_notices (notices w ++ [{| notice_message := lit "Converting to LaTeX...";
                                        notice_timeout := 0;
                                        notice_hidden := false |}]) w)
    with (loading w).
  now destruct (try_convert client replace_op report (c :: sel) (loading w))
    as [[[]|e] w1].
Qed.

Lemma convertToLatex_as_command (settings : LatexConverterSettings) (host : Host) :
  convertToLatex settings host
  = convertToLatex_with (callLocalLLM settings host) (replaceSelection host)
      handleError.
Proof. reflexivity. Qed.

Lemma keeps_notices_callLocalLLM (settings : LatexConverterSettings) (host : Host)
  (input : jsstring) :
  keeps_notices (callLocalLLM settings host input).
Proof.
  intros w. exists [].
  destruct (callLocalLLM_frame settings host input w) as (_ & Hn & _).
  now rewrite Hn, app_nil_r.
Qed.

Lemma keeps_notices_replaceSelection (host : Host) (text : jsstring) :
  keeps_notices (replaceSelection host text).
Proof.
  intros w. exists []. unfold replaceSelection.
  destruct (replaceSelection_throws host); simpl; now rewrite app_nil_r.
Qed.

Lemma keeps_notices_handleError (e : Thrown) : keeps_notices (handleError e).
Proof. intros w. now eexists. Qed.

End Finally.

(** C9. With a non-empty selection the command first shows the persistent
    notice (Converting to LaTeX, timeout 0) and then runs the try statement.
    Whatever the client, the editor and the error reporter do, as long as
    they leave earlier notices in place, that notice is hidden when the
    command is left, be it by returning or by an exception that the catch
    block itself lets out; and the command is left the way the try statement
    is left: the finally block holds no exception back. For the plugin's own
    callLocalLLM, replaceSelection and handleError, whatever the network, the
    stream and the editor do, the command returns, with the notice hidden. *)
Theorem loading_notice_always_hidden :
  forall (client : jsstring -> M jsstring) (replace_op : jsstring -> M unit)
         (report : Thrown -> M unit) (w : World),
    doc_selection (editor w) <> [] ->
    (forall s, keeps_notices (client s)) ->
    (forall s, keeps_notices (replace_op s)) ->
    (forall e, keeps_notices (report e)) ->
    nth_error (notices (loading w)) (List.length (notices w))
    = Some {| notice_message := lit "Converting to LaTeX...";
              notice_timeout := 0; notice_hidden := false |}
    /\ nth_error
         (notices (snd (convertToLatex_with client replace_op report w)))
         (List.length (notices w))
       = Some {| notice_message := lit "Converting to LaTeX...";
                 notice_timeout := 0; notice_hidden := true |}
    /\ fst (convertToLatex_with client replace_op report w)
       = fst (try_convert client replace_op report (doc_selection (editor w))
                (loading w))
    /\ (forall (settings : LatexConverterSettings) (host : Host),
          convertToLatex settings host
          = convertToLatex_with (callLocalLLM settings host)
              (replaceSelection host) handleError
          /\ (forall s, keeps_notices (callLocalLLM settings host s))
          /\ (forall s, keeps_notices (replaceSelection host s))
          /\ (forall e, keeps_notices (handleError e))
          /\ fst (convertToLatex settings host w) = Returned tt
          /\ nth_error (notices (snd (convertToLatex settings host w)))
               (List.length (notices w))
             = Some {| notice_message := lit "Converting to LaTeX...";
                       notice_timeout := 0; notice_hidden := true |}).
Proof.
  intros client replace_op report w Hsel Hc Hr He.
  split; [apply (nth_error_middle (notices w) [] (loading_notice false))|].
  rewrite (convertToLatex_with_finally client replace_op report w Hsel).
  split; [|split; [reflexivity|]].
  - destruct (keeps_notices_try_convert client replace_op report
                (doc_selection (editor w)) Hc Hr He (loading w)) as [more Hn].
    cbn [snd notices set_notices]. rewrite Hn.
    change (notices (loading w)) with (notices w ++ [loading_notice false]).
    rewrite <- app_assoc. cbn [app].
    rewrite (hide_at_app (notices w) more (loading_notice false)).
    apply nth_error_middle.
  - intros settings host.
    split; [reflexivity|].
    split; [apply keeps_notices_callLocalLLM|].
    split; [apply keeps_notices_replaceSelection|].
    split; [apply keeps_notices_handleError|].
    destruct (convertToLatex_hides settings host w Hsel) as [Hret [more Hn]].
    split; [exact Hret|]. rewrite Hn. apply nth_error_middle.
Qed.

(** The network fails and the reporter throws the error on: the command is
    left by that exception, and the notice is hidden all the same. *)
Lemma loading_notice_always_hidden_witness :
  fst (convertToLatex_with (callLocalLLM DEFAULT_SETTINGS unreachable)
         (replaceSelection unreachable) (fun e => throw e)
         (selecting (lit "x")))
  = Threw (JSError (lit "Failed to fetch"))
  /\ nth_error
       (notices
          (snd (convertToLatex_with (callLocalLLM DEFAULT_SETTINGS unreachable)
                  (replaceSelection unreachable) (fun e => throw e)
                  (selecting (lit "x")))))
       0
     = Some (loading_notice true)
  /\ nth_error
       (notices (snd (convertToLatex DEFAULT_SETTINGS unreachable
                        (selecting (lit "x")))))
       0
     = Some (loading_notice true).
Proof.
  destruct (loading_notice_always_hidden
              (callLocalLLM DEFAULT_SETTINGS unreachable)
              (replaceSelection unreachable) (fun e => throw e)
              (selecting (lit "x")))
    as (_ & Hhidden & Hleft & Hplugin).
  - discriminate.
  - apply keeps_notices_callLocalLLM.
  - apply keeps_notices_replaceSelection.
  - intros e. apply keeps_notices_throw.
  - split; [|split].
    + rewrite Hleft. vm_compute. reflexivity.
    + exact Hhidden.
    + exact (proj2 (proj2 (proj2 (proj2 (proj2
               (Hplugin DEFAULT_SETTINGS unreachable)))))).
Defined.

(** On success the returned text takes the place of the selection. The
    success notice is made in the try block, while the progress notice is
    still up; the finally block hides the progress notice after that, so the
    command ends with the hidden progress notice and, after it in the list,
    the success notice. *)
Theorem convertToLatex_replaces_selection :
  forall (settings : LatexConverterSettings) (host : Host) (r : Response)
         (reads_ : list jsstring) (w : World),
    doc_selection (editor w) <> [] ->
    fetch_outcome host (build_request settings (doc_selection (editor w)))
    = FetchResolves r ->
    ok r = true ->
    response_body r = Some {| chunks := reads_; failure := None |} ->
    Forall (fun line => plain_line line = true) (stream_lines reads_) ->
    replaceSelection_throws host = None ->
    fst (convertToLatex settings host w) = Returned tt
    /\ editor (snd (convertToLatex settings host w))
       = {| doc_before :=
              doc_before (editor w)
              ++ trim (concat (map response_field (stream_lines reads_)));
            doc_selection := [];
            doc_after := doc_after (editor w) |}
    /\ replacements (snd (convertToLatex settings host w))
       = replacements w
         ++ [trim (concat (map response_field (stream_lines reads_)))]
    /\ notices (snd (convertToLatex settings host w))
       = notices w ++ [loading_notice true; success_notice]
    /\ notices
         (snd (try_convert (callLocalLLM settings host) (replaceSelection host)
                 handleError (doc_selection (editor w)) (loading w)))
       = notices w ++ [loading_notice false; success_notice].
Proof.
  intros settings host r reads_ w Hsel Hf Hok Hb Hl Hrep.
  pose proof (callLocalLLM_plain settings host _ _ _ (loading w) Hf Hok Hb Hl)
    as Hcall.
  assert (Htry : notices
                   (snd (try_convert (callLocalLLM settings host)
                           (replaceSelection host) handleError
                           (doc_selection (editor w)) (loading w)))
                 = notices w ++ [loading_notice false; success_notice]).
  { unfold try_convert, try_catch, bind. rewrite Hcall.
    unfold replaceSelection. rewrite Hrep. simpl.
    now rewrite <- app_assoc. }
  rewrite Htry.
  unfold convertToLatex, bind, getSelection.
  destruct (doc_selection (editor w)) as [|c sel] eqn:E; [now elim Hsel|].
  simpl. unfold try_finally, try_catch, bind.
  change (set_notices (notices w ++ [{| notice_message := lit "Converting to LaTeX...";
                                        notice_timeout := 0;
                                        notice_hidden := false |}]) w)
    with (loading w).
  rewrite Hcall. unfold replaceSelection. rewrite Hrep. simpl.
  repeat split.
  rewrite <- app_assoc. simpl.
  apply (hide_at_app (notices w) [success_notice] (loading_notice false)).
Qed.

(** The end-to-end example of the specification. *)
Lemma convertToLatex_replaces_selection_witness :
  editor (snd (convertToLatex DEFAULT_SETTINGS
                 (answering (streamed [jq "{'response':'\\int'}" ++ [ch_lf];
                                       jq "{'response':' x^2 \\,dx'}" ++ [ch_lf]]))
                 (selecting (lit "the integral of x squared"))))
  = {| doc_before := lit "Let \int x^2 \,dx"; doc_selection := [];
       doc_after := lit " be given." |}.
Proof.
  refine (eq_trans
    (proj1 (proj2 (convertToLatex_replaces_selection DEFAULT_SETTINGS
       (answering (streamed [jq "{'response':'\\int'}" ++ [ch_lf];
                             jq "{'response':' x^2 \\,dx'}" ++ [ch_lf]]))
       _ _ (selecting (lit "the integral of x squared"))
       _ eq_refl eq_refl eq_refl _ eq_refl))) _).
  - discriminate.
  - vm_compute. repeat constructor.
  - vm_compute. reflexivity.
Defined.

(** ** The error reporter *)

(** C8. The message handleError reports is the one of the first class whose
    marker occurs in the Error's message, in the order HTTP error, parse
    failure, unreadable stream; an Error matching none is wrapped in the
    generic text and a value that is not an Error gets the fixed generic text.
    handleError shows that one message in one notice, for 10 seconds, logs it
    and returns; the connectivity text names http://localhost:11434. *)
Theorem handleError_classifies :
  forall (error : Thrown) (w : World),
    errorMessage error = first_matching_class error
    /\ handleError error w
       = (Returned tt,
          set_console (console w ++ [[Text (first_matching_class error)]])
            (set_notices
               (notices w ++ [{| notice_message := first_matching_class error;
                                 notice_timeout := 10000;
                                 notice_hidden := false |}]) w))
    /\ (forall v, first_matching_class (NonError v)
                  = lit "An unexpected error occurred while converting to LaTeX.")
    /\ map fst error_classes
       = [lit "HTTP error"; lit "Failed to parse response";
          lit "Unable to read response"]
    /\ Forall (fun class => includes (snd class) (lit "http://localhost:11434")
                            = JSString.eqb (fst class) (lit "HTTP error"))
         error_classes
    /\ errorMessage (JSError (lit "Failed to parse response: HTTP error"))
       = lit "Failed to connect to Ollama. Please ensure Ollama is running and accessible at http://localhost:11434. Error: Failed to parse response: HTTP error"
    /\ errorMessage (JSError (lit "Unable to read response; Failed to parse response"))
       = lit "Received an invalid response from Ollama. The model might be having issues. Error: Unable to read response; Failed to parse response"
    /\ errorMessage (JSError (lit "Unable to read response from Ollama"))
       = lit "Failed to read the response from Ollama. The connection might have been interrupted. Error: Unable to read response from Ollama"
    /\ errorMessage (JSError (lit "Failed to fetch"))
       = lit "Error converting to LaTeX: Failed to fetch".
Proof.
  intros error w.
  assert (E : errorMessage error = first_matching_class error).
  { destruct error as [message|v]; [|reflexivity].
    unfold errorMessage, first_matching_class, error_classes, find, fst, snd.
    destruct (includes message (lit "HTTP error")); [reflexivity|].
    destruct (includes message (lit "Failed to parse response")); [reflexivity|].
    destruct (includes message (lit "Unable to read response")); reflexivity. }
  split; [exact E|]. split.
  - unfold handleError, bind, new_Notice, console_error. simpl. now rewrite E.
  - split; [reflexivity|]. split; [reflexivity|].
    split; [repeat constructor; vm_compute; reflexivity|].
    repeat split; vm_compute; reflexivity.
Qed.

(** ** Lines that parse but are not the expected object *)

Section ParsedValues.

Lemma parse_literal_defined (s rest : jsstring) (v : JSValue) :
  parse_literal s = Some (v, rest) -> v <> JUndefined.
Proof.
  unfold parse_literal.
  destruct (strip_prefix (lit "true") s); [intros H; inversion H; discriminate|].
  destruct (strip_prefix (lit "false") s); [intros H; inversion H; discriminate|].
  destruct (strip_prefix (lit "null") s); [intros H; inversion H; discriminate|].
  destruct (parse_number s) as [[n r]|]; [|discriminate].
  intros H; inversion H; discriminate.
Qed.

Lemma parse_elements_defined (fuel : nat) :
  forall (s rest : jsstring) (acc : list JSValue) (v : JSValue),
    parse_elements fuel s acc = POk v rest -> v <> JUndefined.
Proof.
  induction fuel as [|fuel IH]; intros s rest acc v; simpl; [discriminate|].
  destruct (parse_value fuel s) as [x r| |]; try discriminate.
  destruct (skip_ws r) as [|c r']; [discriminate|].
  destruct (c =? 44)%N; [apply IH|].
  destruct (c =? 93)%N; [|discriminate].
  intros H; inversion H; discriminate.
Qed.

Lemma parse_members_defined (fuel : nat) :
  forall (s rest : jsstring) (acc : list (jsstring * JSValue)) (v : JSValue),
    parse_members fuel s acc = POk v rest -> v <> JUndefined.
Proof.
  induction fuel as [|fuel IH]; intros s rest acc v; simpl; [discriminate|].
  destruct (skip_ws s) as [|q r0]; [discriminate|].
  destruct (q =? ch_quote)%N; [|discriminate].
  destruct (parse_chars r0) as [[key r1]|]; [|discriminate].
  destruct (skip_ws r1) as [|colon r2]; [discriminate|].
  destruct (colon =? 58)%N; [|discriminate].
  destruct (parse_value fuel r2) as [x r| |]; try discriminate.
  destruct (skip_ws r) as [|c r']; [discriminate|].
  destruct (c =? 44)%N; [apply IH|].
  destruct (c =? 125)%N; [|discriminate].
  intros H; inversion H; discriminate.
Qed.

Lemma parse_value_defined (fuel : nat) (s rest : jsstring) (v : JSValue) :
  parse_value fuel s = POk v rest -> v <> JUndefined.
Proof.
  destruct fuel as [|fuel]; simpl; [discriminate|].
  destruct (skip_ws s) as [|c r]; [discriminate|].
  destruct (c =? 123)%N.
  { destruct (skip_ws r) as [|d r']; [discriminate|].
    destruct (d =? 125)%N; [intros H; inversion H; discriminate|].
    apply parse_members_defined. }
  destruct (c =? 91)%N.
  { destruct (skip_ws r) as [|d r']; [discriminate|].
    destruct (d =? 93)%N; [intros H; inversion H; discriminate|].
    apply parse_elements_defined. }
  destruct (c =? ch_quote)%N.
  { destruct (parse_chars r) as [[str r']|]; [|discriminate].
    intros H; inversion H; discriminate. }
  destruct (parse_literal (c :: r)) as [[x r']|] eqn:E; [|discriminate].
  intros H; inversion H; subst. eapply parse_literal_defined; eassumption.
Qed.

(** JSON.parse never yields [undefined]. *)
Lemma JSON_parse_defined (line : jsstring) (data : JSValue) :
  JSON_parse line = Some data -> data <> JUndefined.
Proof.
  unfold JSON_parse.
  destruct (parse_value (parse_fuel line) line) as [v rest| |] eqn:E;
    try discriminate.
  destruct (skip_ws rest); [|discriminate].
  intros H; inversion H; subst. eapply parse_value_defined; eassumption.
Qed.

End ParsedValues.

(** C10, as the code has it. A line that parses to [null] makes the read of
    its [response] member throw, and the line handler aborts with the parse
    failure; a line that parses to any other value (an object, an array, a
    string, a number, a boolean) has that read defined, and when the member is
    absent or falsy the accumulator is left as it was and nothing is thrown. *)
Theorem null_aborts_and_falsy_response_is_skipped :
  forall (host : Host) (latexEquation line : jsstring) (data : JSValue)
         (w : World),
    JSON_parse line = Some data ->
    (data = JNull ->
     process_line host latexEquation line w
     = (Threw (JSError (lit "Failed to parse response from Ollama")),
        logged_parse_error w))
    /\ (data <> JNull -> exists response, get_response data = Some response)
    /\ (forall response,
          get_response data = Some response ->
          ToBoolean response = false ->
          process_line host latexEquation line w = (Returned latexEquation, w)).
Proof.
  intros host acc line data w Hp.
  split; [|split].
  - intros ->. apply process_line_throws. unfold try_line. now rewrite Hp.
  - intros Hn. pose proof (JSON_parse_defined _ _ Hp) as Hu.
    destruct data as [| |b|n|s|elements|members]; simpl;
      try (now elim Hn); try (now elim Hu);
      try (exists JUndefined; reflexivity).
    destruct (lookup (lit "response") members) as [v|];
      [exists v|exists JUndefined]; reflexivity.
  - intros response Hg Hb. apply process_line_ok.
    unfold try_line. now rewrite Hp, Hg, Hb.
Qed.

Lemma null_aborts_and_falsy_response_is_skipped_witness :
  fst (process_line (answering (streamed [])) (lit "x^2") (lit "null") (selecting []))
  = Threw parse_failure
  /\ process_line (answering (streamed [])) (lit "x^2")
       (jq "{'response':'','done':true}") (selecting [])
     = (Returned (lit "x^2"), selecting [])
  /\ process_line (answering (streamed [])) (lit "x^2")
       (jq "{'done':true}") (selecting [])
     = (Returned (lit "x^2"), selecting []).
Proof.
  split; [|split].
  - rewrite (proj1 (null_aborts_and_falsy_response_is_skipped
                      (answering (streamed [])) (lit "x^2") (lit "null") JNull
                      (selecting []) eq_refl) eq_refl).
    reflexivity.
  - refine (proj2 (proj2 (null_aborts_and_falsy_response_is_skipped
                      (answering (streamed [])) (lit "x^2")
                      (jq "{'response':'','done':true}") _ (selecting []) _))
              (JString []) _ _); vm_compute; reflexivity.
  - refine (proj2 (proj2 (null_aborts_and_falsy_response_is_skipped
                      (answering (streamed [])) (lit "x^2")
                      (jq "{'done':true}") _ (selecting []) _))
              JUndefined _ _); vm_compute; reflexivity.
Defined.

(** C10, as stated, fails: the lines [5], [true] and a string literal are
    valid JSON and no objects, yet the handler does not throw on them, and a
    stream of such lines is a success. *)
Lemma number_line_does_not_abort :
  JSON_parse (lit "5")
  = Some (JNumber {| negative := false; mantissa := 5; exponent10 := 0 |})
  /\ process_line (answering (streamed [])) (lit "x^2") (lit "5") (selecting [])
     = (Returned (lit "x^2"), selecting [])
  /\ JSON_parse (lit "true") = Some (JBool true)
  /\ process_line (answering (streamed [])) (lit "x^2") (lit "true") (selecting [])
     = (Returned (lit "x^2"), selecting [])
  /\ fst (callLocalLLM DEFAULT_SETTINGS
            (answering (streamed [lit "5" ++ [ch_lf] ++ jq "'text'" ++ [ch_lf]]))
            (lit "x") (selecting (lit "x")))
     = Returned [].
Proof. repeat split; vm_compute; reflexivity. Qed.

(** ** Reads are split one by one *)

Section Accumulate.

Variable host : Host.

Lemma process_lines_accumulate (lines : list jsstring) :
  forall (acc : jsstring) (w : World),
    fst (process_lines host lines acc w) = outcome_of (accumulate host lines acc).
Proof.
  induction lines as [|line rest IH]; intros acc w; simpl; [reflexivity|].
  unfold bind, process_line.
  destruct (try_line host acc line) as [acc'|]; simpl; [apply IH|reflexivity].
Qed.

Lemma accumulate_app (l1 l2 : list jsstring) :
  forall acc : jsstring,
    accumulate host (l1 ++ l2) acc
    = match accumulate host l1 acc with
      | Some acc' => accumulate host l2 acc'
      | None => None
      end.
Proof.
  induction l1 as [|line rest IH]; intros acc; simpl; [reflexivity|].
  destruct (try_line host acc line); [apply IH|reflexivity].
Qed.

Lemma read_loop_accumulate (reads_ : list jsstring) :
  forall (acc : jsstring) (w : World),
    fst (read_loop host reads_ None acc w)
    = outcome_of (accumulate host (stream_lines reads_) acc).
Proof.
  induction reads_ as [|chunk rest IH]; intros acc w; [reflexivity|].
  rewrite read_loop_chunk. unfold stream_lines. simpl. rewrite accumulate_app.
  pose proof (process_lines_accumulate (lines_of chunk) acc
                (set_reads (S (reads w)) w)) as Hacc.
  destruct (process_lines host (lines_of chunk) acc (set_reads (S (reads w)) w))
    as [[acc'|e] w'].
  - simpl in Hacc.
    destruct (accumulate host (lines_of chunk) acc) as [a|]; [|discriminate].
    inversion Hacc; subst. apply IH.
  - simpl in Hacc.
    destruct (accumulate host (lines_of chunk) acc) as [a|]; [discriminate|].
    simpl. exact Hacc.
Qed.

End Accumulate.

(** C5. The loop handles the lines of each read on their own: its outcome is
    that of accumulating, in order, the non-blank lines of the first read's
    text, then those of the second, and so on, with nothing carried from one
    read to the next. So the stream made of one line, an object with the
    [response] member x, yields x when it arrives in one read, and aborts
    with the parse failure when it arrives in two reads that cut the line. *)
Theorem reads_are_split_one_by_one :
  (forall (host : Host) (reads_ : list jsstring) (acc : jsstring) (w : World),
      fst (read_loop host reads_ None acc w)
      = outcome_of
          (accumulate host
             (flat_map (fun chunk =>
                          filter (fun line => negb (is_empty (trim line)))
                                 (split_lf chunk)) reads_) acc))
  /\ jq "{'resp" ++ (jq "onse':'x'}" ++ [ch_lf]) = jq "{'response':'x'}" ++ [ch_lf]
  /\ fst (callLocalLLM DEFAULT_SETTINGS
            (answering (streamed [jq "{'response':'x'}" ++ [ch_lf]]))
            (lit "x") (selecting (lit "x")))
     = Returned (lit "x")
  /\ stream_lines [jq "{'resp"; jq "onse':'x'}" ++ [ch_lf]]
     = [jq "{'resp"; jq "onse':'x'}"]
  /\ fst (callLocalLLM DEFAULT_SETTINGS
            (answering (streamed [jq "{'resp"; jq "onse':'x'}" ++ [ch_lf]]))
            (lit "x") (selecting (lit "x")))
     = Threw (JSError (lit "Failed to parse response from Ollama")).
Proof.
  split; [exact read_loop_accumulate|].
  repeat split; vm_compute; reflexivity.
Qed.

(** ** JSON.parse always decides *)

Section ParserFuel.

Lemma skip_ws_length (s : jsstring) : List.length (skip_ws s) <= List.length s.
Proof.
  induction s as [|c s IH]; simpl; [lia|].
  destruct (is_json_ws c); simpl; lia.
Qed.

Lemma skip_ws_cons_length (s r : jsstring) (c : N) :
  skip_ws s = c :: r -> List.length r < List.length s.
Proof.
  intros H. pose proof (skip_ws_length s) as L. rewrite H in L. simpl in L. lia.
Qed.

Lemma strip_prefix_length (p s rest : jsstring) :
  strip_prefix p s = Some rest ->
  List.length s = List.length p + List.length rest.
Proof.
  intros H. rewrite (strip_prefix_Some _ _ _ H). apply length_app.
Qed.

Lemma parse_chars_length (s : jsstring) :
  forall (str rest : jsstring),
    parse_chars s = Some (str, rest) -> List.length rest < List.length s.
Proof.
  induction s as [s IH] using (well_founded_induction
                                 (Wf_nat.well_founded_ltof _ (@List.length N))).
  unfold Wf_nat.ltof in IH.
  intros str rest. destruct s as [|c r]; simpl; [discriminate|].
  destruct (c =? ch_quote)%N.
  { intros H; inversion H; subst. lia. }
  destruct (c =? ch_backslash)%N.
  - destruct r as [|e r1]; [discriminate|].
    destruct (e =? 117)%N.
    + destruct r1 as [|h1 [|h2 [|h3 [|h4 r2]]]]; try discriminate.
      destruct (hex4 h1 h2 h3 h4); [|discriminate].
      destruct (parse_chars r2) as [[k r']|] eqn:E; [|discriminate].
      simpl. intros H; inversion H; subst.
      assert (List.length rest < List.length r2) by (eapply IH; [simpl; lia|eassumption]).
      simpl. lia.
    + destruct (simple_escape e); [|discriminate].
      destruct (parse_chars r1) as [[k r']|] eqn:E; [|discriminate].
      simpl. intros H; inversion H; subst.
      assert (List.length rest < List.length r1) by (eapply IH; [simpl; lia|eassumption]).
      simpl. lia.
  - destruct (c <? 32)%N; [discriminate|].
    destruct (parse_chars r) as [[k r']|] eqn:E; [|discriminate].
    simpl. intros H; inversion H; subst.
    assert (List.length rest < List.length r) by (eapply IH; [simpl; lia|eassumption]).
    lia.
Qed.

Lemma take_digits_length (s : jsstring) :
  forall (acc : N) (count : nat),
    List.length (snd (take_digits acc count s)) <= List.length s.
Proof.
  induction s as [|c s IH]; intros acc count; simpl; [lia|].
  destruct (is_digit c); simpl; [|lia].
  specialize (IH (acc * 10 + (c - 48))%N (S count)). lia.
Qed.

Lemma parse_number_length (s rest : jsstring) (n : Number) :
  parse_number s = Some (n, rest) -> List.length rest < List.length s.
Proof.
  unfold parse_number.
  assert (Hsign : exists neg s0,
             match s with
             | c :: s' => if (c =? 45)%N then (true, s') else (false, s)
             | [] => (false, s)
             end = (neg, s0) /\ List.length s0 <= List.length s).
  { destruct s as [|c s']; [now exists false, []|].
    destruct (c =? 45)%N; [exists true, s'|exists false, (c :: s')];
      split; simpl; try reflexivity; lia. }
  destruct Hsign as (neg & s0 & -> & L0).
  assert (Hint : forall i s1, parse_int s0 = Some (i, s1) ->
                              List.length s1 < List.length s0).
  { unfold parse_int. intros i s1. destruct s0 as [|c s']; [discriminate|].
    destruct (c =? 48)%N; [intros H; inversion H; subst; simpl; lia|].
    destruct (is_digit c) eqn:D; [|discriminate].
    simpl. rewrite D.
    match goal with
    | |- context [take_digits ?a ?k ?t] =>
        pose proof (take_digits_length t a k) as L;
        destruct (take_digits a k t) as [[v k'] r]
    end.
    intros H; inversion H; subst. simpl in *. lia. }
  destruct (parse_int s0) as [[i s1]|]; [|discriminate].
  specialize (Hint i s1 eq_refl).
  assert (Hfrac : forall m k s2, parse_frac i s1 = Some (m, k, s2) ->
                                 List.length s2 <= List.length s1).
  { unfold parse_frac. intros m k s2. destruct s1 as [|c s']; [intros H; inversion H; simpl; lia|].
    destruct (c =? 46)%N; [|intros H; inversion H; simpl; lia].
    pose proof (take_digits_length s' i 0) as L.
    destruct (take_digits i 0 s') as [[v [|k']] r]; [discriminate|].
    intros H; inversion H; subst. simpl in *. lia. }
  destruct (parse_frac i s1) as [[[m k] s2]|]; [|discriminate].
  specialize (Hfrac m k s2 eq_refl).
  assert (Hexp : forall e s3, parse_exp s2 = Some (e, s3) ->
                              List.length s3 <= List.length s2).
  { unfold parse_exp. intros e s3. destruct s2 as [|c s']; [intros H; inversion H; simpl; lia|].
    destruct ((c =? 101) || (c =? 69))%N; [|intros H; inversion H; simpl; lia].
    assert (Hs : exists sg t,
               match s' with
               | d :: s4 =>
                   if (d =? 45)%N then (true, s4)
                   else if (d =? 43)%N then (false, s4) else (false, s')
               | [] => (false, s')
               end = (sg, t) /\ List.length t <= List.length s').
    { destruct s' as [|d s4]; [now exists false, []|].
      destruct (d =? 45)%N; [exists true, s4; split; simpl; [reflexivity|lia]|].
      destruct (d =? 43)%N; [exists false, s4|exists false, (d :: s4)];
        split; simpl; try reflexivity; lia. }
    destruct Hs as (sg & t & -> & Lt).
    pose proof (take_digits_length t 0%N 0) as L.
    destruct (take_digits 0%N 0 t) as [[v [|k']] r]; [discriminate|].
    intros H; inversion H; subst. simpl in *. lia. }
  destruct (parse_exp s2) as [[e s3]|]; [|discriminate].
  specialize (Hexp e s3 eq_refl).
  intros H; inversion H; subst. lia.
Qed.

Lemma parse_literal_length (s rest : jsstring) (v : JSValue) :
  parse_literal s = Some (v, rest) -> List.length rest < List.length s.
Proof.
  unfold parse_literal.
  destruct (strip_prefix (lit "true") s) eqn:E1.
  { intros H; inversion H; subst. apply strip_prefix_length in E1. simpl in E1. lia. }
  destruct (strip_prefix (lit "false") s) eqn:E2.
  { intros H; inversion H; subst. apply strip_prefix_length in E2. simpl in E2. lia. }
  destruct (strip_prefix (lit "null") s) eqn:E3.
  { intros H; inversion H; subst. apply strip_prefix_length in E3. simpl in E3. lia. }
  destruct (parse_number s) as [[n r]|] eqn:E4; [|discriminate].
  intros H; inversion H; subst. eapply parse_number_length; eassumption.
Qed.

(** With more fuel than twice the length of the text, the descent never runs
    out, and what it parses is not empty. *)
Lemma parser_fuel (fuel : nat) :
  (forall s, 2 * List.length s < fuel ->
             parse_value fuel s <> POutOfFuel
             /\ forall v rest, parse_value fuel s = POk v rest ->
                               List.length rest < List.length s)
  /\ (forall s acc, 2 * List.length s + 1 < fuel ->
                    parse_elements fuel s acc <> POutOfFuel
                    /\ forall v rest, parse_elements fuel s acc = POk v rest ->
                                      List.length rest < List.length s)
  /\ (forall s acc, 2 * List.length s + 1 < fuel ->
                    parse_members fuel s acc <> POutOfFuel
                    /\ forall v rest, parse_members fuel s acc = POk v rest ->
                                      List.length rest < List.length s).
Proof.
  induction fuel as [|fuel (IHv & IHe & IHm)].
  { repeat split; intros; lia. }
  split; [|split].
  - intros s Hs. simpl.
    destruct (skip_ws s) as [|c r] eqn:Ews; [split; [discriminate|discriminate]|].
    pose proof (skip_ws_cons_length _ _ _ Ews) as Lr.
    destruct (c =? 123)%N.
    { destruct (skip_ws r) as [|d r'] eqn:Ews'; [split; discriminate|].
      pose proof (skip_ws_cons_length _ _ _ Ews') as Lr'.
      destruct (d =? 125)%N.
      - split; [discriminate|]. intros v rest H; inversion H; subst. lia.
      - destruct (IHm (d :: r') []) as [Hn Hl]; [simpl; lia|].
        split; [exact Hn|]. intros v rest H. specialize (Hl v rest H). simpl in Hl. lia. }
    destruct (c =? 91)%N.
    { destruct (skip_ws r) as [|d r'] eqn:Ews'; [split; discriminate|].
      pose proof (skip_ws_cons_length _ _ _ Ews') as Lr'.
      destruct (d =? 93)%N.
      - split; [discriminate|]. intros v rest H; inversion H; subst. lia.
      - destruct (IHe (d :: r') []) as [Hn Hl]; [simpl; lia|].
        split; [exact Hn|]. intros v rest H. specialize (Hl v rest H). simpl in Hl. lia. }
    destruct (c =? ch_quote)%N.
    { destruct (parse_chars r) as [[str r']|] eqn:E; [|split; discriminate].
      split; [discriminate|]. intros v rest H; inversion H; subst.
      pose proof (parse_chars_length _ _ _ E). lia. }
    destruct (parse_literal (c :: r)) as [[x r']|] eqn:E; [|split; discriminate].
    split; [discriminate|]. intros v rest H; inversion H; subst.
    pose proof (parse_literal_length _ _ _ E) as L. simpl in L. lia.
  - intros s acc Hs. simpl.
    destruct (IHv s) as [Hn Hl]; [lia|].
    destruct (parse_value fuel s) as [x r| |] eqn:E; [|split; discriminate|now elim Hn].
    specialize (Hl x r eq_refl).
    destruct (skip_ws r) as [|c r'] eqn:Ews; [split; discriminate|].
    pose proof (skip_ws_cons_length _ _ _ Ews) as Lr.
    destruct (c =? 44)%N.
    { destruct (IHe r' (x :: acc)) as [Hn' Hl']; [lia|].
      split; [exact Hn'|]. intros v rest H. specialize (Hl' v rest H). lia. }
    destruct (c =? 93)%N; [|split; discriminate].
    split; [discriminate|]. intros v rest H; inversion H; subst. lia.
  - intros s acc Hs. simpl.
    destruct (skip_ws s) as [|q r0] eqn:Ews; [split; discriminate|].
    pose proof (skip_ws_cons_length _ _ _ Ews) as L0.
    destruct (q =? ch_quote)%N; [|split; discriminate].
    destruct (parse_chars r0) as [[key r1]|] eqn:Ec; [|split; discriminate].
    pose proof (parse_chars_length _ _ _ Ec) as L1.
    destruct (skip_ws r1) as [|colon r2] eqn:Ews1; [split; discriminate|].
    pose proof (skip_ws_cons_length _ _ _ Ews1) as L2.
    destruct (colon =? 58)%N; [|split; discriminate].
    destruct (IHv r2) as [Hn Hl]; [lia|].
    destruct (parse_value fuel r2) as [x r| |] eqn:E; [|split; discriminate|now elim Hn].
    specialize (Hl x r eq_refl).
    destruct (skip_ws r) as [|c r'] eqn:Ews2; [split; discriminate|].
    pose proof (skip_ws_cons_length _ _ _ Ews2) as Lr.
    destruct (c =? 44)%N.
    { destruct (IHm r' ((key, x) :: acc)) as [Hn' Hl']; [lia|].
      split; [exact Hn'|]. intros v rest H. specialize (Hl' v rest H). lia. }
    destruct (c =? 125)%N; [|split; discriminate].
    split; [discriminate|]. intros v rest H; inversion H; subst. lia.
Qed.

(** The fuel JSON.parse gives the descent is enough: [None] is a syntax
    error, never a lack of fuel. *)
Lemma JSON_parse_decides (text : jsstring) :
  parse_value (parse_fuel text) text <> POutOfFuel.
Proof.
  apply (proj1 (parser_fuel (parse_fuel text))). unfold parse_fuel. lia.
Qed.

End ParserFuel.

(** * Further properties *)

(** ** Every way through the client *)

Section ClientCases.

Variable settings : LatexConverterSettings.
Variable host : Host.

(** The five ways through callLocalLLM, each with the world it leaves. *)
Lemma callLocalLLM_cases (input : jsstring) (w : World) :
  callLocalLLM settings host input w
  = match fetch_outcome host (build_request settings input) with
    | FetchRejects e =>
        (Threw e, logged_call_error e (issued (build_request settings input) w))
    | FetchResolves r =>
        if ok r then
          match response_body r with
          | None =>
              (Threw unreadable,
               logged_call_error unreadable
                 (issued (build_request settings input) w))
          | Some reader =>
              match read_loop host (chunks reader) (failure reader) []
                      (issued (build_request settings input) w) with
              | (Returned latexEquation, w') => (Returned (trim latexEquation), w')
              | (Threw e, w') => (Threw e, logged_call_error e w')
              end
          end
        else
          (Threw (http_error r),
           logged_call_error (http_error r)
             (issued (build_request settings input) w))
    end.
Proof.
  unfold callLocalLLM, try_catch, bind, fetch, issued.
  destruct (fetch_outcome host (build_request settings input)) as [e|r];
    [reflexivity|].
  destruct (ok r); [|reflexivity].
  destruct (response_body r) as [reader|]; [|reflexivity].
  simpl.
  destruct (read_loop host (chunks reader) (failure reader) []
              (set_requests (requests w ++ [build_request settings input]) w))
    as [[acc|e] w']; reflexivity.
Qed.

Lemma callLocalLLM_requests (input : jsstring) (w : World) :
  requests (snd (callLocalLLM settings host input w))
  = requests w ++ [build_request settings input].
Proof.
  rewrite callLocalLLM_cases.
  destruct (fetch_outcome host (build_request settings input)) as [e|r];
    [reflexivity|].
  destruct (ok r); [|reflexivity].
  destruct (response_body r) as [reader|]; [|reflexivity].
  pose proof (read_loop_frame host (chunks reader) (failure reader) []
                (issued (build_request settings input) w)) as [_ Hr].
  destruct (read_loop host (chunks reader) (failure reader) []
              (issued (build_request settings input) w)) as [[acc|e] w'];
    simpl in *; exact Hr.
Qed.

Lemma callLocalLLM_returns_trim (input text : jsstring) (w : World) :
  fst (callLocalLLM settings host input w) = Returned text ->
  exists latexEquation, text = trim latexEquation.
Proof.
  rewrite callLocalLLM_cases.
  destruct (fetch_outcome host (build_request settings input)) as [e|r];
    [discriminate|].
  destruct (ok r); [|discriminate].
  destruct (response_body r) as [reader|]; [|discriminate].
  destruct (read_loop host (chunks reader) (failure reader) []
              (issued (build_request settings input) w)) as [[acc|e] w'];
    simpl; [|discriminate].
  intros H; inversion H. now exists acc.
Qed.

(** The loop's outcome for any stream, failing reads included. *)
Lemma read_loop_outcome (reads_ : list jsstring) :
  forall (failure : option Thrown) (acc : jsstring) (w : World),
    fst (read_loop host reads_ failure acc w)
    = loop_outcome failure (accumulate host (stream_lines reads_) acc).
Proof.
  induction reads_ as [|chunk rest IH]; intros failure acc w.
  - simpl. unfold bind, count_read. now destruct failure.
  - rewrite read_loop_chunk. unfold stream_lines. simpl. rewrite accumulate_app.
    pose proof (process_lines_accumulate host (lines_of chunk) acc
                  (set_reads (S (reads w)) w)) as Hacc.
    destruct (process_lines host (lines_of chunk) acc (set_reads (S (reads w)) w))
      as [[acc'|e] w'].
    + simpl in Hacc.
      destruct (accumulate host (lines_of chunk) acc) as [a|]; [|discriminate].
      inversion Hacc; subst. apply IH.
    + simpl in Hacc.
      destruct (accumulate host (lines_of chunk) acc) as [a|]; [discriminate|].
      simpl. exact Hacc.
Qed.

End ClientCases.

(** ** Every way through the command *)

Section CommandCases.

Variable settings : LatexConverterSettings.
Variable host : Host.

(** The try, catch and finally blocks after a call that returned. *)
Lemma convertToLatex_returned (w w' : World) (text : jsstring) :
  doc_selection (editor w) <> [] ->
  callLocalLLM settings host (doc_selection (editor w)) (loading w)
  = (Returned text, w') ->
  convertToLatex settings host w
  = (Returned tt,
     match replaceSelection_throws host with
     | None =>
         set_notices (notices w ++ [loading_notice true; success_notice])
           (set_editor (replaced_by text (editor w))
              (set_replacements (replacements w ++ [text]) w'))
     | Some e =>
         set_notices (notices w ++ [loading_notice true; error_notice e])
           (set_console (console w' ++ [[Text (errorMessage e)]])
              (set_replacements (replacements w ++ [text]) w'))
     end).
Proof.
  intros Hsel Hcall.
  pose proof (callLocalLLM_frame settings host (doc_selection (editor w)) (loading w))
    as (He & Hn & Hr).
  rewrite Hcall in He, Hn, Hr. simpl in He, Hn, Hr.
  unfold convertToLatex, bind, getSelection.
  destruct (doc_selection (editor w)) as [|c sel] eqn:E; [now elim Hsel|].
  simpl. unfold try_finally, try_catch, bind.
  change (set_notices (notices w ++ [{| notice_message := lit "Converting to LaTeX...";
                                        notice_timeout := 0;
                                        notice_hidden := false |}]) w)
    with (loading w).
  rewrite Hcall. unfold replaceSelection.
  destruct (replaceSelection_throws host) as [e|]; simpl;
    rewrite Hn, Hr, ?He; unfold set_notices, set_console, set_editor,
      set_replacements, replaced_by; simpl; do 2 f_equal;
    rewrite <- app_assoc; simpl.
  - apply (hide_at_app (notices w) [error_notice e] (loading_notice false)).
  - apply (hide_at_app (notices w) [success_notice] (loading_notice false)).
Qed.

End CommandCases.



Lemma convertToLatex_requests (settings : LatexConverterSettings) (host : Host)
  (w : World) :
  doc_selection (editor w) <> [] ->
  requests (snd (convertToLatex settings host w))
  = requests w ++ [build_request settings (doc_selection (editor w))].
Proof.
  intros Hsel.
  pose proof (callLocalLLM_requests settings host (doc_selection (editor w)) (loading w))
    as Hreq.
  destruct (callLocalLLM settings host (doc_selection (editor w)) (loading w))
    as [[text|e] w'] eqn:Hcall; simpl in Hreq.
  - rewrite (convertToLatex_returned settings host w w' text Hsel Hcall).
    destruct (replaceSelection_throws host); simpl; exact Hreq.
  - rewrite (convertToLatex_failure settings host w w' e Hsel Hcall).
    simpl. exact Hreq.
Qed.

(** With a non-empty selection, whatever happens next, the command issues
    exactly one request: a POST to the fixed endpoint with the JSON content
    type, carrying the configured model and keep-alive, the streaming flag
    set, and the prompt built from the selection; nothing is sent again after
    a failure. *)
Theorem one_request_per_conversion :
  forall (settings : LatexConverterSettings) (host : Host) (w : World),
    doc_selection (editor w) <> [] ->
    exists request,
      requests (snd (convertToLatex settings host w)) = requests w ++ [request]
      /\ url request = lit "http://localhost:11434/api/generate"
      /\ method request = lit "POST"
      /\ headers request = [(lit "Content-Type", lit "application/json")]
      /\ model (body request) = ollamaModel settings
      /\ keep_alive (body request) = keepAlive settings
      /\ stream (body request) = true
      /\ prompt (body request)
         = replace (llmPrompt settings) (lit "{input}")
             (sanitizedInput (doc_selection (editor w))).
Proof.
  intros settings host w Hsel.
  exists (build_request settings (doc_selection (editor w))).
  split; [|now repeat split].
  now apply convertToLatex_requests.
Qed.

Lemma one_request_per_conversion_witness :
  exists request,
    requests (snd (convertToLatex DEFAULT_SETTINGS
                     (answering {| status := 503; response_body := None |})
                     (selecting (lit "x squared"))))
    = [request]
    /\ stream (body request) = true.
Proof.
  destruct (one_request_per_conversion DEFAULT_SETTINGS
              (answering {| status := 503; response_body := None |})
              (selecting (lit "x squared")))
    as (request & Hreq & _ & _ & _ & _ & _ & Hstream & _).
  - discriminate.
  - exists request. split; [exact Hreq|exact Hstream].
Defined.

(** ** Failures of the network and of the stream *)

Lemma http_error_message_class (r : Response) :
  errorMessage (http_error r)
  = lit "Failed to connect to Ollama. Please ensure Ollama is running and accessible at http://localhost:11434. Error: HTTP error! status: "
    ++ decimal (status r).
Proof.
  unfold http_error, errorMessage.
  change (lit "HTTP error! status: " ++ decimal (status r))
    with ([] ++ lit "HTTP error" ++ (lit "! status: " ++ decimal (status r))).
  rewrite includes_app. reflexivity.
Qed.

Lemma accumulate_plain (host : Host) (lines : list jsstring) :
  forall acc : jsstring,
    Forall (fun line => plain_line line = true) lines ->
    accumulate host lines acc = Some (acc ++ concat (map response_field lines)).
Proof.
  induction lines as [|line rest IH]; intros acc H; simpl.
  - now rewrite app_nil_r.
  - inversion H as [|? ? Hl Hr]; subst.
    rewrite (try_line_plain host acc line Hl), (IH _ Hr).
    now rewrite app_assoc.
Qed.

(** When fetch rejects, the client rethrows the very value fetch rejected
    with, having read nothing; the command replaces nothing and shows the
    message of that value. An Error whose message has none of the three
    markers, as the one a browser raises when the server is not running, is
    shown under the generic heading, not under the connectivity one. *)
Theorem fetch_rejection_reported :
  forall (settings : LatexConverterSettings) (host : Host) (w : World)
         (e : Thrown),
    doc_selection (editor w) <> [] ->
    fetch_outcome host (build_request settings (doc_selection (editor w)))
    = FetchRejects e ->
    (forall w0,
        fst (callLocalLLM settings host (doc_selection (editor w)) w0) = Threw e
        /\ reads (snd (callLocalLLM settings host (doc_selection (editor w)) w0))
           = reads w0)
    /\ replacements (snd (convertToLatex settings host w)) = replacements w
    /\ editor (snd (convertToLatex settings host w)) = editor w
    /\ notices (snd (convertToLatex settings host w))
       = notices w
         ++ [loading_notice true;
             {| notice_message := errorMessage e; notice_timeout := 10000;
                notice_hidden := false |}]
    /\ (forall message,
          e = JSError message ->
          includes message (lit "HTTP error") = false ->
          includes message (lit "Failed to parse response") = false ->
          includes message (lit "Unable to read response") = false ->
          errorMessage e = lit "Error converting to LaTeX: " ++ message).
Proof.
  intros settings host w e Hsel Hf.
  assert (Hcall : forall w0,
             callLocalLLM settings host (doc_selection (editor w)) w0
             = (Threw e, logged_call_error e
                           (issued (build_request settings (doc_selection (editor w))) w0))).
  { intros w0. rewrite callLocalLLM_cases. now rewrite Hf. }
  split; [intros w0; rewrite Hcall; now split|].
  rewrite (convertToLatex_failure settings host w _ e Hsel (Hcall (loading w))).
  simpl. repeat split.
  intros message -> H1 H2 H3. unfold errorMessage. now rewrite H1, H2, H3.
Qed.

Lemma fetch_rejection_reported_witness :
  notices (snd (convertToLatex DEFAULT_SETTINGS
                  {| Number_toString := print_integer;
                     fetch_outcome := fun _ => FetchRejects (JSError (lit "Failed to fetch"));
                     replaceSelection_throws := None |}
                  (selecting (lit "x squared"))))
  = [loading_notice true;
     {| notice_message := lit "Error converting to LaTeX: Failed to fetch";
        notice_timeout := 10000; notice_hidden := false |}].
Proof.
  refine (proj1 (proj2 (proj2 (proj2 (fetch_rejection_reported DEFAULT_SETTINGS
     {| Number_toString := print_integer;
        fetch_outcome := fun _ => FetchRejects (JSError (lit "Failed to fetch"));
        replaceSelection_throws := None |}
     (selecting (lit "x squared")) (JSError (lit "Failed to fetch")) _ eq_refl))))).
  discriminate.
Defined.

(** A response with a status from 200 to 299 and no body: the client throws
    the unreadable-response error without a read, and the command replaces
    nothing and shows the connection-interrupted message. *)
Theorem missing_body_reported :
  forall (settings : LatexConverterSettings) (host : Host) (w : World)
         (r : Response),
    doc_selection (editor w) <> [] ->
    fetch_outcome host (build_request settings (doc_selection (editor w)))
    = FetchResolves r ->
    ok r = true ->
    response_body r = None ->
    (forall w0,
        fst (callLocalLLM settings host (doc_selection (editor w)) w0)
        = Threw (JSError (lit "Unable to read response from Ollama"))
        /\ reads (snd (callLocalLLM settings host (doc_selection (editor w)) w0))
           = reads w0)
    /\ replacements (snd (convertToLatex settings host w)) = replacements w
    /\ editor (snd (convertToLatex settings host w)) = editor w
    /\ notices (snd (convertToLatex settings host w))
       = notices w
         ++ [loading_notice true;
             {| notice_message :=
                  lit "Failed to read the response from Ollama. The connection might have been interrupted. Error: Unable to read response from Ollama";
                notice_timeout := 10000; notice_hidden := false |}].
Proof.
  intros settings host w r Hsel Hf Hok Hb.
  assert (Hcall : forall w0,
             callLocalLLM settings host (doc_selection (editor w)) w0
             = (Threw unreadable,
                logged_call_error unreadable
                  (issued (build_request settings (doc_selection (editor w))) w0))).
  { intros w0. rewrite callLocalLLM_cases. now rewrite Hf, Hok, Hb. }
  split; [intros w0; rewrite Hcall; now split|].
  rewrite (convertToLatex_failure settings host w _ unreadable Hsel (Hcall (loading w))).
  simpl. now repeat split.
Qed.

Lemma missing_body_reported_witness :
  fst (callLocalLLM DEFAULT_SETTINGS
         (answering {| status := 204; response_body := None |})
         (lit "x squared") (selecting (lit "x squared")))
  = Threw (JSError (lit "Unable to read response from Ollama")).
Proof.
  refine (proj1 (proj1 (missing_body_reported DEFAULT_SETTINGS
     (answering {| status := 204; response_body := None |})
     (selecting (lit "x squared")) _ _ eq_refl eq_refl eq_refl) _)).
  discriminate.
Defined.

(** A status outside 200-299 is shown as the connectivity message followed by
    the status in decimal, whatever the status. *)
Theorem http_error_notice :
  forall (settings : LatexConverterSettings) (host : Host) (w : World)
         (r : Response),
    doc_selection (editor w) <> [] ->
    fetch_outcome host (build_request settings (doc_selection (editor w)))
    = FetchResolves r ->
    ok r = false ->
    notices (snd (convertToLatex settings host w))
    = notices w
      ++ [loading_notice true;
          {| notice_message :=
               lit "Failed to connect to Ollama. Please ensure Ollama is running and accessible at http://localhost:11434. Error: HTTP error! status: "
               ++ decimal (status r);
             notice_timeout := 10000; notice_hidden := false |}].
Proof.
  intros settings host w r Hsel Hf Hok.
  rewrite (convertToLatex_failure settings host w _ _ Hsel
             (callLocalLLM_http_error settings host _ r (loading w) Hf Hok)).
  simpl. unfold error_notice. now rewrite http_error_message_class.
Qed.

Lemma http_error_notice_witness :
  notices (snd (convertToLatex DEFAULT_SETTINGS
                  (answering {| status := 404; response_body := None |})
                  (selecting (lit "x squared"))))
  = [loading_notice true;
     {| notice_message :=
          lit "Failed to connect to Ollama. Please ensure Ollama is running and accessible at http://localhost:11434. Error: HTTP error! status: 404";
        notice_timeout := 10000; notice_hidden := false |}].
Proof.
  refine (http_error_notice DEFAULT_SETTINGS
     (answering {| status := 404; response_body := None |})
     (selecting (lit "x squared")) _ _ eq_refl eq_refl).
  discriminate.
Defined.

(** A stream that breaks off (a read fails after the chunks delivered) never
    yields a text: the client throws the read's failure, or the parse failure
    when a line threw before; when every delivered line is well formed it
    throws the read's failure, and the text accumulated so far is dropped.
    The command replaces nothing. *)
Theorem broken_stream_never_replaces :
  forall (settings : LatexConverterSettings) (host : Host) (w : World)
         (r : Response) (reads_ : list jsstring) (e : Thrown),
    doc_selection (editor w) <> [] ->
    fetch_outcome host (build_request settings (doc_selection (editor w)))
    = FetchResolves r ->
    ok r = true ->
    response_body r = Some {| chunks := reads_; failure := Some e |} ->
    (forall w0,
        (fst (callLocalLLM settings host (doc_selection (editor w)) w0) = Threw e
         \/ fst (callLocalLLM settings host (doc_selection (editor w)) w0)
            = Threw parse_failure)
        /\ (Forall (fun line => plain_line line = true) (stream_lines reads_) ->
            fst (callLocalLLM settings host (doc_selection (editor w)) w0)
            = Threw e))
    /\ replacements (snd (convertToLatex settings host w)) = replacements w
    /\ editor (snd (convertToLatex settings host w)) = editor w.
Proof.
  intros settings host w r reads_ e Hsel Hf Hok Hb.
  assert (Hcall : forall w0,
             fst (callLocalLLM settings host (doc_selection (editor w)) w0)
             = loop_outcome (Some e) (accumulate host (stream_lines reads_) [])).
  { intros w0. rewrite callLocalLLM_cases, Hf, Hok, Hb. simpl.
    pose proof (read_loop_outcome host reads_ (Some e) []
                  (issued (build_request settings (doc_selection (editor w))) w0))
      as Ho.
    destruct (read_loop host reads_ (Some e) []
                (issued (build_request settings (doc_selection (editor w))) w0))
      as [[acc|e'] w']; simpl in *.
    - destruct (accumulate host (stream_lines reads_) []); discriminate.
    - exact Ho. }
  split.
  - intros w0. rewrite Hcall. split.
    + destruct (accumulate host (stream_lines reads_) []); simpl; auto.
    + intros Hl. now rewrite (accumulate_plain host _ [] Hl).
  - specialize (Hcall (loading w)).
    pose proof (callLocalLLM_frame settings host (doc_selection (editor w)) (loading w))
      as (He & _ & Hr).
    destruct (callLocalLLM settings host (doc_selection (editor w)) (loading w))
      as [[text|e'] w'] eqn:E; simpl in Hcall, He, Hr.
    + destruct (accumulate host (stream_lines reads_) []); discriminate.
    + rewrite (convertToLatex_failure settings host w w' e' Hsel E). simpl.
      now split.
Qed.

Lemma broken_stream_never_replaces_witness :
  fst (callLocalLLM DEFAULT_SETTINGS
         (answering {| status := 200;
                       response_body :=
                         Some {| chunks := [jq "{'response':'x^'}" ++ [ch_lf]];
                                 failure := Some (JSError (lit "network error")) |} |})
         (lit "x squared") (selecting (lit "x squared")))
  = Threw (JSError (lit "network error")).
Proof.
  refine (proj2 (proj1 (broken_stream_never_replaces DEFAULT_SETTINGS
     (answering {| status := 200;
                   response_body :=
                     Some {| chunks := [jq "{'response':'x^'}" ++ [ch_lf]];
                             failure := Some (JSError (lit "network error")) |} |})
     (selecting (lit "x squared")) _ _ _ _ eq_refl eq_refl eq_refl) _) _).
  - discriminate.
  - vm_compute. repeat constructor.
Defined.

(** ** The text that reaches the document *)

Section Trim.

Lemma trim_start_head (s r : jsstring) (c : N) :
  trim_start s = c :: r -> is_white_space c = false.
Proof.
  induction s as [|x s IH]; simpl; [discriminate|].
  destruct (is_white_space x) eqn:E; [exact IH|].
  intros H; inversion H; subst. exact E.
Qed.

Lemma trim_start_kept (s : jsstring) (c : N) :
  is_white_space c = false -> trim_start (c :: s) = c :: s.
Proof. intros H. simpl. now rewrite H. Qed.

Lemma trim_start_snoc (l : jsstring) (c : N) :
  is_white_space c = false -> trim_start (l ++ [c]) = trim_start l ++ [c].
Proof.
  intros H. induction l as [|x l IH]; simpl; [now rewrite H|].
  destruct (is_white_space x); [exact IH|reflexivity].
Qed.

Lemma trim_start_idempotent (s : jsstring) :
  trim_start (trim_start s) = trim_start s.
Proof.
  destruct (trim_start s) as [|c r] eqn:E; [reflexivity|].
  apply trim_start_kept. eapply trim_start_head; eassumption.
Qed.

Lemma trim_start_blank (s : jsstring) :
  Forall (fun c => is_white_space c = true) s -> trim_start s = [].
Proof.
  induction 1 as [|c s Hc Hs IH]; simpl; [reflexivity|]. now rewrite Hc.
Qed.

Lemma trim_end_last (s p : jsstring) (c : N) :
  trim_end s = p ++ [c] -> is_white_space c = false.
Proof.
  unfold trim_end. intros H.
  apply (f_equal (@rev N)) in H. rewrite rev_involutive, rev_app_distr in H.
  simpl in H. eapply trim_start_head; eassumption.
Qed.

Lemma trim_end_head (s : jsstring) (c : N) :
  is_white_space c = false ->
  trim_end (c :: s) = c :: trim_end s.
Proof.
  intros H. unfold trim_end. simpl.
  rewrite (trim_start_snoc (rev s) c H), rev_app_distr. reflexivity.
Qed.

Lemma trim_end_idempotent (s : jsstring) : trim_end (trim_end s) = trim_end s.
Proof.
  unfold trim_end. now rewrite rev_involutive, trim_start_idempotent.
Qed.

Lemma trim_head (s r : jsstring) (c : N) :
  trim s = c :: r -> is_white_space c = false.
Proof.
  unfold trim. destruct (trim_start s) as [|x t] eqn:E; [discriminate|].
  pose proof (trim_start_head s t x E) as Hx.
  rewrite (trim_end_head t x Hx). intros H; inversion H; subst. exact Hx.
Qed.

Lemma trim_idempotent (s : jsstring) : trim (trim s) = trim s.
Proof.
  unfold trim at 1.
  destruct (trim s) as [|c r] eqn:E; [reflexivity|].
  rewrite (trim_start_kept r c (trim_head s r c E)), <- E.
  unfold trim. apply trim_end_idempotent.
Qed.

Lemma trim_blank (s : jsstring) :
  Forall (fun c => is_white_space c = true) s -> trim s = [].
Proof. intros H. unfold trim. now rewrite (trim_start_blank s H). Qed.

End Trim.

(** Whatever the stream holds, a text the client returns neither starts nor
    ends with a white-space character, and trimming it again changes
    nothing. *)
Theorem callLocalLLM_result_trimmed :
  forall (settings : LatexConverterSettings) (host : Host)
         (input text : jsstring) (w : World),
    fst (callLocalLLM settings host input w) = Returned text ->
    (forall c rest, text = c :: rest -> is_white_space c = false)
    /\ (forall front c, text = front ++ [c] -> is_white_space c = false)
    /\ trim text = text.
Proof.
  intros settings host input text w H.
  destruct (callLocalLLM_returns_trim settings host input text w H) as [acc ->].
  split; [|split].
  - intros c rest E. eapply trim_head; eassumption.
  - intros front c E. unfold trim in E. eapply trim_end_last; eassumption.
  - apply trim_idempotent.
Qed.

Lemma callLocalLLM_result_trimmed_witness :
  fst (callLocalLLM DEFAULT_SETTINGS
         (answering (streamed [jq "{'response':'  x^2 '}" ++ [ch_lf]]))
         (lit "x squared") (selecting (lit "x squared")))
  = Returned (lit "x^2")
  /\ trim (lit "x^2") = lit "x^2".
Proof.
  assert (H : fst (callLocalLLM DEFAULT_SETTINGS
                     (answering (streamed [jq "{'response':'  x^2 '}" ++ [ch_lf]]))
                     (lit "x squared") (selecting (lit "x squared")))
              = Returned (lit "x^2"))
    by (vm_compute; reflexivity).
  split; [exact H|].
  exact (proj2 (proj2 (callLocalLLM_result_trimmed DEFAULT_SETTINGS
     (answering (streamed [jq "{'response':'  x^2 '}" ++ [ch_lf]]))
     (lit "x squared") (lit "x^2") (selecting (lit "x squared")) H))).
Defined.

(** When the answer is only white space (no chunk at all, no [response]
    member, or members of blanks), the command still replaces the selection,
    with the empty text: the selected words are removed from the document and
    the success notice is shown. *)
Theorem blank_answer_deletes_selection :
  forall (settings : LatexConverterSettings) (host : Host) (r : Response)
         (reads_ : list jsstring) (w : World),
    doc_selection (editor w) <> [] ->
    fetch_outcome host (build_request settings (doc_selection (editor w)))
    = FetchResolves r ->
    ok r = true ->
    response_body r = Some {| chunks := reads_; failure := None |} ->
    Forall (fun line => plain_line line = true) (stream_lines reads_) ->
    Forall (fun c => is_white_space c = true)
      (concat (map response_field (stream_lines reads_))) ->
    replaceSelection_throws host = None ->
    editor (snd (convertToLatex settings host w))
    = {| doc_before := doc_before (editor w); doc_selection := [];
         doc_after := doc_after (editor w) |}
    /\ replacements (snd (convertToLatex settings host w)) = replacements w ++ [[]]
    /\ notices (snd (convertToLatex settings host w))
       = notices w ++ [loading_notice true; success_notice].
Proof.
  intros settings host r reads_ w Hsel Hf Hok Hb Hl Hblank Hrep.
  pose proof (callLocalLLM_plain settings host _ _ _ (loading w) Hf Hok Hb Hl)
    as Hcall.
  rewrite (trim_blank _ Hblank) in Hcall.
  rewrite (convertToLatex_returned settings host w _ [] Hsel Hcall), Hrep.
  simpl. unfold replaced_by. rewrite app_nil_r. now repeat split.
Qed.

Lemma blank_answer_deletes_selection_witness :
  editor (snd (convertToLatex DEFAULT_SETTINGS
                 (answering (streamed [jq "{'response':' '}" ++ [ch_lf] ++ jq "{'done':true}"]))
                 (selecting (lit "x squared"))))
  = {| doc_before := lit "Let "; doc_selection := [];
       doc_after := lit " be given." |}.
Proof.
  refine (proj1 (blank_answer_deletes_selection DEFAULT_SETTINGS
     (answering (streamed [jq "{'response':' '}" ++ [ch_lf] ++ jq "{'done':true}"]))
     _ _ (selecting (lit "x squared")) _ eq_refl eq_refl eq_refl _ _ eq_refl)).
  - discriminate.
  - vm_compute. repeat constructor.
  - vm_compute. repeat constructor.
Defined.

(** ** Reads that end at a line end *)

(** Where the text that one read decodes to ends with a line feed, the
    outcome of the loop is the same as when that text and the text of the
    next read come as the text of one read: only a cut inside a line can
    change the result. This is about the decoded texts. Every read has a
    decoder of its own (line 95), which leaves out a byte order mark at the
    start of the read, so the bytes of two reads joined need not decode to
    the two texts joined. *)
Theorem read_boundary_at_line_end_is_harmless :
  forall (host : Host) (before_ after_ : list jsstring) (a b : jsstring)
         (failure : option Thrown) (acc : jsstring) (w w' : World),
    fst (read_loop host (before_ ++ (a ++ [ch_lf]) :: b :: after_) failure acc w)
    = fst (read_loop host (before_ ++ (a ++ ch_lf :: b) :: after_) failure acc w')
    /\ stream_lines (before_ ++ (a ++ [ch_lf]) :: b :: after_)
       = stream_lines (before_ ++ (a ++ ch_lf :: b) :: after_).
Proof.
  intros host before_ after_ a b failure acc w w'.
  assert (E : stream_lines (before_ ++ (a ++ [ch_lf]) :: b :: after_)
              = stream_lines (before_ ++ (a ++ ch_lf :: b) :: after_)).
  { rewrite !stream_lines_app. f_equal. unfold stream_lines. simpl.
    now rewrite lines_of_trailing_lf, lines_of_line_end, app_assoc. }
  split; [|exact E]. now rewrite !read_loop_outcome, E.
Qed.

(** ** More on sanitizing and substituting *)

Section Sanitize.

Lemma unescape_escape (s : jsstring) : unescape (flat_map escape_char s) = s.
Proof.
  induction s as [|c s IH]; [reflexivity|].
  simpl. unfold escape_char at 1.
  destruct (N.eqb_spec c ch_backslash) as [->|Hb].
  - simpl. now rewrite IH.
  - destruct (N.eqb_spec c ch_quote) as [->|Hq].
    + simpl. now rewrite IH.
    + simpl. destruct (N.eqb_spec c ch_backslash) as [E|_]; [contradiction|].
      now rewrite IH.
Qed.

Lemma escape_char_length (c : N) :
  1 <= List.length (escape_char c) <= 2.
Proof.
  unfold escape_char.
  destruct (N.eqb c ch_backslash); [simpl; lia|].
  destruct (N.eqb c ch_quote); simpl; lia.
Qed.

Lemma dollar_safe_two (x y : N) (s : jsstring) :
  x <> ch_dollar -> y <> ch_dollar ->
  dollar_safe (x :: y :: s) = dollar_safe s.
Proof.
  intros Hx Hy. simpl.
  destruct (N.eqb_spec x ch_dollar) as [E|_]; [contradiction|].
  destruct (N.eqb_spec y ch_dollar) as [E|_]; [contradiction|].
  reflexivity.
Qed.

Lemma dollar_safe_escape (s : jsstring) :
  dollar_safe s = true -> dollar_safe (flat_map escape_char s) = true.
Proof.
  induction s as [|c s IH]; [reflexivity|].
  intros H. simpl flat_map. unfold escape_char at 1.
  destruct (N.eqb_spec c ch_backslash) as [->|Hb].
  { simpl app. rewrite dollar_safe_two by discriminate. apply IH. exact H. }
  destruct (N.eqb_spec c ch_quote) as [->|Hq].
  { simpl app. rewrite dollar_safe_two by discriminate. apply IH. exact H. }
  simpl app. simpl in H. simpl.
  destruct (N.eqb_spec c ch_dollar) as [->|Hd]; [|now apply IH].
  destruct s as [|d s']; [reflexivity|].
  apply andb_true_iff in H. destruct H as [Hnext Hrest].
  specialize (IH Hrest). rewrite IH.
  simpl flat_map. unfold escape_char at 1.
  destruct (N.eqb_spec d ch_backslash) as [->|Hdb]; [reflexivity|].
  destruct (N.eqb_spec d ch_quote) as [->|Hdq]; [reflexivity|].
  simpl. now rewrite Hnext.
Qed.

Lemma GetSubstitution_safe (matched before rest template : jsstring) :
  dollar_safe template = true ->
  GetSubstitution matched before rest template = template.
Proof.
  induction template as [|c t IH]; [reflexivity|].
  intros H. simpl in *.
  destruct (N.eqb c ch_dollar).
  - destruct t as [|d t']; [reflexivity|].
    apply andb_true_iff in H. destruct H as [Hnext Hrest].
    apply negb_true_iff in Hnext.
    apply orb_false_iff in Hnext. destruct Hnext as [Hnext H4].
    apply orb_false_iff in Hnext. destruct Hnext as [Hnext H3].
    apply orb_false_iff in Hnext. destruct Hnext as [H1 H2].
    rewrite H1, H2, H3, H4. now rewrite (IH Hrest).
  - now rewrite (IH H).
Qed.

End Sanitize.

(** Sanitizing loses nothing: reading each backslash of the sanitized text as
    the mark that the next character stands for itself gives the input back,
    so two different selections never sanitize to the same text; and the
    sanitized text is at least as long as the input and at most twice as
    long. *)
Theorem sanitizedInput_is_lossless :
  forall input : jsstring,
    unescape (sanitizedInput input) = input
    /\ (forall other, sanitizedInput other = sanitizedInput input -> other = input)
    /\ List.length input <= List.length (sanitizedInput input)
       <= 2 * List.length input.
Proof.
  intros input.
  assert (R : forall s, unescape (sanitizedInput s) = s)
    by (intros s; rewrite sanitizedInput_flat_map; apply unescape_escape).
  split; [apply R|]. split.
  - intros other H. rewrite <- (R other), H. apply R.
  - rewrite sanitizedInput_flat_map.
    induction input as [|c s IH]; simpl; [lia|].
    rewrite length_app. pose proof (escape_char_length c). lia.
Qed.

Lemma sanitizedInput_is_lossless_witness :
  unescape (sanitizedInput ([97; ch_quote; 98; ch_backslash; 99]%N))
  = [97; ch_quote; 98; ch_backslash; 99]%N
  /\ List.length (sanitizedInput ([97; ch_quote; 98; ch_backslash; 99]%N)) <= 10.
Proof.
  destruct (sanitizedInput_is_lossless ([97; ch_quote; 98; ch_backslash; 99]%N))
    as (Hround & _ & _ & Hlen).
  split; [exact Hround|exact Hlen].
Defined.

(** The substitution is exact for more than the inputs free of dollar signs:
    when no dollar sign of the input is followed by a dollar sign, an
    ampersand, a backtick or an apostrophe (inline mathematics between single
    dollar signs, for one), the sanitized input takes the place of the first
    placeholder unchanged. *)
Theorem build_prompt_exact_when_dollar_safe :
  forall (settings : LatexConverterSettings) (input before rest : jsstring),
    dollar_safe input = true ->
    find_first (lit "{input}") (llmPrompt settings) = Some (before, rest) ->
    build_prompt settings input = before ++ sanitizedInput input ++ rest.
Proof.
  intros settings input before rest Hsafe Hf.
  unfold build_prompt, replace. rewrite Hf.
  rewrite GetSubstitution_safe; [reflexivity|].
  rewrite sanitizedInput_flat_map. now apply dollar_safe_escape.
Qed.

Lemma build_prompt_exact_when_dollar_safe_witness :
  build_prompt
    {| ollamaModel := lit "llama2"; llmPrompt := lit "LaTeX for: {input}";
       keepAlive := lit "5m" |}
    (lit "the price is 5$ and $x^2$ is " ++ [ch_quote] ++ lit "$")
  = lit "LaTeX for: the price is 5$ and $x^2$ is " ++ [ch_backslash; ch_quote]
    ++ lit "$".
Proof.
  refine (build_prompt_exact_when_dollar_safe
    {| ollamaModel := lit "llama2"; llmPrompt := lit "LaTeX for: {input}";
       keepAlive := lit "5m" |}
    (lit "the price is 5$ and $x^2$ is " ++ [ch_quote] ++ lit "$")
    (lit "LaTeX for: ") [] _ _); vm_compute; reflexivity.
Defined.

(** ** The request body on the wire *)

Section Stringify.

Lemma hex_value_digit (d : N) : (d < 16)%N -> hex_value (hex_digit d) = Some d.
Proof.
  intros H.
  assert (E : In d [0; 1; 2; 3; 4; 5; 6; 7; 8; 9; 10; 11; 12; 13; 14; 15]%N).
  { simpl. lia. }
  simpl in E.
  repeat (destruct E as [<-|E]; [reflexivity|]). contradiction.
Qed.

Lemma hex4_UnicodeEscape (c : N) :
  (c < 65536)%N ->
  hex4 (hex_digit (c / 4096)) (hex_digit ((c / 256) mod 16))
       (hex_digit ((c / 16) mod 16)) (hex_digit (c mod 16)) = Some c.
Proof.
  intros H. unfold hex4.
  rewrite !hex_value_digit.
  - f_equal. zify. Z.to_euclidean_division_equations. lia.
  - zify. Z.to_euclidean_division_equations. lia.
  - zify. Z.to_euclidean_division_equations. lia.
  - zify. Z.to_euclidean_division_equations. lia.
  - zify. Z.to_euclidean_division_equations. lia.
Qed.

Lemma parse_chars_UnicodeEscape (c : N) (tail : jsstring) :
  (c < 65536)%N ->
  parse_chars (ch_backslash :: 117%N :: hex_digit (c / 4096)
               :: hex_digit ((c / 256) mod 16) :: hex_digit ((c / 16) mod 16)
               :: hex_digit (c mod 16) :: tail)
  = cons_char c (parse_chars tail).
Proof.
  intros H. simpl. now rewrite (hex4_UnicodeEscape c H).
Qed.

Lemma parse_chars_plain (c : N) (tail : jsstring) :
  (c =? ch_quote)%N = false -> (c =? ch_backslash)%N = false ->
  (c <? 32)%N = false ->
  parse_chars (c :: tail) = cons_char c (parse_chars tail).
Proof. intros H1 H2 H3. simpl. now rewrite H1, H2, H3. Qed.

(** What QuoteJSONString writes between the quotes, JSON.parse reads back. *)
Lemma parse_chars_QuoteJSONString (s : jsstring) :
  forall rest : jsstring,
    parse_chars (QuoteJSONString_body s ++ ch_quote :: rest) = Some (s, rest).
Proof.
  induction s as [s IH] using (well_founded_induction
                                 (Wf_nat.well_founded_ltof _ (@List.length N))).
  unfold Wf_nat.ltof in IH.
  intros rest. destruct s as [|c r]; [reflexivity|].
  assert (IHr : forall rest', parse_chars (QuoteJSONString_body r ++ ch_quote :: rest')
                              = Some (r, rest'))
    by (intros rest'; apply IH; simpl; lia).
  simpl QuoteJSONString_body. unfold UnicodeEscape.
  destruct (N.eqb_spec c 8) as [->|H8]; [simpl; now rewrite IHr|].
  destruct (N.eqb_spec c 9) as [->|H9]; [simpl; now rewrite IHr|].
  destruct (N.eqb_spec c 10) as [->|H10]; [simpl; now rewrite IHr|].
  destruct (N.eqb_spec c 12) as [->|H12]; [simpl; now rewrite IHr|].
  destruct (N.eqb_spec c 13) as [->|H13]; [simpl; now rewrite IHr|].
  destruct (N.eqb_spec c ch_quote) as [->|Hq]; [simpl; now rewrite IHr|].
  destruct (N.eqb_spec c ch_backslash) as [->|Hb]; [simpl; now rewrite IHr|].
  destruct (N.ltb_spec c 32) as [Hlt|Hge].
  { cbn [app]. rewrite parse_chars_UnicodeEscape by lia. now rewrite IHr. }
  assert (Hplain : forall tail, parse_chars (c :: tail) = cons_char c (parse_chars tail)).
  { intros tail. apply parse_chars_plain.
    - now apply N.eqb_neq.
    - now apply N.eqb_neq.
    - apply N.ltb_ge. exact Hge. }
  unfold is_leading_surrogate, is_trailing_surrogate.
  destruct (N.leb_spec 55296 c) as [Hl1|Hl1]; cbn [andb].
  - destruct (N.leb_spec c 56319) as [Hl2|Hl2]; cbn [andb].
    + destruct r as [|d r'].
      * cbn [app]. rewrite parse_chars_UnicodeEscape by lia. reflexivity.
      * destruct (N.leb_spec 56320 d) as [Ht1|Ht1]; cbn [andb].
        -- destruct (N.leb_spec d 57343) as [Ht2|Ht2].
           ++ cbn [app]. rewrite Hplain.
              rewrite parse_chars_plain.
              ** rewrite (IH r') by (simpl; lia). reflexivity.
              ** apply N.eqb_neq. unfold ch_quote. lia.
              ** apply N.eqb_neq. unfold ch_backslash. lia.
              ** apply N.ltb_ge. lia.
           ++ cbn [app]. rewrite parse_chars_UnicodeEscape by lia.
              now rewrite IHr.
        -- cbn [app]. rewrite parse_chars_UnicodeEscape by lia.
           now rewrite IHr.
    + destruct (N.leb_spec 56320 c) as [Ht1|Ht1]; cbn [andb].
      * destruct (N.leb_spec c 57343) as [Ht2|Ht2].
        -- cbn [app]. rewrite parse_chars_UnicodeEscape by lia.
           now rewrite IHr.
        -- cbn [app]. rewrite Hplain. now rewrite IHr.
      * lia.
  - destruct (N.leb_spec 56320 c) as [Ht1|Ht1]; [lia|]. cbn [andb].
    cbn [app]. rewrite Hplain. now rewrite IHr.
Qed.

Lemma parse_value_open_object (f : nat) (t : jsstring) :
  parse_value (S f) (123%N :: ch_quote :: t) = parse_members f (ch_quote :: t) [].
Proof. reflexivity. Qed.

Lemma parse_value_quoted (f : nat) (s rest : jsstring) :
  parse_value (S f) (ch_quote :: QuoteJSONString_body s ++ ch_quote :: rest)
  = POk (JString s) rest.
Proof. simpl. now rewrite parse_chars_QuoteJSONString. Qed.

Lemma parse_value_boolean (f : nat) (flag : bool) (rest : jsstring) :
  parse_value (S f) ((if flag then lit "true" else lit "false") ++ rest)
  = POk (JBool flag) rest.
Proof. destruct flag; reflexivity. Qed.

Lemma parse_members_next (f : nat) (key vtext more : jsstring) (v : JSValue)
  (acc : list (jsstring * JSValue)) :
  parse_value f vtext = POk v (44%N :: more) ->
  parse_members (S f)
    (ch_quote :: QuoteJSONString_body key ++ ch_quote :: 58%N :: vtext) acc
  = parse_members f more ((key, v) :: acc).
Proof.
  intros H. simpl. rewrite parse_chars_QuoteJSONString. simpl. now rewrite H.
Qed.

Lemma parse_members_last (f : nat) (key vtext more : jsstring) (v : JSValue)
  (acc : list (jsstring * JSValue)) :
  parse_value f vtext = POk v (125%N :: more) ->
  parse_members (S f)
    (ch_quote :: QuoteJSONString_body key ++ ch_quote :: 58%N :: vtext) acc
  = POk (JObject (rev ((key, v) :: acc))) more.
Proof.
  intros H. simpl. rewrite parse_chars_QuoteJSONString. simpl. now rewrite H.
Qed.

Lemma parse_value_body (k : nat) (b : RequestBody) :
  parse_value (6 + k) (JSON_stringify_body b) = POk (parsed_body b) [].
Proof.
  unfold JSON_stringify_body, QuoteJSONString.
  change (lit "{") with [123%N]. change (lit ":") with [58%N].
  change (lit ",") with [44%N]. change (lit "}") with [125%N].
  repeat rewrite <- app_assoc. cbn [app Nat.add].
  rewrite parse_value_open_object.
  rewrite (parse_members_next _ _ _ _ (JString (model b)))
    by apply parse_value_quoted.
  rewrite (parse_members_next _ _ _ _ (JString (prompt b)))
    by apply parse_value_quoted.
  rewrite (parse_members_next _ _ _ _ (JBool (stream b)))
    by apply parse_value_boolean.
  rewrite (parse_members_last _ _ _ _ (JString (keep_alive b)))
    by apply parse_value_quoted.
  reflexivity.
Qed.

End Stringify.

(** The body sent is well-formed JSON whatever the settings and the selection
    hold (quotes, backslashes, line breaks, control characters, surrogates
    without a partner): JSON.parse of the text JSON.stringify makes gives the
    four members back, in order, each string exactly as it was; so two bodies
    with the same text carry the same model, prompt and keep-alive. *)
Theorem request_body_round_trip :
  forall b : RequestBody,
    JSON_parse (JSON_stringify_body b)
    = Some (JObject [(lit "model", JString (model b));
                     (lit "prompt", JString (prompt b));
                     (lit "stream", JBool (stream b));
                     (lit "keep_alive", JString (keep_alive b))])
    /\ (forall b', JSON_stringify_body b' = JSON_stringify_body b -> b' = b)
    /\ (forall settings input,
          JSON_parse (JSON_stringify_body (body (build_request settings input)))
          = Some (JObject [(lit "model", JString (ollamaModel settings));
                           (lit "prompt", JString (build_prompt settings input));
                           (lit "stream", JBool true);
                           (lit "keep_alive", JString (keepAlive settings))])).
Proof.
  assert (R : forall b, JSON_parse (JSON_stringify_body b) = Some (parsed_body b)).
  { intros b. unfold JSON_parse.
    assert (E : parse_fuel (JSON_stringify_body b)
                = 6 + (parse_fuel (JSON_stringify_body b) - 6)).
    { unfold parse_fuel, JSON_stringify_body, QuoteJSONString.
      change (lit "{") with [123%N]. rewrite !length_app. simpl List.length. lia. }
    rewrite E, parse_value_body. reflexivity. }
  intros b. split; [exact (R b)|]. split.
  - intros b' H. pose proof (R b') as H'. rewrite H, (R b) in H'.
    inversion H'. destruct b, b'; simpl in *; subst. reflexivity.
  - intros settings input. exact (R _).
Qed.

Lemma request_body_round_trip_witness :
  JSON_parse
    (JSON_stringify_body
       {| model := lit "llama2";
          prompt := [ch_quote; ch_backslash; ch_lf; 1; 55357]%N ++ lit "x";
          stream := true; keep_alive := lit "5m" |})
  = Some (JObject [(lit "model", JString (lit "llama2"));
                   (lit "prompt",
                    JString ([ch_quote; ch_backslash; ch_lf; 1; 55357]%N ++ lit "x"));
                   (lit "stream", JBool true);
                   (lit "keep_alive", JString (lit "5m"))]).
Proof.
  exact (proj1 (request_body_round_trip
     {| model := lit "llama2";
        prompt := [ch_quote; ch_backslash; ch_lf; 1; 55357]%N ++ lit "x";
        stream := true; keep_alive := lit "5m" |})).
Defined.

(** ** The settings *)

Section Settings.

Lemma jsstring_eqb_eq (s t : jsstring) : JSString.eqb s t = true <-> s = t.
Proof.
  revert t; induction s as [|c s IH]; intros [|d t]; simpl;
    try (split; [discriminate|discriminate]); [tauto|].
  rewrite andb_true_iff, N.eqb_eq, IH. split.
  - now intros [-> ->].
  - intros H; inversion H; now split.
Qed.

Lemma jsstring_eqb_refl (s : jsstring) : JSString.eqb s s = true.
Proof. now apply jsstring_eqb_eq. Qed.

Lemma jsstring_eqb_neq (s t : jsstring) : s <> t -> JSString.eqb s t = false.
Proof.
  intros H. destruct (JSString.eqb s t) eqn:E; [|reflexivity].
  apply jsstring_eqb_eq in E. contradiction.
Qed.

Lemma lookup_app (key : jsstring) (a b : JSObject) :
  lookup key (a ++ b)
  = match lookup key b with
    | Some v => Some v
    | None => lookup key a
    end.
Proof.
  induction a as [|[k v] a IH]; simpl.
  - now destruct (lookup key b).
  - rewrite IH. destruct (lookup key b); [reflexivity|].
    reflexivity.
Qed.

Lemma lookup_own_writes (key : jsstring) (l : JSObject) :
  key <> lit "__proto__" ->
  lookup key (filter writes_own_property l) = lookup key l.
Proof.
  intros H. induction l as [|[k v] l IH]; [reflexivity|].
  simpl. unfold writes_own_property at 1. simpl fst.
  destruct (JSString.eqb k (lit "__proto__")) eqn:E; simpl.
  - rewrite IH. apply jsstring_eqb_eq in E. subst k.
    rewrite (jsstring_eqb_neq (lit "__proto__") key) by congruence.
    now destruct (lookup key l).
  - now rewrite IH.
Qed.

Lemma lookup_absent (key : jsstring) (l : JSObject) :
  ~ In key (map fst l) -> lookup key l = None.
Proof.
  induction l as [|[k v] l IH]; [reflexivity|].
  simpl. intros H. rewrite IH by tauto.
  rewrite (jsstring_eqb_neq k key) by (intros ->; tauto). reflexivity.
Qed.

Lemma lookup_Some_In (key : jsstring) (l : JSObject) (v : JSValue) :
  lookup key l = Some v -> In (key, v) l.
Proof.
  induction l as [|[k x] l IH]; simpl; [discriminate|].
  destruct (lookup key l) as [y|].
  - intros H. right. apply IH. exact H.
  - destruct (JSString.eqb k key) eqn:E; [|discriminate].
    apply jsstring_eqb_eq in E. subst k. intros H; inversion H. now left.
Qed.

Lemma lookup_filtered_proto (l : JSObject) :
  lookup (lit "__proto__") (filter writes_own_property l) = None.
Proof.
  apply lookup_absent. intros H. apply in_map_iff in H.
  destruct H as ([k v] & Hk & Hin). simpl in Hk. subst k.
  apply filter_In in Hin. destruct Hin as [_ Hw].
  unfold writes_own_property in Hw. simpl in Hw. discriminate.
Qed.

Lemma filter_no_proto (l : JSObject) :
  ~ In (lit "__proto__") (map fst l) -> filter writes_own_property l = l.
Proof.
  induction l as [|[k v] l IH]; [reflexivity|].
  simpl. intros H. unfold writes_own_property at 1. simpl fst.
  rewrite (jsstring_eqb_neq k (lit "__proto__")) by (intros ->; tauto).
  simpl. rewrite IH by tauto. reflexivity.
Qed.

Lemma In_keys_define (a key : jsstring) (v : JSValue) (l : JSObject) :
  In a (map fst (define_property key v l)) -> a = key \/ In a (map fst l).
Proof.
  induction l as [|[k x] l IH]; simpl.
  - intros [H|[]]. now left.
  - destruct (JSString.eqb k key); simpl; [tauto|].
    intros [H|H]; [tauto|]. destruct (IH H); tauto.
Qed.

Lemma NoDup_define (key : jsstring) (v : JSValue) (l : JSObject) :
  NoDup (map fst l) -> NoDup (map fst (define_property key v l)).
Proof.
  induction l as [|[k x] l IH]; simpl; intros H.
  - constructor; [tauto|constructor].
  - inversion H as [|? ? Hk Hl]; subst.
    destruct (JSString.eqb k key) eqn:E; simpl; [now constructor|].
    constructor; [|now apply IH].
    intros Hin. destruct (In_keys_define _ _ _ _ Hin) as [->|Hin']; [|contradiction].
    rewrite jsstring_eqb_refl in E. discriminate.
Qed.

Lemma lookup_define (key k : jsstring) (v : JSValue) (l : JSObject) :
  NoDup (map fst l) ->
  lookup k (define_property key v l)
  = if JSString.eqb key k then Some v else lookup k l.
Proof.
  induction l as [|[a x] l IH]; simpl; intros H; [reflexivity|].
  inversion H as [|? ? Ha Hl]; subst.
  destruct (JSString.eqb a key) eqn:E.
  - apply jsstring_eqb_eq in E. subst a. simpl.
    destruct (JSString.eqb key k) eqn:Ek.
    + apply jsstring_eqb_eq in Ek. subst k. now rewrite (lookup_absent key l Ha).
    + reflexivity.
  - simpl. rewrite (IH Hl).
    destruct (JSString.eqb key k) eqn:Ek; [reflexivity|reflexivity].
Qed.

Lemma own_members_from (members : JSObject) :
  forall acc : JSObject,
    NoDup (map fst acc) ->
    NoDup (map fst (fold_left
                      (fun acc member => define_property (fst member) (snd member) acc)
                      members acc))
    /\ forall k,
         lookup k (fold_left
                     (fun acc member => define_property (fst member) (snd member) acc)
                     members acc)
         = match lookup k members with
           | Some v => Some v
           | None => lookup k acc
           end.
Proof.
  induction members as [|[a x] r IH]; intros acc H; simpl.
  - split; [exact H|reflexivity].
  - destruct (IH (define_property a x acc) (NoDup_define a x acc H)) as [Hn Hl].
    split; [exact Hn|]. intros k. rewrite Hl, (lookup_define a k x acc H).
    destruct (lookup k r); [reflexivity|].
    now destruct (JSString.eqb a k).
Qed.

Lemma In_lookup (key : jsstring) (v : JSValue) (l : JSObject) :
  NoDup (map fst l) -> In (key, v) l -> lookup key l = Some v.
Proof.
  induction l as [|[a x] l IH]; simpl; intros Hd; [tauto|].
  inversion Hd as [|? ? Ha Hl]; subst. intros [E|Hin].
  - inversion E; subst. rewrite (lookup_absent key l Ha), jsstring_eqb_refl.
    reflexivity.
  - now rewrite (IH Hl Hin).
Qed.

Lemma lookup_Permutation (key : jsstring) (l l' : JSObject) :
  Permutation l l' -> NoDup (map fst l) -> lookup key l' = lookup key l.
Proof.
  intros Hp Hd.
  assert (Hd' : NoDup (map fst l'))
    by (apply (Permutation_NoDup (Permutation_map fst Hp)); exact Hd).
  destruct (lookup key l) as [v|] eqn:E.
  - apply In_lookup; [exact Hd'|].
    apply (Permutation_in _ Hp). now apply lookup_Some_In.
  - destruct (lookup key l') as [v|] eqn:E'; [|reflexivity].
    apply lookup_Some_In in E'.
    apply (Permutation_in _ (Permutation_sym Hp)) in E'.
    rewrite (In_lookup key v l Hd E') in E. discriminate.
Qed.

Lemma insert_by_index_Permutation (n : N) (member : jsstring * JSValue)
  (l : list (N * (jsstring * JSValue))) :
  Permutation (map snd (insert_by_index n member l)) (member :: map snd l).
Proof.
  induction l as [|[m x] l IH]; simpl; [apply Permutation_refl|].
  destruct (n <? m)%N; simpl; [apply Permutation_refl|].
  apply (perm_trans (perm_skip x IH)). apply perm_swap.
Qed.

Lemma in_key_order_Permutation (l : JSObject) : Permutation l (in_key_order l).
Proof.
  unfold in_key_order. induction l as [|a l IH]; [apply Permutation_refl|].
  simpl. unfold named_property at 1.
  destruct (array_index (fst a)) as [n|].
  - apply Permutation_sym.
    apply (perm_trans (Permutation_app_tail _ (insert_by_index_Permutation n a _))).
    simpl. apply perm_skip. apply Permutation_sym. exact IH.
  - apply (perm_trans (perm_skip a IH)). apply Permutation_middle.
Qed.

Lemma own_members_Permutation (members : JSObject) :
  Permutation
    (fold_left (fun acc member => define_property (fst member) (snd member) acc)
               members [])
    (own_members members).
Proof. apply in_key_order_Permutation. Qed.

Lemma own_members_NoDup (members : JSObject) :
  NoDup (map fst (own_members members)).
Proof.
  apply (Permutation_NoDup (Permutation_map fst (own_members_Permutation members))).
  apply (own_members_from members []). constructor.
Qed.

Lemma lookup_own_members (key : jsstring) (members : JSObject) :
  lookup key (own_members members) = lookup key members.
Proof.
  rewrite (lookup_Permutation key _ _ (own_members_Permutation members))
    by (apply (own_members_from members []); constructor).
  rewrite (proj2 (own_members_from members [] (NoDup_nil _))).
  now destruct (lookup key members).
Qed.

Lemma In_own_members (member : jsstring * JSValue) (members : JSObject) :
  In member (own_members members) -> In member members.
Proof.
  destruct member as [k v]. intros H.
  apply lookup_Some_In. rewrite <- lookup_own_members.
  apply In_lookup; [apply own_members_NoDup|exact H].
Qed.

Lemma In_indexed (member : jsstring * JSValue) (l : list JSValue) :
  forall i, In member (indexed i l) -> In (snd member) l.
Proof.
  induction l as [|v l IH]; intros i; simpl; [tauto|].
  intros [<-|H]; [now left|right; now apply (IH (i + 1)%N)].
Qed.

(** What Object.assign copies from a value that round trips does so too. *)
Lemma own_enumerable_round_trips (data : JSValue) :
  round_trips data = true ->
  forallb (fun member => round_trips (snd member)) (own_enumerable data) = true.
Proof.
  intros H. apply forallb_forall. intros member Hin.
  destruct data as [| |b|n|s|elements|members]; simpl in Hin; try contradiction.
  - apply In_indexed in Hin. apply in_map_iff in Hin.
    destruct Hin as (c & <- & _). reflexivity.
  - apply In_indexed in Hin. simpl in H.
    rewrite forallb_forall in H. now apply H.
  - apply In_own_members in Hin. simpl in H.
    rewrite forallb_forall in H. now apply (H member).
Qed.

Lemma decimal_not_proto (i : N) : decimal i <> lit "__proto__".
Proof. unfold decimal. destruct (N.to_uint i); simpl; discriminate. Qed.

Lemma indexed_no_proto (l : list JSValue) :
  forall i, ~ In (lit "__proto__") (map fst (indexed i l)).
Proof.
  induction l as [|v l IH]; intros i; simpl; [tauto|].
  intros [H|H]; [now apply (decimal_not_proto i)|now apply (IH (i + 1)%N)].
Qed.

Lemma fold_Set_no_proto (writes : JSObject) :
  forall t : Target,
    ~ In (lit "__proto__") (map fst writes) ->
    fold_left Set_property writes t
    = {| own_properties := own_properties t ++ writes;
         prototype_of := prototype_of t |}.
Proof.
  induction writes as [|[k v] r IH]; intros t H; simpl.
  - rewrite app_nil_r. now destruct t.
  - simpl in H. unfold Set_property at 2. simpl fst.
    rewrite (jsstring_eqb_neq k (lit "__proto__")) by (intros ->; tauto).
    simpl. rewrite IH by tauto. simpl. now rewrite <- app_assoc.
Qed.

Lemma set_prototype_own (v : JSValue) (t : Target) :
  own_properties (set_prototype v t) = own_properties t.
Proof. now destruct v. Qed.

Lemma set_prototype_fresh (v : JSValue) (t : Target) :
  prototype_of t = ObjectPrototype ->
  prototype_of (set_prototype v t) = loaded_prototype (Some v).
Proof. intros H. destruct v; simpl; now rewrite ?H. Qed.

(** Assigning properties with distinct keys to a target that still inherits
    from Object.prototype and owns no [__proto__]. *)
Lemma fold_Set_distinct (writes : JSObject) :
  forall t : Target,
    NoDup (map fst writes) ->
    lookup (lit "__proto__") (own_properties t) = None ->
    prototype_of t = ObjectPrototype ->
    fold_left Set_property writes t
    = {| own_properties := own_properties t ++ filter writes_own_property writes;
         prototype_of := loaded_prototype (lookup (lit "__proto__") writes) |}.
Proof.
  induction writes as [|[k v] r IH]; intros t Hd Hown Hp; simpl.
  - rewrite app_nil_r. destruct t; simpl in *. now subst.
  - inversion Hd as [|? ? Hk Hr]; subst.
    unfold Set_property at 2. simpl fst. simpl snd.
    unfold writes_own_property at 1. simpl fst.
    destruct (JSString.eqb k (lit "__proto__")) eqn:E.
    + apply jsstring_eqb_eq in E. subst k.
      unfold setter_reachable. rewrite Hown, Hp. simpl andb. cbv iota.
      rewrite (fold_Set_no_proto r _ Hk), set_prototype_own,
        (set_prototype_fresh v t Hp), (filter_no_proto r Hk),
        (lookup_absent _ r Hk).
      reflexivity.
    + simpl andb. cbv iota. simpl negb. cbv iota.
      rewrite IH; simpl; try assumption.
      * rewrite <- app_assoc. simpl.
        now destruct (lookup (lit "__proto__") r).
      * rewrite lookup_app. simpl. rewrite E. exact Hown.
Qed.

Lemma assign_source (source : JSValue) (t : Target) :
  lookup (lit "__proto__") (own_properties t) = None ->
  prototype_of t = ObjectPrototype ->
  fold_left Set_property (own_enumerable source) t
  = {| own_properties :=
         own_properties t ++ filter writes_own_property (own_enumerable source);
       prototype_of :=
         loaded_prototype (lookup (lit "__proto__") (own_enumerable source)) |}.
Proof.
  intros Hown Hp.
  assert (Hno : forall writes,
             ~ In (lit "__proto__") (map fst writes) ->
             fold_left Set_property writes t
             = {| own_properties := own_properties t ++ filter writes_own_property writes;
                  prototype_of := loaded_prototype (lookup (lit "__proto__") writes) |}).
  { intros writes H.
    rewrite (fold_Set_no_proto writes t H), (filter_no_proto writes H),
      (lookup_absent _ writes H), Hp. reflexivity. }
  destruct source as [| |b|n|s|elements|members]; simpl own_enumerable;
    try (apply Hno; simpl; tauto).
  - apply Hno. apply indexed_no_proto.
  - apply Hno. apply indexed_no_proto.
  - apply fold_Set_distinct; [apply own_members_NoDup|exact Hown|exact Hp].
Qed.

Lemma loadSettings_eq (p : Plugin) :
  loadSettings p
  = {| plugin_settings :=
         settings_object DEFAULT_SETTINGS
         ++ filter writes_own_property (own_enumerable (plugin_data p));
       plugin_prototype :=
         loaded_prototype (lookup (lit "__proto__") (own_enumerable (plugin_data p)));
       plugin_data := plugin_data p |}.
Proof.
  unfold loadSettings, Object_assign. cbn [fold_left].
  change (fold_left Set_property
            (own_enumerable (JObject (settings_object DEFAULT_SETTINGS)))
            {| own_properties := []; prototype_of := ObjectPrototype |})
    with {| own_properties := settings_object DEFAULT_SETTINGS;
            prototype_of := ObjectPrototype |}.
  rewrite assign_source by reflexivity. reflexivity.
Qed.

Lemma loadSettings_lookup (p : Plugin) (key : jsstring) :
  key <> lit "__proto__" ->
  lookup key (plugin_settings (loadSettings p))
  = match lookup key (own_enumerable (plugin_data p)) with
    | Some v => Some v
    | None => lookup key (settings_object DEFAULT_SETTINGS)
    end.
Proof.
  intros H. rewrite loadSettings_eq. cbn [plugin_settings].
  rewrite lookup_app, lookup_own_writes by exact H. reflexivity.
Qed.

Lemma loadSettings_no_own_proto (p : Plugin) :
  lookup (lit "__proto__") (plugin_settings (loadSettings p)) = None.
Proof.
  rewrite loadSettings_eq. cbn [plugin_settings].
  rewrite lookup_app, lookup_filtered_proto. reflexivity.
Qed.

Lemma default_key_not_proto (key : jsstring) :
  lookup key (settings_object DEFAULT_SETTINGS) <> None ->
  key <> lit "__proto__".
Proof. intros H ->. apply H. reflexivity. Qed.

Lemma loadSettings_in_sync (p : Plugin) :
  round_trips (plugin_data p) = true -> in_sync (loadSettings p).
Proof.
  intros Hs.
  assert (E : loadSettings (loadSettings p) = loadSettings p)
    by (rewrite !loadSettings_eq; reflexivity).
  split; [|split; [|split; [|split]]].
  - intros key. now rewrite E.
  - intros key H. rewrite loadSettings_lookup by now apply default_key_not_proto.
    destruct (lookup key (own_enumerable (plugin_data p))); [discriminate|exact H].
  - apply loadSettings_no_own_proto.
  - rewrite loadSettings_eq. cbn [plugin_settings round_trips].
    rewrite forallb_app. apply andb_true_iff. split; [reflexivity|].
    apply forallb_forall. intros member Hin. apply filter_In in Hin.
    pose proof (own_enumerable_round_trips _ Hs) as Hall.
    rewrite forallb_forall in Hall. now apply Hall.
  - rewrite loadSettings_eq. exact Hs.
Qed.

Lemma saved_assignment_in_sync (field value : jsstring) (p : Plugin) :
  field <> lit "__proto__" ->
  in_sync p -> in_sync (saveSettings (assign_setting field value p)).
Proof.
  intros Hf (_ & Hd & Hown & Hv & _).
  assert (Hown' : lookup (lit "__proto__")
                    (plugin_settings p ++ [(field, JString value)]) = None).
  { rewrite lookup_app. simpl.
    now rewrite (jsstring_eqb_neq field (lit "__proto__") Hf). }
  assert (Hv' : round_trips (JObject (plugin_settings p ++ [(field, JString value)]))
                = true).
  { simpl. rewrite forallb_app. simpl in Hv. rewrite Hv. reflexivity. }
  split; [|split; [|split; [|split]]].
  - intros key. rewrite loadSettings_eq.
    cbn [plugin_settings plugin_data saveSettings assign_setting own_enumerable].
    rewrite lookup_app.
    destruct (JSString.eqb key (lit "__proto__")) eqn:Ek.
    + apply jsstring_eqb_eq in Ek. subst key.
      now rewrite lookup_filtered_proto, Hown'.
    + assert (Hk : key <> lit "__proto__")
        by (intros ->; rewrite jsstring_eqb_refl in Ek; discriminate).
      rewrite (lookup_own_writes key _ Hk), lookup_own_members.
      destruct (lookup key (plugin_settings p ++ [(field, JString value)])) eqn:E;
        [reflexivity|].
      destruct (lookup key (settings_object DEFAULT_SETTINGS)) eqn:D; [|reflexivity].
      exfalso. rewrite lookup_app in E.
      destruct (lookup key [(field, JString value)]); [discriminate|].
      apply (Hd key); [now rewrite D|exact E].
  - intros key H. cbn [plugin_settings saveSettings assign_setting].
    rewrite lookup_app.
    destruct (lookup key [(field, JString value)]); [discriminate|].
    now apply Hd.
  - exact Hown'.
  - exact Hv'.
  - exact Hv'.
Qed.

Lemma apply_change_in_sync (p : Plugin) (c : Change) :
  in_sync p -> in_sync (apply_change p c).
Proof. destruct c; apply saved_assignment_in_sync; discriminate. Qed.

Lemma changes_in_sync (changes : list Change) :
  forall p, in_sync p -> in_sync (fold_left apply_change changes p).
Proof.
  induction changes as [|c cs IH]; intros p H; [exact H|].
  simpl. apply IH. now apply apply_change_in_sync.
Qed.

Lemma changes_saved (changes : list Change) :
  forall p,
    changes <> [] ->
    plugin_data (fold_left apply_change changes p)
    = JObject (plugin_settings (fold_left apply_change changes p)).
Proof.
  induction changes as [|c cs IH]; intros p H; [contradiction|].
  destruct cs as [|c' cs'].
  - destruct c; reflexivity.
  - apply (IH (apply_change p c)). discriminate.
Qed.

Lemma changes_prototype (changes : list Change) :
  forall p,
    plugin_prototype (fold_left apply_change changes p) = plugin_prototype p.
Proof.
  induction changes as [|c cs IH]; intros p; [reflexivity|].
  simpl. rewrite IH. destruct c; reflexivity.
Qed.

Lemma current_settings_ext (p q : Plugin) :
  (forall key, key <> lit "__proto__" ->
               lookup key (plugin_settings p) = lookup key (plugin_settings q)) ->
  current_settings p = current_settings q.
Proof.
  intros H. unfold current_settings.
  now rewrite !H by discriminate.
Qed.

Lemma current_settings_lookups (p : Plugin) (s : LatexConverterSettings) :
  current_settings p = Some s ->
  lookup (lit "ollamaModel") (plugin_settings p) = Some (JString (ollamaModel s))
  /\ lookup (lit "llmPrompt") (plugin_settings p) = Some (JString (llmPrompt s))
  /\ lookup (lit "keepAlive") (plugin_settings p) = Some (JString (keepAlive s)).
Proof.
  unfold current_settings.
  destruct (lookup (lit "ollamaModel") (plugin_settings p)) as [[| | | |m| |]|];
    try discriminate.
  destruct (lookup (lit "llmPrompt") (plugin_settings p)) as [[| | | |t| |]|];
    try discriminate.
  destruct (lookup (lit "keepAlive") (plugin_settings p)) as [[| | | |k| |]|];
    try discriminate.
  intros H; inversion H; subst. now repeat split.
Qed.

End Settings.

(** loadSettings lays the stored data over the defaults. Every key the
    stored data has, [__proto__] apart, becomes an own property of the
    settings with the stored value; every other own property is a default. A
    stored [__proto__] member is never an own property: Object.assign hands
    it to the setter of Object.prototype, so an object, an array or [null]
    becomes the prototype of the settings, and a read of a key the settings
    do not own goes on to it. The three settings are own properties in every
    case. So a first start (nothing stored) gives the defaults, data written
    by saveSettings comes back whole, and data from before a setting existed
    gets that setting's default. *)
Theorem loadSettings_defaults_and_overrides :
  forall p : Plugin,
    (forall key,
        key <> lit "__proto__" ->
        lookup key (plugin_settings (loadSettings p))
        = match lookup key (own_enumerable (plugin_data p)) with
          | Some v => Some v
          | None => lookup key (settings_object DEFAULT_SETTINGS)
          end)
    /\ lookup (lit "__proto__") (plugin_settings (loadSettings p)) = None
    /\ plugin_prototype (loadSettings p)
       = loaded_prototype (lookup (lit "__proto__") (own_enumerable (plugin_data p)))
    /\ (forall key,
          key <> lit "__proto__" ->
          Get key (loadSettings p)
          = match lookup key (own_enumerable (plugin_data p)) with
            | Some v => Some v
            | None =>
                match lookup key (settings_object DEFAULT_SETTINGS) with
                | Some v => Some v
                | None =>
                    match loaded_prototype
                            (lookup (lit "__proto__")
                                    (own_enumerable (plugin_data p))) with
                    | ValuePrototype v => own_property key v
                    | _ => None
                    end
                end
            end)
    /\ (plugin_data p = JNull ->
        current_settings (loadSettings p) = Some DEFAULT_SETTINGS)
    /\ (forall stored,
          plugin_data p = JObject (settings_object stored) ->
          current_settings (loadSettings p) = Some stored)
    /\ (forall m t,
          plugin_data p
          = JObject [(lit "ollamaModel", JString m); (lit "llmPrompt", JString t)] ->
          current_settings (loadSettings p)
          = Some {| ollamaModel := m; llmPrompt := t; keepAlive := lit "5m" |}).
Proof.
  intros p. split; [intros key H; now apply loadSettings_lookup|].
  split; [apply loadSettings_no_own_proto|].
  split; [rewrite loadSettings_eq; reflexivity|].
  split.
  { intros key H. unfold Get. rewrite (loadSettings_lookup p key H).
    rewrite loadSettings_eq. cbn [plugin_prototype].
    destruct (lookup key (own_enumerable (plugin_data p))); [reflexivity|].
    now destruct (lookup key (settings_object DEFAULT_SETTINGS)). }
  unfold current_settings.
  split; [|split].
  - intros E. rewrite !loadSettings_lookup, E by discriminate. reflexivity.
  - intros [m t k] E. rewrite !loadSettings_lookup, E by discriminate. reflexivity.
  - intros m t E. rewrite !loadSettings_lookup, E by discriminate. reflexivity.
Qed.

Lemma loadSettings_defaults_and_overrides_witness :
  Get (lit "extra")
    (loadSettings
       (installed
          (JObject [(lit "__proto__", JObject [(lit "extra", JString (lit "e"))]);
                    (lit "llmPrompt", JString (lit "TeX: {input}"))])))
  = Some (JString (lit "e"))
  /\ lookup (lit "extra")
       (plugin_settings
          (loadSettings
             (installed
                (JObject [(lit "__proto__",
                           JObject [(lit "extra", JString (lit "e"))]);
                          (lit "llmPrompt", JString (lit "TeX: {input}"))]))))
     = None
  /\ current_settings
       (loadSettings
          (installed
             (JObject [(lit "ollamaModel", JString (lit "mistral"));
                       (lit "llmPrompt", JString (lit "TeX: {input}"))])))
     = Some {| ollamaModel := lit "mistral"; llmPrompt := lit "TeX: {input}";
               keepAlive := lit "5m" |}.
Proof.
  split; [|split].
  - refine (eq_trans
      (proj1 (proj2 (proj2 (proj2 (loadSettings_defaults_and_overrides _))))
         (lit "extra") _) _); [discriminate|reflexivity].
  - refine (eq_trans
      (proj1 (loadSettings_defaults_and_overrides _) (lit "extra") _) _);
      [discriminate|reflexivity].
  - refine (proj2 (proj2 (proj2 (proj2 (proj2 (proj2
      (loadSettings_defaults_and_overrides
         (installed
            (JObject [(lit "ollamaModel", JString (lit "mistral"));
                      (lit "llmPrompt", JString (lit "TeX: {input}"))]))))))))
      (lit "mistral") (lit "TeX: {input}") eq_refl).
Defined.

(** A change in the settings tab sets its one field to the value typed,
    leaves the other two as they were, and saves the whole settings object
    at once. *)
Theorem setting_change_is_saved :
  forall (p : Plugin) (s : LatexConverterSettings) (c : Change),
    current_settings p = Some s ->
    current_settings (apply_change p c)
    = Some match c with
           | ChangeModel value =>
               {| ollamaModel := value; llmPrompt := llmPrompt s;
                  keepAlive := keepAlive s |}
           | ChangePrompt value =>
               {| ollamaModel := ollamaModel s; llmPrompt := value;
                  keepAlive := keepAlive s |}
           | ChangeKeepAlive value =>
               {| ollamaModel := ollamaModel s; llmPrompt := llmPrompt s;
                  keepAlive := value |}
           end
    /\ plugin_data (apply_change p c) = JObject (plugin_settings (apply_change p c)).
Proof.
  intros p s c H. split; [|destruct c; reflexivity].
  destruct (current_settings_lookups p s H) as (Em & Et & Ek).
  unfold current_settings.
  destruct c; simpl plugin_settings; rewrite !lookup_app; simpl;
    rewrite ?Em, ?Et, ?Ek; reflexivity.
Qed.

Lemma setting_change_is_saved_witness :
  current_settings
    (apply_change
       (loadSettings {| plugin_settings := [];
                        plugin_prototype := ObjectPrototype;
                        plugin_data := JNull |})
       (ChangeKeepAlive (lit "-1")))
  = Some {| ollamaModel := lit "llama2";
            llmPrompt := llmPrompt DEFAULT_SETTINGS; keepAlive := lit "-1" |}.
Proof.
  exact (proj1 (setting_change_is_saved
     (loadSettings {| plugin_settings := [];
                      plugin_prototype := ObjectPrototype;
                      plugin_data := JNull |})
     DEFAULT_SETTINGS (ChangeKeepAlive (lit "-1")) eq_refl)).
Defined.

(** Whatever was stored before, as long as its JSON text keeps it, and
    whatever the user changes in the settings tab afterwards, loading again
    from the storage (the next start of the plugin) gives, key by key, the
    own properties the settings had: nothing changed is lost and nothing is
    reset to its default, and what is stored then is kept by its JSON text
    again. The prototype is another matter: the settings keep the one a
    stored [__proto__] member gave them until the plugin stops, but the first
    save stores none, so after the next start they inherit from
    Object.prototype. *)
Theorem settings_survive_restart :
  forall (p0 : Plugin) (changes : list Change),
    round_trips (plugin_data p0) = true ->
    (forall key,
        lookup key
          (plugin_settings
             (loadSettings (fold_left apply_change changes (loadSettings p0))))
        = lookup key
            (plugin_settings (fold_left apply_change changes (loadSettings p0))))
    /\ current_settings
         (loadSettings (fold_left apply_change changes (loadSettings p0)))
       = current_settings (fold_left apply_change changes (loadSettings p0))
    /\ round_trips (plugin_data (fold_left apply_change changes (loadSettings p0)))
       = true
    /\ plugin_prototype (fold_left apply_change changes (loadSettings p0))
       = loaded_prototype
           (lookup (lit "__proto__") (own_enumerable (plugin_data p0)))
    /\ plugin_prototype
         (loadSettings (fold_left apply_change changes (loadSettings p0)))
       = match changes with
         | [] => loaded_prototype
                   (lookup (lit "__proto__") (own_enumerable (plugin_data p0)))
         | _ :: _ => ObjectPrototype
         end.
Proof.
  intros p0 changes Hs.
  destruct (changes_in_sync changes (loadSettings p0) (loadSettings_in_sync p0 Hs))
    as (H & _ & Hown & _ & Hv).
  split; [exact H|].
  split; [apply current_settings_ext; intros key _; apply H|].
  split; [exact Hv|].
  split; [rewrite changes_prototype, loadSettings_eq; reflexivity|].
  destruct changes as [|c cs]; [rewrite !loadSettings_eq; reflexivity|].
  rewrite loadSettings_eq. cbn [plugin_prototype].
  rewrite (changes_saved (c :: cs)) by discriminate.
  cbn [own_enumerable]. now rewrite lookup_own_members, Hown.
Qed.

Lemma settings_survive_restart_witness :
  current_settings
    (loadSettings
       (fold_left apply_change
          [ChangeModel (lit "mistral"); ChangeKeepAlive (lit "-1");
           ChangeModel (lit "phi3")]
          (loadSettings
             (installed
                (JObject [(lit "llmPrompt", JString (lit "TeX: {input}"));
                          (lit "__proto__",
                           JObject [(lit "extra", JString (lit "e"))])])))))
  = Some {| ollamaModel := lit "phi3"; llmPrompt := lit "TeX: {input}";
            keepAlive := lit "-1" |}
  /\ Get (lit "extra")
       (fold_left apply_change
          [ChangeModel (lit "mistral"); ChangeKeepAlive (lit "-1");
           ChangeModel (lit "phi3")]
          (loadSettings
             (installed
                (JObject [(lit "llmPrompt", JString (lit "TeX: {input}"));
                          (lit "__proto__",
                           JObject [(lit "extra", JString (lit "e"))])]))))
     = Some (JString (lit "e"))
  /\ Get (lit "extra")
       (loadSettings
          (fold_left apply_change
             [ChangeModel (lit "mistral"); ChangeKeepAlive (lit "-1");
              ChangeModel (lit "phi3")]
             (loadSettings
                (installed
                   (JObject [(lit "llmPrompt", JString (lit "TeX: {input}"));
                             (lit "__proto__",
                              JObject [(lit "extra", JString (lit "e"))])])))))
     = None
  /\ plugin_prototype
       (loadSettings
          (fold_left apply_change
             [ChangeModel (lit "mistral"); ChangeKeepAlive (lit "-1");
              ChangeModel (lit "phi3")]
             (loadSettings
                (installed
                   (JObject [(lit "llmPrompt", JString (lit "TeX: {input}"));
                             (lit "__proto__",
                              JObject [(lit "extra", JString (lit "e"))])])))))
     = ObjectPrototype.
Proof.
  destruct (settings_survive_restart
              (installed
                 (JObject [(lit "llmPrompt", JString (lit "TeX: {input}"));
                           (lit "__proto__",
                            JObject [(lit "extra", JString (lit "e"))])]))
              [ChangeModel (lit "mistral"); ChangeKeepAlive (lit "-1");
               ChangeModel (lit "phi3")] eq_refl)
    as (_ & Hsame & _ & _ & Hprototype).
  split; [|split; [|split]].
  - rewrite Hsame. vm_compute. reflexivity.
  - vm_compute. reflexivity.
  - vm_compute. reflexivity.
  - exact Hprototype.
Defined.

(** A prompt template typed in the settings tab is the one the very next
    conversion uses, with the model and the keep-alive as they were: the
    request it issues carries the prompt built from the new template. *)
Theorem changed_prompt_is_used_at_once :
  forall (p : Plugin) (s : LatexConverterSettings) (value : jsstring)
         (host : Host) (w : World),
    current_settings p = Some s ->
    doc_selection (editor w) <> [] ->
    exists s' request,
      current_settings (onChange_llmPrompt value p) = Some s'
      /\ requests (snd (convertToLatex s' host w)) = requests w ++ [request]
      /\ prompt (body request)
         = replace value (lit "{input}") (sanitizedInput (doc_selection (editor w)))
      /\ model (body request) = ollamaModel s
      /\ keep_alive (body request) = keepAlive s.
Proof.
  intros p s value host w H Hsel.
  exists {| ollamaModel := ollamaModel s; llmPrompt := value;
            keepAlive := keepAlive s |}.
  eexists. split; [|split].
  - destruct (current_settings_lookups p s H) as (Em & Et & Ek).
    unfold current_settings.
    simpl plugin_settings. rewrite !lookup_app. simpl.
    rewrite ?Em, ?Et, ?Ek. reflexivity.
  - now apply convertToLatex_requests.
  - now repeat split.
Qed.

Lemma changed_prompt_is_used_at_once_witness :
  exists s' request,
    current_settings
      (onChange_llmPrompt (lit "TeX for {input}")
         (loadSettings {| plugin_settings := [];
                          plugin_prototype := ObjectPrototype;
                          plugin_data := JNull |}))
    = Some s'
    /\ requests (snd (convertToLatex s' (answering (streamed []))
                        (selecting (lit "x squared"))))
       = [request]
    /\ prompt (body request) = lit "TeX for x squared".
Proof.
  destruct (changed_prompt_is_used_at_once
              (loadSettings {| plugin_settings := [];
                               plugin_prototype := ObjectPrototype;
                               plugin_data := JNull |})
              DEFAULT_SETTINGS (lit "TeX for {input}") (answering (streamed []))
              (selecting (lit "x squared")) eq_refl)
    as (s' & request & Hs & Hr & Hp & _).
  - discriminate.
  - exists s', request. split; [exact Hs|]. split; [exact Hr|].
    rewrite Hp. vm_compute. reflexivity.
Defined.

Lemma read_boundary_at_line_end_is_harmless_witness :
  fst (read_loop (answering (streamed []))
         [jq "{'response':'x'}" ++ [ch_lf]; jq "{'response':'^2'}" ++ [ch_lf]]
         None [] (selecting []))
  = fst (read_loop (answering (streamed []))
           [jq "{'response':'x'}" ++ ch_lf :: jq "{'response':'^2'}" ++ [ch_lf]]
           None [] (selecting [])).
Proof.
  exact (proj1 (read_boundary_at_line_end_is_harmless
     (answering (streamed [])) [] [] (jq "{'response':'x'}")
     (jq "{'response':'^2'}" ++ [ch_lf]) None [] (selecting []) (selecting []))).
Defined.
